(** * amplifier-skills-plugin: the two documentation sync pipelines

    A shallow embedding of [scripts/sync_amplifier_core.py] and
    [scripts/sync_ddd.py], and the properties their specification states.

    - [Py]: the [str] methods the scripts call.
    - [Re]: [re.sub] for the pattern syntax the scripts use.
    - [Os]: paths, the file tree, and the effects of the scripts
      (exists, read_text, mkdir, write_text, print) as a state and
      exception monad.
    - [Core], [DDD]: the two scripts, function by function.
    - [Spec]: the notions the properties are stated with.
    - [Sample]: documents and trees for the sample runs.

    Characters are the code points U+0000..U+00FF, held in [ascii]; a [str]
    is a [string]. *)

From Stdlib Require Import Ascii String.
From stdpp Require Import gmap strings list fin_maps.

(** ** Python's [str] methods *)

Module Py.

(** The line feed, written "\n" in the scripts. *)
Definition nl : ascii := "010"%char.

(** [str.isspace] on one character (Py_UNICODE_ISSPACE below U+0100):
    \t \n \v \f \r, the separators U+001C..U+001F, the space, U+0085 and
    U+00A0. *)
Definition is_space (c : ascii) : bool :=
  let n := nat_of_ascii c in
  ((9 <=? n) && (n <=? 13)) || ((28 <=? n) && (n <=? 32))
  || (n =? 133) || (n =? 160).

(** [s.startswith(pre)] *)
Fixpoint startswith (s pre : string) {struct pre} : bool :=
  match pre with
  | EmptyString => true
  | String a pre' =>
      match s with
      | EmptyString => false
      | String b s' => Ascii.eqb a b && startswith s' pre'
      end
  end.

(** [s[n:]] *)
Fixpoint drop (n : nat) (s : string) : string :=
  match n, s with
  | S n', String _ s' => drop n' s'
  | _, _ => s
  end.

(** [s.lstrip()] *)
Fixpoint lstrip (s : string) : string :=
  match s with
  | EmptyString => EmptyString
  | String c s' => if is_space c then lstrip s' else s
  end.

(** The leftmost occurrence of a non-empty [sep] in [s]: the text before
    it and the text after it ([s.partition(sep)] without the middle), or
    [None] when [sep] does not occur. *)
Fixpoint find_split (sep s : string) : option (string * string) :=
  if startswith s sep then Some (EmptyString, drop (String.length sep) s)
  else
    match s with
    | EmptyString => None
    | String c s' =>
        match find_split sep s' with
        | Some (before, after) => Some (String c before, after)
        | None => None
        end
    end.

(** [s.split(sep, maxsplit)] for a non-empty [sep]: at most [maxsplit]
    cuts, at the leftmost occurrences. *)
Fixpoint split (sep : string) (maxsplit : nat) (s : string) : list string :=
  match maxsplit with
  | O => [s]
  | S n =>
      match find_split sep s with
      | None => [s]
      | Some (before, after) => before :: split sep n after
      end
  end.

(** [s.replace(old, new)] for a non-empty [old]: every occurrence, left
    to right, without overlap. [skip] counts the characters of the current
    occurrence still to pass over. *)
Fixpoint replace_from (old new : string) (skip : nat) (s : string) : string :=
  match s with
  | EmptyString => EmptyString
  | String c s' =>
      match skip with
      | S k => replace_from old new k s'
      | O =>
          if startswith s old
          then new +:+ replace_from old new (String.length old - 1) s'
          else String c (replace_from old new 0 s')
      end
  end.

(** With an empty [old], Python puts [new] before every character and at
    the end. *)
Fixpoint interleave (new s : string) : string :=
  match s with
  | EmptyString => new
  | String c s' => new +:+ String c (interleave new s')
  end.

Definition replace (old new s : string) : string :=
  match old with
  | EmptyString => interleave new s
  | _ => replace_from old new 0 s
  end.

(** [sep.join(parts)] *)
Definition join (sep : string) (parts : list string) : string :=
  String.concat sep parts.

(** [old in s] *)
Definition contains (s sub : string) : bool :=
  match find_split sub s with Some _ => true | None => false end.

(** The exceptions a run can end with; the operating system's carry the
    path they are about, as the components of the path. *)
Inductive exn : Type :=
  | FileNotFoundError (msg : string)
  | FileExistsError (p : list string)
  | IsADirectoryError (p : list string)
  | NotADirectoryError (p : list string)
  | ValueError (msg : string)
  | ReError (pattern : string).

(** A call returns or raises. *)
Inductive Result (A : Type) : Type :=
  | Ok (a : A)
  | Raise (e : exn).
Arguments Ok {A} a.
Arguments Raise {A} e.

End Py.

(** ** [re.sub] *)

(** The scripts' patterns use a small part of the syntax of [re]:
    literal and backslash-escaped characters, [.], [\s], negated sets
    [[^...]], the greedy quantifiers [*] and [+] on one of these, a
    capturing group around one quantified item, and [^] and [$] under
    [re.MULTILINE]. [compile] reads that part and refuses the rest, so
    the rule tables below hold the pattern strings of the source. *)

Module Re.

Inductive cclass : Type :=
  | CChar (c : ascii)          (* one given character *)
  | CAny                       (* [.]: any character but the line feed *)
  | CSpace                     (* [\s] *)
  | CNot (cs : list ascii).    (* [[^...]] *)

Inductive quant : Type := One | Star | Plus.

Inductive atom : Type :=
  | Atom (cl : cclass) (q : quant) (captured : bool)
  | LineStart                  (* [^] under MULTILINE *)
  | LineEnd.                   (* [$] under MULTILINE *)

Definition regex : Type := list atom.

Definition cmatch (cl : cclass) (c : ascii) : bool :=
  match cl with
  | CChar a => Ascii.eqb a c
  | CAny => negb (Ascii.eqb c Py.nl)
  | CSpace => Py.is_space c
  | CNot cs => negb (existsb (Ascii.eqb c) cs)
  end.

(** The number of capturing groups of a pattern. *)
Fixpoint groups (re : regex) : nat :=
  match re with
  | [] => 0
  | Atom _ _ true :: re' => S (groups re')
  | _ :: re' => groups re'
  end.

(** *** Reading a pattern *)

Definition is_digit (c : ascii) : bool :=
  let n := nat_of_ascii c in (48 <=? n) && (n <=? 57).

Definition is_octdigit (c : ascii) : bool :=
  let n := nat_of_ascii c in (48 <=? n) && (n <=? 55).

Definition is_ascii_letter (c : ascii) : bool :=
  let n := nat_of_ascii c in
  ((65 <=? n) && (n <=? 90)) || ((97 <=? n) && (n <=? 122)).

(** Characters with a meaning of their own in a pattern. *)
Definition is_special (c : ascii) : bool :=
  existsb (Ascii.eqb c)
    ["."; "^"; "$"; "*"; "+"; "?"; "{"; "}"; "["; "]"; "("; ")"; "|"; "\"]%char.

(** A backslash escape, in or out of a set: [\s] is the white space
    class, an escaped character that is no letter or digit stands for
    itself, and the other escapes are outside the part modelled. *)
Definition read_escape (c : ascii) : option cclass :=
  if Ascii.eqb c "s" then Some CSpace
  else if is_ascii_letter c || is_digit c then None
  else Some (CChar c).

(** The members of a set, up to its closing bracket. Ranges and classes
    inside a set are outside the part modelled. *)
Fixpoint read_set (s : string) (acc : list ascii) : option (list ascii * string) :=
  match s with
  | EmptyString => None
  | String c s' =>
      if Ascii.eqb c "]" then Some (acc, s')
      else if Ascii.eqb c "\" then
        match s' with
        | String e s'' =>
            match read_escape e with
            | Some (CChar x) => read_set s'' (acc ++ [x])
            | _ => None
            end
        | EmptyString => None
        end
      else if Ascii.eqb c "-" || Ascii.eqb c "[" then None
      else read_set s' (acc ++ [c])
  end.

(** One character class at the head of [s]. *)
Definition read_class (s : string) : option (cclass * string) :=
  match s with
  | EmptyString => None
  | String c s' =>
      if Ascii.eqb c "\" then
        match s' with
        | String e s'' =>
            match read_escape e with
            | Some cl => Some (cl, s'')
            | None => None
            end
        | EmptyString => None
        end
      else if Ascii.eqb c "[" then
        match s' with
        | String "^" s'' =>
            match read_set s'' [] with
            | Some ([], _) => None
            | Some (cs, rest) => Some (CNot cs, rest)
            | None => None
            end
        | _ => None
        end
      else if Ascii.eqb c "." then Some (CAny, s')
      else if is_special c then None
      else Some (CChar c, s')
  end.

(** The quantifier after a class; a second quantifier character (lazy
    and possessive forms, counted repetition) is refused. *)
Definition read_quant (s : string) : option (quant * string) :=
  let plain (q : quant) (rest : string) :=
    match rest with
    | String c _ =>
        if existsb (Ascii.eqb c) ["*"; "+"; "?"; "{"]%char then None
        else Some (q, rest)
    | EmptyString => Some (q, rest)
    end in
  match s with
  | String "*" rest => plain Star rest
  | String "+" rest => plain Plus rest
  | _ => plain One s
  end.

Definition read_item (s : string) : option (cclass * quant * string) :=
  match read_class s with
  | Some (cl, rest) =>
      match read_quant rest with
      | Some (q, rest') => Some (cl, q, rest')
      | None => None
      end
  | None => None
  end.

(** [fuel] bounds the number of atoms; the length of the pattern is
    enough. *)
Fixpoint read_atoms (fuel : nat) (multiline : bool) (s : string) : option regex :=
  match s with
  | EmptyString => Some []
  | String c s' =>
      match fuel with
      | O => None
      | S fuel' =>
          let next (a : atom) (rest : string) :=
            match read_atoms fuel' multiline rest with
            | Some re => Some (a :: re)
            | None => None
            end in
          if Ascii.eqb c "^" then
            if multiline then next LineStart s' else None
          else if Ascii.eqb c "$" then
            if multiline then next LineEnd s' else None
          else if Ascii.eqb c "(" then
            match read_item s' with
            | Some (cl, q, String ")" rest) =>
                match read_quant rest with
                | Some (One, _) => next (Atom cl q true) rest
                | _ => None
                end
            | _ => None
            end
          else
            match read_item s with
            | Some (cl, q, rest) => next (Atom cl q false) rest
            | None => None
            end
      end
  end.

(** [re.compile(pattern, flags)], [flags] being [re.MULTILINE] or
    nothing. *)
Definition compile (multiline : bool) (pattern : string) : option regex :=
  read_atoms (String.length pattern) multiline pattern.

(** *** Matching at one position *)

(** What a successful match gives: the text of each group, in order,
    and the input left after the match. *)
Definition found : Type := list string * string.

(** [$] under MULTILINE: at the end of the input or before a line feed. *)
Definition at_line_end (s : string) : bool :=
  match s with
  | EmptyString => true
  | String c _ => Ascii.eqb c Py.nl
  end.

Definition is_nl (c : ascii) : bool := Ascii.eqb c Py.nl.

(** A greedy repetition of [cl]: take one more character while one
    matches, and fall back to the continuation [k], at the longest
    repetition first. [bol] says whether the position follows a line feed
    (or starts the input), [taken] is the text repeated so far. *)
Fixpoint greedy (cl : cclass) (k : bool -> string -> string -> option found)
    (bol : bool) (taken : string) (s : string) : option found :=
  match s with
  | EmptyString => k bol taken s
  | String c s' =>
      if cmatch cl c then
        match greedy cl k (is_nl c) (taken +:+ String c EmptyString) s' with
        | Some r => Some r
        | None => k bol taken s
        end
      else k bol taken s
  end.

(** The backtracking match of [re] at the head of [s]. [accept] is asked
    about the input left at the end of a candidate match: [sub] uses it to
    refuse an empty match where the engine must advance. *)
Fixpoint match_here (re : regex) (accept : string -> bool)
    (bol : bool) (s : string) : option found :=
  match re with
  | [] => if accept s then Some ([], s) else None
  | LineStart :: re' => if bol then match_here re' accept bol s else None
  | LineEnd :: re' =>
      if at_line_end s then match_here re' accept bol s else None
  | Atom cl q captured :: re' =>
      let k (bol' : bool) (taken rest : string) : option found :=
        match match_here re' accept bol' rest with
        | Some (gs, after) => Some (if captured then taken :: gs else gs, after)
        | None => None
        end in
      match q with
      | Star => greedy cl k bol EmptyString s
      | One =>
          match s with
          | String c s' =>
              if cmatch cl c then k (is_nl c) (String c EmptyString) s'
              else None
          | EmptyString => None
          end
      | Plus =>
          match s with
          | String c s' =>
              if cmatch cl c then greedy cl k (is_nl c) (String c EmptyString) s'
              else None
          | EmptyString => None
          end
      end
  end.

(** *** The replacement template *)

(** A replacement string is read once per call ([re]'s parse_template):
    a backslash introduces a group reference, an octal escape or a
    character escape. *)
Inductive piece : Type :=
  | PChar (c : ascii)
  | PGroup (n : nat).        (* group [n]; 0 is the whole match *)

Definition digit_val (c : ascii) : nat := nat_of_ascii c - 48.

(** The decimal number written by [ds], most significant digit first. *)
Definition decimal (ds : list ascii) : nat :=
  fold_left (fun acc d => 10 * acc + digit_val d) ds 0.

(** The name inside [\g<...>], up to the closing [>]. *)
Fixpoint read_name (s : string) (acc : list ascii) : option (list ascii * string) :=
  match s with
  | EmptyString => None
  | String c s' =>
      if Ascii.eqb c ">" then Some (acc, s') else read_name s' (acc ++ [c])
  end.

(** The character escapes of a template: \a \b \f \n \r \t \v and the
    backslash. *)
Definition char_escape (c : ascii) : option ascii :=
  if Ascii.eqb c "a" then Some "007"%char
  else if Ascii.eqb c "b" then Some "008"%char
  else if Ascii.eqb c "f" then Some "012"%char
  else if Ascii.eqb c "n" then Some "010"%char
  else if Ascii.eqb c "r" then Some "013"%char
  else if Ascii.eqb c "t" then Some "009"%char
  else if Ascii.eqb c "v" then Some "011"%char
  else if Ascii.eqb c "\" then Some "\"%char
  else None.

(** [ngroups] is the number of groups of the pattern: a reference to a
    group beyond it is an error ([None]), as are a backslash at the end,
    an unknown letter escape and a malformed [\g<...>]. The pattern syntax
    modelled has no named groups, so a [\g<name>] whose name is not a
    decimal number is an error too. *)
Fixpoint read_template (fuel ngroups : nat) (s : string) : option (list piece) :=
  match s with
  | EmptyString => Some []
  | String c s' =>
      match fuel with
      | O => None
      | S fuel' =>
          let next (ps : list piece) (rest : string) :=
            match read_template fuel' ngroups rest with
            | Some tl => Some (ps ++ tl)
            | None => None
            end in
          let group (n : nat) (rest : string) :=
            if n <=? ngroups then next [PGroup n] rest else None in
          if negb (Ascii.eqb c "\") then next [PChar c] s'
          else
            match s' with
            | EmptyString => None
            | String e r =>
                if Ascii.eqb e "g" then
                  match r with
                  | String "<" r' =>
                      match read_name r' [] with
                      | Some (d :: ds, rest) =>
                          if forallb is_digit (d :: ds)
                          then group (decimal (d :: ds)) rest
                          else None
                      | _ => None
                      end
                  | _ => None
                  end
                else if Ascii.eqb e "0" then
                  match r with
                  | String o1 r1 =>
                      if is_octdigit o1 then
                        match r1 with
                        | String o2 r2 =>
                            if is_octdigit o2
                            then next [PChar (ascii_of_nat
                                   ((8 * digit_val o1 + digit_val o2) mod 256))] r2
                            else next [PChar (ascii_of_nat (digit_val o1))] r1
                        | EmptyString =>
                            next [PChar (ascii_of_nat (digit_val o1))] r1
                        end
                      else next [PChar zero] r
                  | EmptyString => next [PChar zero] r
                  end
                else if is_digit e then
                  match r with
                  | String d2 r2 =>
                      if is_digit d2 then
                        match r2 with
                        | String d3 r3 =>
                            if is_octdigit e && is_octdigit d2 && is_octdigit d3
                            then
                              let v := 64 * digit_val e + 8 * digit_val d2
                                       + digit_val d3 in
                              if v <=? 255 then next [PChar (ascii_of_nat v)] r3
                              else None
                            else group (10 * digit_val e + digit_val d2) r2
                        | EmptyString =>
                            group (10 * digit_val e + digit_val d2) r2
                        end
                      else group (digit_val e) r
                  | EmptyString => group (digit_val e) r
                  end
                else
                  match char_escape e with
                  | Some x => next [PChar x] r
                  | None =>
                      if is_ascii_letter e then None
                      else next [PChar c; PChar e] r
                  end
            end
      end
  end.

Definition parse_template (ngroups : nat) (repl : string) : option (list piece) :=
  read_template (String.length repl) ngroups repl.

(** The text a template stands for at one match. *)
Fixpoint expand (tpl : list piece) (whole : string) (gs : list string) : string :=
  match tpl with
  | [] => EmptyString
  | PChar c :: tpl' => String c (expand tpl' whole gs)
  | PGroup O :: tpl' => whole +:+ expand tpl' whole gs
  | PGroup (S n) :: tpl' => nth n gs EmptyString +:+ expand tpl' whole gs
  end.

(** *** Substitution *)

(** The first [n] characters of [s]. *)
Fixpoint take (n : nat) (s : string) : string :=
  match n, s with
  | S n', String c s' => String c (take n' s')
  | _, _ => EmptyString
  end.

Definition any_rest (_ : string) : bool := true.

(** Accepts a match of [s] that leaves less than [s]. *)
Definition shorter_than (s rest : string) : bool :=
  String.length rest <? String.length s.

(** The scan of [re.sub]: at each position the leftmost match is
    replaced and the scan goes on after it. [skip] counts the characters
    of the last match not passed yet. After an empty match the engine
    must advance: it looks for a match that is not empty at the same
    position before it copies the character there. *)
Fixpoint sub_scan (re : regex) (tpl : list piece) (skip : nat) (bol : bool)
    (s : string) : string :=
  match s with
  | EmptyString =>
      match match_here re any_rest bol s with
      | Some (gs, _) => expand tpl EmptyString gs
      | None => EmptyString
      end
  | String c s' =>
      match skip with
      | S k => sub_scan re tpl k (is_nl c) s'
      | O =>
          match match_here re any_rest bol s with
          | None => String c (sub_scan re tpl 0 (is_nl c) s')
          | Some (gs, rest) =>
              match String.length s - String.length rest with
              | S m =>
                  expand tpl (take (S m) s) gs
                  +:+ sub_scan re tpl m (is_nl c) s'
              | O =>
                  expand tpl EmptyString gs
                  +:+ match match_here re (shorter_than s) bol s with
                      | Some (gs', rest') =>
                          let n := String.length s - String.length rest' in
                          expand tpl (take n s) gs'
                          +:+ sub_scan re tpl (n - 1) (is_nl c) s'
                      | None => String c (sub_scan re tpl 0 (is_nl c) s')
                      end
              end
          end
      end
  end.

(** [re.sub(pattern, repl, s, flags)]: the pattern is compiled, the
    template is read (an error there is raised whether or not the pattern
    matches), and every match is replaced. *)
Definition sub (multiline : bool) (pattern repl s : string) : Py.Result string :=
  match compile multiline pattern with
  | None => Py.Raise (Py.ReError pattern)
  | Some re =>
      match parse_template (groups re) repl with
      | None => Py.Raise (Py.ReError repl)
      | Some tpl => Py.Ok (sub_scan re tpl 0 true s)
      end
  end.

(** The loop both scripts run over their rule table:
    [for pattern, replacement in rules: result = re.sub(pattern, replacement, result)]. *)
Fixpoint sub_each (rules : list (string * string)) (result : string)
  : Py.Result string :=
  match rules with
  | [] => Py.Ok result
  | (pattern, replacement) :: rules' =>
      match sub false pattern replacement result with
      | Py.Ok result' => sub_each rules' result'
      | Py.Raise e => Py.Raise e
      end
  end.

End Re.

(** ** Paths, the file tree and the effects of a run *)

Module Os.

Export Py (exn(..), Result(..)).

(** A [pathlib.Path], absolute, as the list of its components below the
    root; [[]] is the root. *)
Abbreviation Path := (list string).

(** [p / name] *)
Definition child (p : Path) (name : string) : Path := p ++ [name].
Infix "</>" := child (at level 40, left associativity).

(** [p.parent]; the root is its own parent. *)
Definition parent (p : Path) : Path := removelast p.

(** [p.name] *)
Definition name (p : Path) : string := List.last p EmptyString.

(** [str(p)] *)
Definition path_str (p : Path) : string :=
  String "/" (Py.join (String "/" EmptyString) p).

(** [p.relative_to(base)]: the components of [p] below [base]. *)
Fixpoint relative_to (p base : Path) {struct base} : option Path :=
  match base with
  | [] => Some p
  | b :: base' =>
      match p with
      | [] => None
      | a :: p' => if String.eqb a b then relative_to p' base' else None
      end
  end.

Inductive node : Type :=
  | File (content : string)
  | Dir.

(** The file tree: the node at each path that exists. *)
Abbreviation Tree := (gmap Path node).

(** What a run does to the world around it, in order: the lines it
    prints, the directories it creates, the files it writes. *)
Inductive event : Type :=
  | Printed (line : string)
  | MadeDir (p : Path)
  | Wrote (p : Path) (content : string).

(** The outcome of a computation: what it returns or raises, the tree it
    leaves, and what it did on the way. *)
Record Outcome (A : Type) : Type := mkOutcome {
  result : Result A;
  tree : Tree;
  events : list event
}.
Arguments mkOutcome {A} result tree events.
Arguments result {A} o.
Arguments tree {A} o.
Arguments events {A} o.

(** A computation starts from a tree; the effects made before an
    exception stay. *)
Definition M (A : Type) : Type := Tree -> Outcome A.

Definition ret {A : Type} (a : A) : M A := fun t => mkOutcome (Ok a) t [].

Definition bind {A B : Type} (m : M A) (k : A -> M B) : M B :=
  fun t =>
    let o := m t in
    match result o with
    | Ok a =>
        let o' := k a (tree o) in
        mkOutcome (result o') (tree o') (events o ++ events o')
    | Raise e => mkOutcome (Raise e) (tree o) (events o)
    end.

Definition raise {A : Type} (e : exn) : M A :=
  fun t => mkOutcome (Raise e) t [].

(** A pure computation that may raise. *)
Definition lift {A : Type} (r : Result A) : M A := fun t => mkOutcome r t [].

#[global] Instance M_ret : MRet M := @ret.
#[global] Instance M_bind : MBind M := fun A B k m => bind m k.

(** The node at a path; the root is always a directory. *)
Definition node_at (t : Tree) (p : Path) : option node :=
  match p with
  | [] => Some Dir
  | _ => t !! p
  end.

(** [print(line)] *)
Definition print (line : string) : M unit :=
  fun t => mkOutcome (Ok tt) t [Printed line].

(** [p.exists()] *)
Definition path_exists (p : Path) : M bool :=
  fun t =>
    mkOutcome (Ok match node_at t p with Some _ => true | None => false end)
      t [].

(** [p.is_dir()] *)
Definition is_dir (p : Path) : M bool :=
  fun t =>
    mkOutcome (Ok match node_at t p with Some Dir => true | _ => false end)
      t [].

(** [p.read_text()] *)
Definition read_text (p : Path) : M string :=
  fun t =>
    match node_at t p with
    | Some (File content) => mkOutcome (Ok content) t []
    | Some Dir => mkOutcome (Raise (IsADirectoryError p)) t []
    | None => mkOutcome (Raise (FileNotFoundError (path_str p))) t []
    end.

(** [os.mkdir(p)]: one directory, in an existing parent directory. *)
Definition os_mkdir (p : Path) : M unit :=
  fun t =>
    match node_at t p with
    | Some _ => mkOutcome (Raise (FileExistsError p)) t []
    | None =>
        match node_at t (parent p) with
        | None => mkOutcome (Raise (FileNotFoundError (path_str p))) t []
        | Some (File _) => mkOutcome (Raise (NotADirectoryError p)) t []
        | Some Dir => mkOutcome (Ok tt) (<[p := Dir]> t) [MadeDir p]
        end
    end.

(** What pathlib's [mkdir] does with an [OSError] of [os.mkdir] that is
    no [FileNotFoundError], under [exist_ok=True]: a directory at [p] is
    fine, anything else is raised again. *)
Definition unless_is_dir (p : Path) (e : exn) : M unit :=
  d ← is_dir p;
  if (d : bool) then mret tt else raise e.

(** [p.mkdir(parents=False, exist_ok=True)] *)
Definition mkdir_exist_ok (p : Path) : M unit :=
  fun t =>
    let o := os_mkdir p t in
    match result o with
    | Ok _ => o
    | Raise (FileNotFoundError msg) => o
    | Raise e => unless_is_dir p e (tree o)
    end.

(** [p.mkdir(parents=True, exist_ok=True)], as pathlib does it: try
    [p]; when its parent is missing, make the parent the same way and try
    [p] again. [depth] bounds the way up, the number of components of [p]
    is enough. *)
Fixpoint mkdir_parents (depth : nat) (p : Path) : M unit :=
  fun t =>
    let o := os_mkdir p t in
    match result o with
    | Ok _ => o
    | Raise (FileNotFoundError msg) =>
        match depth with
        | O => o
        | S d => (mkdir_parents d (parent p);; mkdir_exist_ok p) (tree o)
        end
    | Raise e => unless_is_dir p e (tree o)
    end.

Definition mkdir (p : Path) : M unit := mkdir_parents (List.length p) p.

(** [p.write_text(content)]: the file is created or replaced; its
    parent must be a directory and [p] must not be one. *)
Definition write_text (p : Path) (content : string) : M unit :=
  fun t =>
    match node_at t p with
    | Some Dir => mkOutcome (Raise (IsADirectoryError p)) t []
    | _ =>
        match node_at t (parent p) with
        | None => mkOutcome (Raise (FileNotFoundError (path_str p))) t []
        | Some (File _) => mkOutcome (Raise (NotADirectoryError p)) t []
        | Some Dir =>
            mkOutcome (Ok tt) (<[p := File content]> t) [Wrote p content]
        end
    end.

(** Every directory on the way from [base] down to [base ++ rel]
    (without that last path) is a directory of the tree. *)
Fixpoint reachable (t : Tree) (base rel : Path) : bool :=
  match rel with
  | [] => true
  | a :: rel' =>
      match node_at t base with
      | Some Dir => reachable t (base </> a) rel'
      | _ => false
      end
  end.

(** [s.endswith(suffix)], which is what [fnmatch] asks of a name for
    the pattern ["*" + suffix]. *)
Definition endswith (s suffix : string) : bool :=
  Py.startswith (String.rev s) (String.rev suffix).

(** Whether [base.rglob("*" + suffix)] finds [q]: an entry below [base]
    whose name ends in [suffix], a file or a directory, that the walk of
    the directories from [base] gets to. *)
Definition globbed (t : Tree) (base : Path) (suffix : string) (q : Path)
  : bool :=
  match relative_to q base with
  | Some (a :: rel) => reachable t base (a :: rel) && endswith (name q) suffix
  | _ => false
  end.

(** [base.rglob("*" + suffix)]. The order is the one the tree gives; no
    caller here depends on it. The walk of pathlib is lazy; the model lists
    the tree as it is when the walk starts. *)
Definition rglob (base : Path) (suffix : string) : M (list Path) :=
  fun t =>
    mkOutcome
      (Ok (filter (fun q => globbed t base suffix q = true)
             (map fst (map_to_list t))))
      t [].

(** The outcome [o] after the events [evs]. *)
Definition prepend {A : Type} (evs : list event) (o : Outcome A) : Outcome A :=
  mkOutcome (result o) (tree o) (evs ++ events o).

(** The exit status of the process: 0 when [main] returns, 1 when an
    exception leaves it. *)
Definition exit_status {A : Type} (r : Result A) : nat :=
  match r with
  | Ok _ => 0
  | Raise _ => 1
  end.

(** The lines printed, the directories made and the files written, read
    off the events of a run. *)
Definition printed (evs : list event) : list string :=
  omap (fun e => match e with Printed l => Some l | _ => None end) evs.

Definition made_dirs (evs : list event) : list Path :=
  omap (fun e => match e with MadeDir p => Some p | _ => None end) evs.

Definition writes (evs : list event) : list (Path * string) :=
  omap (fun e => match e with Wrote p c => Some (p, c) | _ => None end) evs.

Definition written (evs : list event) : list Path := map fst (writes evs).

End Os.

(** ** scripts/sync_amplifier_core.py *)

Module Core.

Import Os.

(** The reference rewrite rules, pattern and replacement as written in
    the script. *)
Definition REFERENCE_PATTERNS : list (string * string) :=
  [ ("\[([^\]]+)\]\(DESIGN_PHILOSOPHY\.md\)",
     "[\1](@skills/amplifier-philosophy/SKILL.md)");
    ("\[([^\]]+)\]\(contracts/([^)]+)\)",
     "[\1](@skills/module-development/SKILL.md)");
    ("\[([^\]]+)\]\(MODULE_SOURCE_PROTOCOL\.md\)",
     "[\1](@skills/module-development/SKILL.md)");
    ("\[([^\]]+)\]\(\.\./([^)]+)\)",
     "[\1](https://github.com/microsoft/amplifier-core/blob/main/\2)") ].

Definition CREDIT_COMMENT : string := "<!--
  Source: https://github.com/microsoft/amplifier-core
  License: MIT
  Auto-synced for Claude Code Plugin format
-->

".

Definition PHILOSOPHY_FRONTMATTER : string := "---
name: amplifier-philosophy
description: Amplifier design philosophy using Linux kernel metaphor. Covers mechanism vs policy, module architecture, event-driven design, and kernel principles. Use when designing new modules or making architectural decisions.
version: 1.0.0
license: MIT
metadata:
  category: architecture
  complexity: medium
  original_source: https://github.com/microsoft/amplifier-core/blob/main/docs/DESIGN_PHILOSOPHY.md
---

".

Definition MODULE_DEV_FRONTMATTER : string := "---
name: module-development
description: Guide for creating new Amplifier modules including protocol implementation, entry points, mount functions, and testing patterns. Use when creating new modules or understanding module architecture.
version: 1.0.0
license: MIT
metadata:
  category: development
  complexity: medium
  original_source: https://github.com/microsoft/amplifier-core/tree/main/docs/contracts
---

".

(** The order in which the contracts are merged. *)
Definition CONTRACT_FILES : list string :=
  [ "TOOL_CONTRACT.md";
    "PROVIDER_CONTRACT.md";
    "HOOK_CONTRACT.md";
    "ORCHESTRATOR_CONTRACT.md";
    "CONTEXT_CONTRACT.md" ].

Definition transform_references (content : string) : Result string :=
  Re.sub_each REFERENCE_PATTERNS content.

(** The credit goes at the very start. *)
Definition inject_credit (content : string) : string :=
  CREDIT_COMMENT +:+ content.

Section Assemblers.

(** The directory the plugin is installed in
    ([Path(__file__).parent.parent]). *)
Variable PLUGIN_ROOT : Path.

(** DESIGN_PHILOSOPHY.md to amplifier-philosophy/SKILL.md *)
Definition sync_philosophy (source_dir : Path) (dry_run : bool) : M Path :=
  let source_path := source_dir </> "docs" </> "DESIGN_PHILOSOPHY.md" in
  let target_path :=
    PLUGIN_ROOT </> "skills" </> "amplifier-philosophy" </> "SKILL.md" in
  present ← path_exists source_path;
  if negb present
  then raise (FileNotFoundError
                ("Source file not found: " +:+ path_str source_path))
  else
    content ← read_text source_path;
    content ← lift (transform_references content);
    let content := PHILOSOPHY_FRONTMATTER +:+ inject_credit content in
    (if dry_run
     then print ("  [DRY-RUN] Would update: " +:+ path_str target_path)
     else
       mkdir (parent target_path);;
       write_text target_path content;;
       print ("  Updated: " +:+ path_str target_path));;
    mret target_path.

(** The loop over the contract files: [sections] grows by one fragment
    per contract found, a contract that is missing is reported. *)
Fixpoint merge_contracts (contracts_dir : Path) (files : list string)
    (sections : list string) : M (list string) :=
  match files with
  | [] => mret sections
  | contract_file :: files' =>
      let contract_path := contracts_dir </> contract_file in
      present ← path_exists contract_path;
      if (present : bool)
      then
        contract_content ← read_text contract_path;
        contract_content ← lift (transform_references contract_content);
        merge_contracts contracts_dir files'
          (sections ++ ["
---

" +:+ contract_content])
      else
        print ("  WARNING: Contract file not found: "
               +:+ path_str contract_path);;
        merge_contracts contracts_dir files' sections
  end.

(** contracts/*.md and MODULE_SOURCE_PROTOCOL.md to
    module-development/SKILL.md *)
Definition sync_module_development (source_dir : Path) (dry_run : bool)
  : M Path :=
  let contracts_dir := source_dir </> "docs" </> "contracts" in
  let target_path :=
    PLUGIN_ROOT </> "skills" </> "module-development" </> "SKILL.md" in
  present ← path_exists contracts_dir;
  if negb present
  then raise (FileNotFoundError
                ("Contracts directory not found: " +:+ path_str contracts_dir))
  else
    let readme_path := contracts_dir </> "README.md" in
    present ← path_exists readme_path;
    if negb present
    then raise (FileNotFoundError
                  ("README not found: " +:+ path_str readme_path))
    else
      readme_content ← read_text readme_path;
      readme_content ← lift (transform_references readme_content);
      sections ← merge_contracts contracts_dir CONTRACT_FILES [readme_content];
      let module_source_path :=
        source_dir </> "docs" </> "MODULE_SOURCE_PROTOCOL.md" in
      present ← path_exists module_source_path;
      sections ←
        (if (present : bool)
         then
           module_source_content ← read_text module_source_path;
           module_source_content ←
             lift (transform_references module_source_content);
           mret (sections ++ ["
---

# Appendix: Module Source Protocol

" +:+ module_source_content])
         else
           print "  WARNING: MODULE_SOURCE_PROTOCOL.md not found";;
           mret sections);
      let combined_content := Py.join "
" sections in
      let combined_content :=
        MODULE_DEV_FRONTMATTER +:+ inject_credit combined_content in
      (if dry_run
       then print ("  [DRY-RUN] Would update: " +:+ path_str target_path)
       else
         mkdir (parent target_path);;
         write_text target_path combined_content;;
         print ("  Updated: " +:+ path_str target_path));;
      mret target_path.

(** [main] once the upstream repository is cloned into [source_dir]:
    the two artifacts in their fixed order, between the banner lines.
    [dry_run] is [args.dry_run]. An exception leaves [main] at the call
    that raises it. *)
Definition rule60 : string :=
  "============================================================".

Definition main_after_clone (source_dir : Path) (dry_run : bool) : M unit :=
  print "
[1/2] Syncing amplifier-philosophy...";;
  sync_philosophy source_dir dry_run;;
  print "
[2/2] Syncing module-development...";;
  sync_module_development source_dir dry_run;;
  print ("
" +:+ rule60);;
  (if dry_run
   then print "DRY-RUN complete. No files were modified."
   else print "Sync complete!");;
  print rule60.

End Assemblers.

End Core.

(** ** scripts/sync_ddd.py *)

Module DDD.

Import Os.

(** Agent file to command file, in the order of the script's dict
    (a dict keeps the order its entries are written in). *)
Definition AGENT_TO_COMMAND : list (string * string) :=
  [ ("planning-architect.md", "ddd-1-plan.md");
    ("documentation-retroner.md", "ddd-2-docs.md");
    ("code-planner.md", "ddd-3-code-plan.md");
    ("implementation-verifier.md", "ddd-4-code.md");
    ("finalization-specialist.md", "ddd-5-finish.md") ].

(** The reference rewrite rules, pattern and replacement as written in
    the script. *)
Definition REFERENCE_PATTERNS : list (string * string) :=
  [ ("@ddd:context/", "@skills/ddd-guide/references/");
    ("@ddd:", "@skills/ddd-guide/references/");
    ("@foundation:IMPLEMENTATION_PHILOSOPHY\.md",
     "@skills/amplifier-philosophy/SKILL.md");
    ("@foundation:MODULAR_DESIGN_PHILOSOPHY\.md",
     "@skills/amplifier-philosophy/SKILL.md");
    ("@foundation:", "@skills/amplifier-philosophy/") ].

Definition CREDIT_COMMENT : string := "<!--
  Source: https://github.com/robotdad/amplifier-collection-ddd
  License: MIT
  Auto-converted for Claude Code Plugin format
-->

".

(** The double quote, for the two quoted phrases of the template. *)
Definition dq : string := String "034"%char EmptyString.

Definition SKILL_MD_TEMPLATE : string :=
  "---
name: ddd-guide
description: Document-Driven Development workflow for existing codebases. Provides systematic planning, documentation-first design, and implementation verification.
version: 1.0.0
license: MIT
metadata:
  category: workflow
  complexity: high
  original_source: https://github.com/robotdad/amplifier-collection-ddd
---

# Document-Driven Development (DDD) Guide

## Core Principle

**Documentation IS the specification. Code implements what documentation describes.**

DDD inverts traditional development: update documentation first, then implement code to match.

## Why DDD?

- **Catches design flaws early** - Before expensive code changes
- **Prevents documentation drift** - Docs and code stay synchronized
- **Enables human review** - Humans approve specs, not code
- **AI-friendly** - Clear specifications reduce hallucination

## Six-Phase Workflow

| Phase | Name | Command | Deliverable |
|-------|------|---------|-------------|
| 0-1 | Planning | /ddd 1-plan | plan.md |
| 2 | Documentation | /ddd 2-docs | Updated docs |
| 3 | Code Planning | /ddd 3-code-plan | code_plan.md |
| 4 | Implementation | /ddd 4-code | Working code |
| 5-6 | Finalization | /ddd 5-finish | Tested, committed |

## Core Techniques

### Retcon Writing

Document features as if they already exist. No future tense.

- Bad: " +:+ dq +:+ "This feature will add..." +:+ dq +:+ "
- Good: " +:+ dq +:+ "This feature provides..." +:+ dq +:+ "

### File Crawling

Process files one at a time to avoid context overflow:

1. Generate index with `[ ]` checkboxes
2. Process one file per iteration
3. Mark `[x]` when complete

### Context Poisoning Prevention

Eliminate contradictions:

- One authoritative location per concept
- Delete duplicates, don't update
- Resolve conflicts before proceeding

## When to Use DDD

**Use DDD for:**
- Multi-file changes
- New features in existing codebases
- Complex integrations

**Skip DDD for:**
- Typo fixes
- Single-file changes
- Emergency hotfixes

## References

See `@skills/ddd-guide/references/` for detailed documentation:

- `core-concepts/` - Techniques and methodologies
- `phases/` - Step-by-step phase guides
- `philosophy/` - Underlying principles

## Remember

**Documentation first.** If it's not documented, it doesn't exist.

**Retcon, don't predict.** Write as if the feature already exists.

**One source of truth.** Delete duplicates, don't update them.
".

Definition transform_references (content : string) : Result string :=
  Re.sub_each REFERENCE_PATTERNS content.

(** After the YAML frontmatter when there is one, at the start
    otherwise. *)
Definition inject_credit (content : string) : string :=
  if Py.startswith content "---" then
    let parts := Py.split "---" 2 content in
    if 3 <=? List.length parts then
      "---" +:+ nth 1 parts EmptyString +:+ "---

" +:+ CREDIT_COMMENT +:+ Py.lstrip (nth 2 parts EmptyString)
    else CREDIT_COMMENT +:+ content
  else CREDIT_COMMENT +:+ content.

(** Sets the [name:] field of the frontmatter. *)
Definition update_frontmatter_name (content new_name : string)
  : Result string :=
  if negb (Py.startswith content "---") then Ok content
  else
    let parts := Py.split "---" 2 content in
    if List.length parts <? 3 then Ok content
    else
      let frontmatter := nth 1 parts EmptyString in
      match Re.sub true "^name:\s*.*$" ("name: " +:+ new_name) frontmatter with
      | Raise e => Raise e
      | Ok frontmatter =>
          Ok ("---" +:+ frontmatter +:+ "---" +:+ nth 2 parts EmptyString)
      end.

Section Assemblers.

(** The directory the plugin is installed in
    ([Path(__file__).parent.parent]). *)
Variable PLUGIN_ROOT : Path.

(** The loop over the mapping: [converted] grows by the target of each
    agent file found, an agent file that is missing is reported and
    passed over. *)
Fixpoint convert_each (agents_dir commands_dir : Path) (dry_run : bool)
    (items : list (string * string)) (converted : list Path)
  : M (list Path) :=
  match items with
  | [] => mret converted
  | (agent_file, command_file) :: items' =>
      let source_path := agents_dir </> agent_file in
      let target_path := commands_dir </> command_file in
      present ← path_exists source_path;
      if negb present
      then
        print ("  WARNING: " +:+ path_str source_path
               +:+ " not found, skipping");;
        convert_each agents_dir commands_dir dry_run items' converted
      else
        content ← read_text source_path;
        content ← lift (transform_references content);
        let content := inject_credit content in
        let command_name := Py.replace ".md" "" command_file in
        content ← lift (update_frontmatter_name content command_name);
        (if dry_run
         then print ("  [DRY-RUN] Would create: " +:+ path_str target_path)
         else
           mkdir (parent target_path);;
           write_text target_path content;;
           print ("  Created: " +:+ path_str target_path));;
        convert_each agents_dir commands_dir dry_run items'
          (converted ++ [target_path])
  end.

(** agents/ to commands/, flat *)
Definition convert_agents_to_commands (source_dir : Path) (dry_run : bool)
  : M (list Path) :=
  let agents_dir := source_dir </> "agents" in
  let commands_dir := PLUGIN_ROOT </> "commands" in
  present ← path_exists agents_dir;
  if negb present
  then raise (FileNotFoundError
                ("agents directory not found: " +:+ path_str agents_dir))
  else convert_each agents_dir commands_dir dry_run AGENT_TO_COMMAND [].

(** The loop over the Markdown files found below context/. *)
Fixpoint copy_each (context_dir references_dir : Path) (dry_run : bool)
    (md_files : list Path) (copied : list Path) : M (list Path) :=
  match md_files with
  | [] => mret copied
  | md_file :: md_files' =>
      match relative_to md_file context_dir with
      | None => raise (ValueError (path_str md_file))
      | Some relative_path =>
          let target_path := references_dir ++ relative_path in
          content ← read_text md_file;
          content ← lift (transform_references content);
          let content := inject_credit content in
          (if dry_run
           then print ("  [DRY-RUN] Would create: " +:+ path_str target_path)
           else
             mkdir (parent target_path);;
             write_text target_path content;;
             print ("  Created: " +:+ path_str target_path));;
          copy_each context_dir references_dir dry_run md_files'
            (copied ++ [target_path])
      end
  end.

(** context/ to skills/ddd-guide/references/ *)
Definition copy_context_to_skills (source_dir : Path) (dry_run : bool)
  : M (list Path) :=
  let context_dir := source_dir </> "context" in
  let references_dir :=
    PLUGIN_ROOT </> "skills" </> "ddd-guide" </> "references" in
  present ← path_exists context_dir;
  if negb present
  then raise (FileNotFoundError
                ("context directory not found: " +:+ path_str context_dir))
  else
    md_files ← rglob context_dir ".md";
    copy_each context_dir references_dir dry_run md_files [].

(** SKILL.md from the template *)
Definition generate_skill_md (dry_run : bool) : M Path :=
  let skill_path := PLUGIN_ROOT </> "skills" </> "ddd-guide" </> "SKILL.md" in
  (if dry_run
   then print ("  [DRY-RUN] Would create: " +:+ path_str skill_path)
   else
     mkdir (parent skill_path);;
     write_text skill_path SKILL_MD_TEMPLATE;;
     print ("  Created: " +:+ path_str skill_path));;
  mret skill_path.

(** [main] once the upstream repository is cloned into [source_dir]. *)
Definition main_after_clone (source_dir : Path) (dry_run : bool) : M unit :=
  print "
[1/3] Converting agents to commands...";;
  convert_agents_to_commands source_dir dry_run;;
  print "
[2/3] Copying context to skills...";;
  copy_context_to_skills source_dir dry_run;;
  print "
[3/3] Generating SKILL.md...";;
  generate_skill_md dry_run;;
  print ("
" +:+ Core.rule60);;
  (if dry_run
   then print "DRY-RUN complete. No files were modified."
   else print "Sync complete!");;
  print Core.rule60.

End Assemblers.

End DDD.

(** ** The notions of the specification *)

Module Spec.

Import Os.

(** The content begins with a frontmatter block as sync_ddd.py tests
    for one: the three dashes, and three dashes again somewhere after
    them. The test is one of substrings, not of lines; the header block
    delimited by three-dash lines is [header_block] below. *)
Definition has_frontmatter (content : string) : Prop :=
  exists fm body, content = "---" +:+ fm +:+ "---" +:+ body.

(** [fm] is the frontmatter of [content] and [body] the text after the
    block, as [split("---", 2)] cuts them: the closing delimiter is the
    first three dashes after the opening ones, wherever they stand. *)
Definition frontmatter_of (content fm body : string) : Prop :=
  content = "---" +:+ fm +:+ "---" +:+ body
  /\ forall fm' body',
       content = "---" +:+ fm' +:+ "---" +:+ body' ->
       String.length fm <= String.length fm'.




(** One empty line: the line feed that ends the line of the closing
    delimiter and the one of the empty line. *)
Definition blank_line : string :=
  String Py.nl (String Py.nl EmptyString).

(** [s.count(sub)]: the occurrences of [sub] in [s], without overlap. *)
Definition count (sub s : string) : nat :=
  List.length (Py.split sub (String.length s) s) - 1.

(** The rule table applied as a left fold: each rule rewrites the whole
    of what the rules before it gave. *)
Definition fold_rules (rules : list (string * string)) (content : string)
  : Result string :=
  fold_left
    (fun acc rule =>
       match acc with
       | Ok text => Re.sub false (fst rule) (snd rule) text
       | Raise e => Raise e
       end)
    rules (Ok content).

(** A rule [re.sub] accepts: the pattern compiles and the replacement
    is a template for it. *)
Definition rule_ok (rule : string * string) : Prop :=
  exists re tpl,
    Re.compile false (fst rule) = Some re
    /\ Re.parse_template (Re.groups re) (snd rule) = Some tpl.

(** The same rules with the first two in the other order. *)
Definition swap_first_two {A : Type} (l : list A) : list A :=
  match l with
  | a :: b :: l' => b :: a :: l'
  | _ => l
  end.

(** *** The Writer and the loops over it *)

(** The Writer of the specification, which every assembler spells out at
    its end: under dry-run the target is only reported, otherwise the
    parents are made, the content is written and the target is reported.
    [would] and [done] are the two report prefixes of the call site. *)
Definition writer (would done : string) (dry_run : bool) (target : Path)
    (content : string) : M unit :=
  if dry_run
  then print (would +:+ path_str target)
  else
    mkdir (parent target);;
    write_text target content;;
    print (done +:+ path_str target).

(** What the part of a loop body before the Writer comes to: the item is
    passed over with a warning, or a content is ready for a target. *)
Inductive prepared : Type :=
  | Skipped (warning : string)
  | Ready (target : Path) (content : string).

(** The shape the two loops of sync_ddd.py share. *)
Fixpoint write_each {X : Type} (prepare : X -> M prepared)
    (would done : string) (dry_run : bool) (items : list X)
    (acc : list Path) : M (list Path) :=
  match items with
  | [] => mret acc
  | x :: items' =>
      p ← prepare x;
      match p with
      | Skipped warning =>
          print warning;;
          write_each prepare would done dry_run items' acc
      | Ready target content =>
          writer would done dry_run target content;;
          write_each prepare would done dry_run items' (acc ++ [target])
      end
  end.

(** The body of the loop of [convert_agents_to_commands] up to the
    Writer. *)
Definition prepare_agent (agents_dir commands_dir : Path)
    (item : string * string) : M prepared :=
  let source_path := agents_dir </> fst item in
  let target_path := commands_dir </> snd item in
  present ← path_exists source_path;
  if negb present
  then mret (Skipped ("  WARNING: " +:+ path_str source_path
                      +:+ " not found, skipping"))
  else
    content ← read_text source_path;
    content ← lift (DDD.transform_references content);
    content ← lift (DDD.update_frontmatter_name (DDD.inject_credit content)
                      (Py.replace ".md" "" (snd item)));
    mret (Ready target_path content).

(** The body of the loop of [copy_context_to_skills] up to the Writer. *)
Definition prepare_md (context_dir references_dir : Path) (md_file : Path)
  : M prepared :=
  match relative_to md_file context_dir with
  | None => raise (ValueError (path_str md_file))
  | Some relative_path =>
      content ← read_text md_file;
      content ← lift (DDD.transform_references content);
      mret (Ready (references_dir ++ relative_path)
              (DDD.inject_credit content))
  end.

(** The targets a dry run reports: the text after the report prefix of
    each report line. *)
Definition report_of (line : string) : option string :=
  if Py.startswith line "  [DRY-RUN] Would update: "
  then Some (Py.drop (String.length "  [DRY-RUN] Would update: ") line)
  else if Py.startswith line "  [DRY-RUN] Would create: "
  then Some (Py.drop (String.length "  [DRY-RUN] Would create: ") line)
  else None.

Definition reported (evs : list event) : list string :=
  omap report_of (printed evs).

(** The clone and the plugin tree lie apart: neither directory is the
    other or inside it. *)
Definition apart (source_dir plugin_root : Path) : Prop :=
  ~ source_dir `prefix_of` plugin_root /\ ~ plugin_root `prefix_of` source_dir.

(** Dry-run is faithful for an assembler [f] from the tree [t]: the dry
    run leaves the tree as it is and makes and writes nothing; and when the
    applying run returns, the dry run returns the same, reports exactly the
    paths the applying run wrote, and these are the paths returned. *)
Definition dry_run_faithful {A : Type} (paths : A -> list Path)
    (f : bool -> M A) (t : Tree) : Prop :=
  tree (f true t) = t
  /\ made_dirs (events (f true t)) = []
  /\ writes (events (f true t)) = []
  /\ forall v, result (f false t) = Ok v ->
       result (f true t) = Ok v
       /\ reported (events (f true t))
          = map path_str (written (events (f false t)))
       /\ written (events (f false t)) = paths v.

(** *** Notions for reasoning about a run *)

(** [t'] is [t] with directories made on the way down to [p], and
    nothing else changed. *)
Definition made_up_to (p : Path) (t t' : Tree) : Prop :=
  forall q,
    node_at t' q = node_at t q
    \/ (node_at t q = None /\ node_at t' q = Some Dir /\ q `prefix_of` p).

(** The events are directory creations only. *)
Definition only_made_dirs (evs : list event) : Prop :=
  printed evs = [] /\ writes evs = [].

(** [t'] has the nodes of [t] at [S] and below it. *)
Definition agree (S : Path) (t t' : Tree) : Prop :=
  forall q, S `prefix_of` q -> node_at t' q = node_at t q.

(** [prepare] changes nothing and leaves no event. *)
Definition readonly {X A : Type} (prepare : X -> M A) : Prop :=
  forall x t, tree (prepare x t) = t /\ events (prepare x t) = [].

(** What [prepare] comes to depends on the nodes below [S] only. *)
Definition source_local {X A : Type} (S : Path) (prepare : X -> M A) : Prop :=
  forall x t t', agree S t t' -> result (prepare x t') = result (prepare x t).

(** The target [prepare] gives for an item is [tgt] of the item. *)
Definition targets_by {X : Type} (tgt : X -> Path) (prepare : X -> M prepared)
  : Prop :=
  forall x t target content,
    result (prepare x t) = Ok (Ready target content) -> target = tgt x.

(** The writes a loop is to make from the tree [t], and the line it
    prints per item. *)
Definition ready_of (r : Result prepared) : option (Path * string) :=
  match r with
  | Ok (Ready target content) => Some (target, content)
  | _ => None
  end.

Definition planned {X : Type} (prepare : X -> M prepared) (t : Tree)
    (items : list X) : list (Path * string) :=
  omap (fun x => ready_of (result (prepare x t))) items.

Definition line_of (done : string) (r : Result prepared) : string :=
  match r with
  | Ok (Skipped warning) => warning
  | Ok (Ready target _) => done +:+ path_str target
  | Raise _ => EmptyString
  end.

(** The targets can be written from [t]: no file stands where a
    directory is needed, no directory where a file is to go. *)
Definition writable {X : Type} (tgt : X -> Path) (t : Tree) (items : list X)
  : Prop :=
  forall x, x ∈ items ->
    (forall q c, q `prefix_of` parent (tgt x) -> node_at t q <> Some (File c))
    /\ node_at t (tgt x) <> Some Dir.

(** No target lies inside another one. *)
Definition unnested {X : Type} (tgt : X -> Path) (items : list X) : Prop :=
  forall x y, x ∈ items -> y ∈ items ->
    tgt x `prefix_of` tgt y -> tgt x = tgt y.

(** *** The reading parts of the amplifier-core assemblers *)

(** [sync_philosophy] up to the Writer: the content to write. *)
Definition gather_philosophy (source_dir : Path) : M string :=
  let source_path := source_dir </> "docs" </> "DESIGN_PHILOSOPHY.md" in
  present ← path_exists source_path;
  if negb present
  then raise (FileNotFoundError
                ("Source file not found: " +:+ path_str source_path))
  else
    content ← read_text source_path;
    content ← lift (Core.transform_references content);
    mret (Core.PHILOSOPHY_FRONTMATTER +:+ Core.inject_credit content).

(** [sync_module_development] up to the Writer: the content to write. *)
Definition gather_module_development (source_dir : Path) : M string :=
  let contracts_dir := source_dir </> "docs" </> "contracts" in
  present ← path_exists contracts_dir;
  if negb present
  then raise (FileNotFoundError
                ("Contracts directory not found: " +:+ path_str contracts_dir))
  else
    let readme_path := contracts_dir </> "README.md" in
    present ← path_exists readme_path;
    if negb present
    then raise (FileNotFoundError
                  ("README not found: " +:+ path_str readme_path))
    else
      readme_content ← read_text readme_path;
      readme_content ← lift (Core.transform_references readme_content);
      sections ← Core.merge_contracts contracts_dir Core.CONTRACT_FILES
                   [readme_content];
      let module_source_path :=
        source_dir </> "docs" </> "MODULE_SOURCE_PROTOCOL.md" in
      present ← path_exists module_source_path;
      sections ←
        (if (present : bool)
         then
           module_source_content ← read_text module_source_path;
           module_source_content ←
             lift (Core.transform_references module_source_content);
           mret (sections ++ ["
---

# Appendix: Module Source Protocol

" +:+ module_source_content])
         else
           print "  WARNING: MODULE_SOURCE_PROTOCOL.md not found";;
           mret sections);
      mret (Core.MODULE_DEV_FRONTMATTER
            +:+ Core.inject_credit (Py.join "
" sections)).

(** Events that change nothing and report no path: warnings at most. *)
Definition quiet (evs : list event) : Prop :=
  made_dirs evs = [] /\ writes evs = [] /\ reported evs = [].

(** The target [copy_context_to_skills] writes a Markdown file to. *)
Definition md_target (context_dir references_dir md_file : Path) : Path :=
  references_dir ++ default [] (relative_to md_file context_dir).

(** *** The merged module-development document *)

(** The content after [transform_references] of the amplifier-core
    script, which never raises on its rule table. *)
Definition core_transformed (content : string) : string :=
  match Core.transform_references content with
  | Ok text => text
  | Raise _ => content
  end.

(** A secondary file of the merge: its path, the heading its fragment
    starts with, and the warning printed when it is missing. *)
Definition contract_entry (contracts_dir : Path) (file : string)
  : Path * string * string :=
  (contracts_dir </> file, EmptyString,
   "  WARNING: Contract file not found: " +:+ path_str (contracts_dir </> file)).

(** The secondary files in the order of the merge: the contracts, then
    the appendix. *)
Definition secondary (source_dir : Path) : list (Path * string * string) :=
  map (contract_entry (source_dir </> "docs" </> "contracts"))
    Core.CONTRACT_FILES
  ++ [(source_dir </> "docs" </> "MODULE_SOURCE_PROTOCOL.md",
       "# Appendix: Module Source Protocol

",
       "  WARNING: MODULE_SOURCE_PROTOCOL.md not found")].

(** The fragment a secondary file contributes when it is there. *)
Definition fragment_of (t : Tree) (entry : Path * string * string)
  : option string :=
  match node_at t (fst (fst entry)) with
  | Some (File content) => Some (snd (fst entry) +:+ core_transformed content)
  | _ => None
  end.

(** The warning a secondary file causes when it is missing. *)
Definition warning_of (t : Tree) (entry : Path * string * string)
  : option string :=
  match node_at t (fst (fst entry)) with
  | None => Some (snd entry)
  | _ => None
  end.

(** The marker between two fragments. *)
Definition separator : string := "

---

".

(** The document: frontmatter, banner, and the overview and the
    fragments present, joined by the separator. *)
Definition module_development_text (t : Tree) (source_dir : Path)
    (readme : string) : string :=
  Core.MODULE_DEV_FRONTMATTER +:+ Core.CREDIT_COMMENT
  +:+ Py.join separator
        (core_transformed readme :: omap (fragment_of t) (secondary source_dir)).

(** *** The files the DDD assemblers are to write *)

(** A file name without its [.md] extension. *)
Definition stem (file : string) : string :=
  Re.take (String.length file - String.length ".md") file.

(** The content after [transform_references] of the DDD script, which
    never raises on its rule table. *)
Definition ddd_transformed (content : string) : string :=
  match DDD.transform_references content with
  | Ok text => text
  | Raise _ => content
  end.

(** A command document: the source with its references rewritten, the
    banner injected, and the name field of the frontmatter set to [name]. *)
Definition command_text (source name : string) : string :=
  let credited := DDD.inject_credit (ddd_transformed source) in
  match DDD.update_frontmatter_name credited name with
  | Ok content => content
  | Raise _ => credited
  end.

(** The write an entry of the mapping calls for: none when its agent
    file is not there. *)
Definition converted_file (t : Tree) (agents_dir commands_dir : Path)
    (item : string * string) : option (Path * string) :=
  match node_at t (agents_dir </> fst item) with
  | Some (File source) =>
      Some (commands_dir </> snd item, command_text source (stem (snd item)))
  | _ => None
  end.

(** The line printed for an entry of the mapping. *)
Definition convert_line (t : Tree) (agents_dir commands_dir : Path)
    (item : string * string) : string :=
  match node_at t (agents_dir </> fst item) with
  | Some _ => "  Created: " +:+ path_str (commands_dir </> snd item)
  | None =>
      "  WARNING: " +:+ path_str (agents_dir </> fst item)
      +:+ " not found, skipping"
  end.

(** The paths from the root down to [p], [p] included. *)
Fixpoint ways_down (p : Path) : list Path :=
  [] :: match p with
        | [] => []
        | a :: p' => map (cons a) (ways_down p')
        end.

(** No file stands on the way down to [p]. *)
Definition clear_way (t : Tree) (p : Path) : bool :=
  forallb
    (fun q => match node_at t q with Some (File _) => false | _ => true end)
    (ways_down p).

(** *** Reading the rule tables *)

(** The pattern that matches [text] letter for letter. *)
Fixpoint literal (text : string) : Re.regex :=
  match text with
  | EmptyString => []
  | String c text' => Re.Atom (Re.CChar c) Re.One false :: literal text'
  end.

(** The template that stands for [text] itself. *)
Fixpoint verbatim (text : string) : list Re.piece :=
  match text with
  | EmptyString => []
  | String c text' => Re.PChar c :: verbatim text'
  end.

(** The rule table of sync_ddd.py read as plain text: what each pattern
    matches and what each replacement stands for. *)
Definition DDD_PLAIN_RULES : list (string * string) :=
  [ ("@ddd:context/", "@skills/ddd-guide/references/");
    ("@ddd:", "@skills/ddd-guide/references/");
    ("@foundation:IMPLEMENTATION_PHILOSOPHY.md",
     "@skills/amplifier-philosophy/SKILL.md");
    ("@foundation:MODULAR_DESIGN_PHILOSOPHY.md",
     "@skills/amplifier-philosophy/SKILL.md");
    ("@foundation:", "@skills/amplifier-philosophy/") ].

(** [for old, new in rules: result = result.replace(old, new)] *)
Definition replace_each (rules : list (string * string)) (content : string)
  : string :=
  fold_left (fun acc rule => Py.replace (fst rule) (snd rule) acc) rules content.

(** A rule [re.sub] reads as the plain replacement [plain]. *)
Definition reads_as (rule plain : string * string) : Prop :=
  fst plain <> EmptyString
  /\ Re.compile false (fst rule) = Some (literal (fst plain))
  /\ Re.parse_template 0 (snd rule) = Some (verbatim (snd plain)).

(** [a in s], for one character. *)
Fixpoint has_char (a : ascii) (s : string) : bool :=
  match s with
  | EmptyString => false
  | String c s' => Ascii.eqb a c || has_char a s'
  end.

(** Every character of [s] satisfies [P]. *)
Fixpoint all_chars (P : ascii -> bool) (s : string) : bool :=
  match s with
  | EmptyString => true
  | String c s' => P c && all_chars P s'
  end.

(** The first character of [s] satisfies [P]. *)
Definition head_is (P : ascii -> bool) (s : string) : bool :=
  match s with
  | EmptyString => false
  | String c _ => P c
  end.

(** Whether the position after [u] starts a line, [bol] saying whether
    the position before [u] does. *)
Fixpoint bol_after (bol : bool) (u : string) : bool :=
  match u with
  | EmptyString => bol
  | String c u' => bol_after (Re.is_nl c) u'
  end.

(** A Markdown link. *)
Definition link (text target : string) : string :=
  "[" +:+ text +:+ "](" +:+ target +:+ ")".

(** The shape the four patterns of sync_amplifier_core.py share: the
    bracketed link text, captured, and then what [tail] asks for. *)
Definition link_pattern (tail : Re.regex) : Re.regex :=
  Re.Atom (Re.CChar "[") Re.One false
  :: Re.Atom (Re.CNot ["]"%char]) Re.Plus true
  :: Re.Atom (Re.CChar "]") Re.One false
  :: tail.

(** The link target [name], in its parentheses. *)
Definition to_file (name : string) : Re.regex :=
  literal ("(" +:+ name +:+ ")").

(** A link target below [dir], captured up to the closing parenthesis. *)
Definition below (dir : string) : Re.regex :=
  literal ("(" +:+ dir)
  ++ [Re.Atom (Re.CNot [")"%char]) Re.Plus true;
      Re.Atom (Re.CChar ")") Re.One false].

(** A rule whose pattern starts with the character [a]. *)
Definition starts_with_char (a : ascii) (rule : string * string) : Prop :=
  exists re tpl,
    Re.compile false (fst rule)
    = Some (Re.Atom (Re.CChar a) Re.One false :: re)
    /\ Re.parse_template
         (Re.groups (Re.Atom (Re.CChar a) Re.One false :: re)) (snd rule)
       = Some tpl.

(** The pattern of [update_frontmatter_name], as [re.compile] reads it
    under [re.MULTILINE]. *)
Definition name_line : Re.regex :=
  Re.LineStart
  :: literal "name:"
  ++ [Re.Atom Re.CSpace Re.Star false; Re.Atom Re.CAny Re.Star false;
      Re.LineEnd].

(** No line of [s] starts with [name:]; [bol] says whether [s] starts at
    the start of a line. *)
Fixpoint no_name_line (bol : bool) (s : string) : bool :=
  match s with
  | EmptyString => true
  | String c s' =>
      negb (bol && Py.startswith (String c s') "name:")
      && no_name_line (Re.is_nl c) s'
  end.

(** *** Runs that change nothing, and second runs *)

(** The run [o] from [t] has changed nothing: the tree is as it was, no
    directory was made and no file written. *)
Definition unchanged {A : Type} (o : Outcome A) (t : Tree) : Prop :=
  tree o = t /\ made_dirs (events o) = [] /\ writes (events o) = [].

(** When the run [o] returns, the lines it printed end with [tail]. *)
Definition ends_with {A : Type} (tail : list string) (o : Outcome A) : Prop :=
  forall v, result o = Ok v ->
    exists lines, printed (events o) = lines ++ tail.

(** A second run of [f], from the tree its first run left, returns the
    same, leaves the tree as the first run left it, makes no directory,
    and writes again what the first run wrote. *)
Definition settles {A : Type} (f : M A) (t : Tree) : Prop :=
  forall v, result (f t) = Ok v ->
    let again := f (tree (f t)) in
    result again = Ok v
    /\ tree again = tree (f t)
    /\ made_dirs (events again) = []
    /\ writes (events again) = writes (events (f t)).

(** The same for an assembler whose second run may take its items in
    another order: the second run returns, and writes what the first run
    wrote. *)
Definition settles_in_any_order {A : Type} (f : M A) (t : Tree) : Prop :=
  forall v, result (f t) = Ok v ->
    let again := f (tree (f t)) in
    (exists v', result again = Ok v')
    /\ tree again = tree (f t)
    /\ made_dirs (events again) = []
    /\ forall w, w ∈ writes (events again) <-> w ∈ writes (events (f t)).

(** What is there for the Writer to find when it has written before. *)
Definition in_place (t : Tree) (r : Result prepared) : Prop :=
  match r with
  | Ok (Ready target content) =>
      target <> []
      /\ node_at t (parent target) = Some Dir
      /\ node_at t target = Some (File content)
  | Ok (Skipped _) => True
  | Raise _ => False
  end.

(** A check over every entry of a tree. *)
Definition every_entry (P : Path -> node -> bool) (t : Tree) : bool :=
  forallb (fun entry => P (fst entry) (snd entry)) (map_to_list t).

(** For a file below [base], the place at the same relative path below
    [dest] can be written: no file on the way, no directory in its place. *)
Definition room_for (t : Tree) (base dest : Path) (q : Path) (n : node)
    : bool :=
  match n, relative_to q base with
  | File _, Some rel =>
      clear_way t (parent (dest ++ rel))
      && match node_at t (dest ++ rel) with Some Dir => false | _ => true end
  | _, _ => true
  end.

(** No directory is among the entries the search below [base] finds. *)
Definition no_dir_found (t : Tree) (base : Path) (suffix : string)
    (q : Path) (n : node) : bool :=
  match n with
  | Dir => negb (globbed t base suffix q)
  | File _ => true
  end.

(** An applying run of [f] from [t] writes its one file or nothing: when
    it raises, no file is written and every node that was there is still
    there; when it returns a path, the one write is the file at that
    path. *)
Definition all_or_nothing (f : M Path) (t : Tree) : Prop :=
  (forall e, result (f t) = Raise e ->
     writes (events (f t)) = []
     /\ forall q n, node_at t q = Some n -> node_at (tree (f t)) q = Some n)
  /\ (forall v, result (f t) = Ok v ->
        exists content,
          writes (events (f t)) = [(v, content)]
          /\ node_at (tree (f t)) v = Some (File content)).

End Spec.

(** ** Sample inputs *)

Module Sample.

Import Os.

(** An agent document with a frontmatter block. *)
Definition agent_doc : string := "---
name: planning-architect
description: Plans with @ddd:context/guide.md
---

Read @foundation:IMPLEMENTATION_PHILOSOPHY.md first.
".

(** A document without frontmatter. *)
Definition plain_doc : string := "# Guide

See @ddd:context/phases.md
".

(** The smallest document whose name field is rewritten: an opening
    delimiter and one more. *)
Definition one_block_doc : string := "---
name: a
---
".



(** A document whose text follows the closing delimiter directly. *)
Definition tight_doc : string := "---
name: a
---Body
".

(** The plugin and the two clones. *)
Definition plugin : Path := ["opt"; "plugin"].
Definition core_clone : Path := ["tmp"; "amplifier-core"].
Definition ddd_clone : Path := ["tmp"; "ddd"].

Definition readme_doc : string := "# Contracts

See [the philosophy](../DESIGN_PHILOSOPHY.md).
".

Definition tool_doc : string := "# Tool contract

Back to [overview](../README.md).
".

Definition hook_doc : string := "# Hook contract
".

(** A tree with only the directories of the plugin and of a clone whose
    documents are all missing. *)
Definition bare_tree : Tree :=
  list_to_map
    [ (["opt"], Dir); (["opt"; "plugin"], Dir);
      (["tmp"], Dir); (["tmp"; "amplifier-core"], Dir) ].

(** A clone of amplifier-core with the overview and two of the five
    contracts; the other contracts and MODULE_SOURCE_PROTOCOL.md are
    missing. *)
Definition core_tree : Tree :=
  list_to_map
    [ (["opt"], Dir); (["opt"; "plugin"], Dir);
      (["tmp"], Dir); (["tmp"; "amplifier-core"], Dir);
      (["tmp"; "amplifier-core"; "docs"], Dir);
      (["tmp"; "amplifier-core"; "docs"; "DESIGN_PHILOSOPHY.md"],
       File plain_doc);
      (["tmp"; "amplifier-core"; "docs"; "contracts"], Dir);
      (["tmp"; "amplifier-core"; "docs"; "contracts"; "README.md"],
       File readme_doc);
      (["tmp"; "amplifier-core"; "docs"; "contracts"; "TOOL_CONTRACT.md"],
       File tool_doc);
      (["tmp"; "amplifier-core"; "docs"; "contracts"; "HOOK_CONTRACT.md"],
       File hook_doc) ].

(** A clone of the DDD collection with one of the five agents and two
    Markdown files below context/, one of them in a subdirectory, beside a
    file that is no Markdown. *)
Definition ddd_tree : Tree :=
  list_to_map
    [ (["opt"], Dir); (["opt"; "plugin"], Dir);
      (["tmp"], Dir); (["tmp"; "ddd"], Dir);
      (["tmp"; "ddd"; "agents"], Dir);
      (["tmp"; "ddd"; "agents"; "planning-architect.md"], File agent_doc);
      (["tmp"; "ddd"; "context"], Dir);
      (["tmp"; "ddd"; "context"; "guide.md"], File plain_doc);
      (["tmp"; "ddd"; "context"; "phases"], Dir);
      (["tmp"; "ddd"; "context"; "phases"; "plan.md"], File agent_doc);
      (["tmp"; "ddd"; "context"; "phases"; "notes.txt"], File plain_doc) ].

(** A document whose frontmatter has no name field. *)
Definition untitled_doc : string := "---
title: Notes
---
Body
".

(** A document whose name field is empty. *)
Definition unnamed_doc : string := "---
name:
description: Plans
---
Body
".

(** A clone of the DDD collection with one agent and no context/. *)
Definition agents_tree : Tree :=
  list_to_map
    [ (["opt"], Dir); (["opt"; "plugin"], Dir);
      (["tmp"], Dir); (["tmp"; "ddd"], Dir);
      (["tmp"; "ddd"; "agents"], Dir);
      (["tmp"; "ddd"; "agents"; "planning-architect.md"], File agent_doc) ].

(** A clone of amplifier-core with directories where two documents are
    expected. *)
Definition odd_tree : Tree :=
  list_to_map
    [ (["opt"], Dir); (["opt"; "plugin"], Dir);
      (["tmp"], Dir); (["tmp"; "amplifier-core"], Dir);
      (["tmp"; "amplifier-core"; "docs"], Dir);
      (["tmp"; "amplifier-core"; "docs"; "DESIGN_PHILOSOPHY.md"], Dir);
      (["tmp"; "amplifier-core"; "docs"; "contracts"], Dir);
      (["tmp"; "amplifier-core"; "docs"; "contracts"; "README.md"],
       File readme_doc);
      (["tmp"; "amplifier-core"; "docs"; "contracts"; "HOOK_CONTRACT.md"],
       Dir) ].

(** A clone of the DDD repository with a directory at the path of one
    agent and a directory named like a document below context/. *)
Definition odd_ddd_tree : Tree :=
  list_to_map
    [ (["opt"], Dir); (["opt"; "plugin"], Dir);
      (["tmp"], Dir); (["tmp"; "ddd"], Dir);
      (["tmp"; "ddd"; "agents"], Dir);
      (["tmp"; "ddd"; "agents"; "planning-architect.md"],
       File agent_doc);
      (["tmp"; "ddd"; "agents"; "code-planner.md"], Dir);
      (["tmp"; "ddd"; "context"], Dir);
      (["tmp"; "ddd"; "context"; "guide.md"], File plain_doc);
      (["tmp"; "ddd"; "context"; "archive.md"], Dir) ].

End Sample.

(** * Properties *)

Import Os.

(** ** Strings *)

Lemma append_cons (c : ascii) (s t : string) :
  String c s +:+ t = String c (s +:+ t).
Proof. reflexivity. Qed.

Lemma append_nil_l (t : string) : "" +:+ t = t.
Proof. reflexivity. Qed.

Ltac sapp := rewrite ?append_cons, ?append_nil_l in *.

Lemma append_nil_r (s : string) : s +:+ "" = s.
Proof. induction s as [|c s IH]; sapp; [reflexivity | now rewrite IH]. Qed.

Lemma append_assoc (a b c : string) : (a +:+ b) +:+ c = a +:+ b +:+ c.
Proof. induction a as [|x a IH]; sapp; [reflexivity | now rewrite IH]. Qed.

Lemma length_append (a b : string) :
  String.length (a +:+ b) = String.length a + String.length b.
Proof.
  induction a as [|x a IH]; sapp; simpl; [reflexivity | now rewrite IH].
Qed.

Lemma startswith_append (p t : string) : Py.startswith (p +:+ t) p = true.
Proof.
  induction p as [|c p IH]; sapp; simpl; [reflexivity |].
  rewrite Ascii.eqb_refl. exact IH.
Qed.

Lemma startswith_inv (s p : string) :
  Py.startswith s p = true -> s = p +:+ Py.drop (String.length p) s.
Proof.
  revert s. induction p as [|c p IH]; intros s H; simpl in *.
  - reflexivity.
  - destruct s as [|d s]; [discriminate |].
    apply andb_prop in H as [Hc Hp].
    apply Ascii.eqb_eq in Hc. subst d. sapp. f_equal. now apply IH.
Qed.

Lemma drop_append (p t : string) : Py.drop (String.length p) (p +:+ t) = t.
Proof.
  induction p as [|c p IH]; sapp; simpl; [now destruct t | exact IH].
Qed.

(** [find_split] cuts at an occurrence of the separator... *)
Lemma find_split_Some (sep s a b : string) :
  Py.find_split sep s = Some (a, b) -> s = a +:+ sep +:+ b.
Proof.
  revert a b. induction s as [|c s IH]; intros a b H; simpl in H.
  - destruct (Py.startswith "" sep) eqn:E; [|discriminate].
    injection H as <- <-. sapp. now apply startswith_inv.
  - destruct (Py.startswith (String c s) sep) eqn:E.
    + injection H as <- <-. sapp. now apply startswith_inv.
    + destruct (Py.find_split sep s) as [[a' b']|] eqn:F; [|discriminate].
      injection H as <- <-. sapp. f_equal. now apply IH.
Qed.

(** ... the leftmost one ... *)
Lemma find_split_first (sep s a b a' b' : string) :
  Py.find_split sep s = Some (a, b) ->
  s = a' +:+ sep +:+ b' ->
  String.length a <= String.length a'.
Proof.
  revert a b a'. induction s as [|c s IH]; intros a b a' H Hs; simpl in H.
  - destruct (Py.startswith "" sep); [|discriminate].
    injection H as <- <-. simpl. lia.
  - destruct (Py.startswith (String c s) sep) eqn:E.
    + injection H as <- <-. simpl. lia.
    + destruct (Py.find_split sep s) as [[a0 b0]|] eqn:F; [|discriminate].
      injection H as <- <-.
      destruct a' as [|x a'].
      * sapp. rewrite Hs, startswith_append in E. discriminate.
      * sapp. injection Hs as -> Hs. simpl.
        apply le_n_S. eapply IH; eauto.
Qed.

(** ... and finds one whenever there is one. *)
Lemma find_split_None (sep s a b : string) :
  Py.find_split sep s = None -> s = a +:+ sep +:+ b -> False.
Proof.
  revert a. induction s as [|c s IH]; intros a H Hs; simpl in H.
  - destruct (Py.startswith "" sep) eqn:E; [discriminate|].
    destruct a; [|discriminate]. sapp.
    rewrite Hs, startswith_append in E. discriminate.
  - destruct (Py.startswith (String c s) sep) eqn:E; [discriminate|].
    destruct (Py.find_split sep s) as [[a0 b0]|] eqn:F; [discriminate|].
    destruct a as [|x a].
    + sapp. rewrite Hs, startswith_append in E. discriminate.
    + sapp. injection Hs as -> Hs. eapply IH; eauto.
Qed.

Lemma append_inj_length (a a' x x' : string) :
  a +:+ x = a' +:+ x' -> String.length a = String.length a' ->
  a = a' /\ x = x'.
Proof.
  revert a'. induction a as [|c a IH]; intros [|c' a'] H L;
    simpl in L; try discriminate; sapp.
  - now split.
  - injection H as -> H. injection L as L.
    destruct (IH _ H L) as [-> ->]. now split.
Qed.

(** ** The frontmatter block, as [split] sees it *)

Lemma split_dashes (content : string) :
  Py.startswith content "---" = true ->
  Py.split "---" 2 content =
    "" :: match Py.find_split "---" (Py.drop 3 content) with
          | Some (fm, body) => [fm; body]
          | None => [Py.drop 3 content]
          end.
Proof.
  intros H. unfold Py.split.
  assert (F : Py.find_split "---" content = Some ("", Py.drop 3 content)).
  { destruct content as [|c s]; simpl in *; [discriminate|].
    unfold Py.startswith in H. now rewrite H. }
  rewrite F. destruct (Py.find_split "---" (Py.drop 3 content)) as [[a b]|];
    reflexivity.
Qed.

Lemma frontmatter_of_find (content fm body : string) :
  Py.startswith content "---" = true ->
  Py.find_split "---" (Py.drop 3 content) = Some (fm, body) ->
  Spec.frontmatter_of content fm body.
Proof.
  intros S F. split.
  - rewrite (startswith_inv _ _ S) at 1. f_equal.
    now apply find_split_Some.
  - intros fm' body' E. eapply find_split_first; [exact F|].
    rewrite E. reflexivity.
Qed.

Lemma find_of_frontmatter (content fm body : string) :
  Spec.frontmatter_of content fm body ->
  Py.startswith content "---" = true
  /\ Py.find_split "---" (Py.drop 3 content) = Some (fm, body).
Proof.
  intros [E Min]. split; [rewrite E; apply startswith_append|].
  assert (D : Py.drop 3 content = fm +:+ "---" +:+ body)
    by (rewrite E; reflexivity).
  destruct (Py.find_split "---" (Py.drop 3 content)) as [[a b]|] eqn:F.
  - pose proof (find_split_Some _ _ _ _ F) as Ea.
    pose proof (find_split_first _ _ _ _ _ _ F D) as L1.
    assert (L2 : String.length fm <= String.length a).
    { apply (Min a b). rewrite (startswith_inv content "---") at 1.
      - f_equal. exact Ea.
      - rewrite E. apply startswith_append. }
    rewrite D in Ea.
    destruct (append_inj_length fm a _ _ Ea) as [-> Hb]; [lia|].
    apply (append_inj_length "---" "---") in Hb as [_ ->]; reflexivity.
  - exfalso. eapply find_split_None; eauto.
Qed.

Lemma has_frontmatter_find (content : string) :
  Spec.has_frontmatter content ->
  exists fm body, Spec.frontmatter_of content fm body.
Proof.
  intros (fm & body & E).
  assert (S : Py.startswith content "---" = true)
    by (rewrite E; apply startswith_append).
  destruct (Py.find_split "---" (Py.drop 3 content)) as [[a b]|] eqn:F.
  - exists a, b. now apply frontmatter_of_find.
  - exfalso. eapply (find_split_None _ _ fm body); [exact F|].
    rewrite E. reflexivity.
Qed.

Lemma no_frontmatter_find (content : string) :
  ~ Spec.has_frontmatter content ->
  Py.startswith content "---" = false
  \/ (Py.startswith content "---" = true
      /\ Py.find_split "---" (Py.drop 3 content) = None).
Proof.
  intros N. destruct (Py.startswith content "---") eqn:S; [right|now left].
  split; [reflexivity|].
  destruct (Py.find_split "---" (Py.drop 3 content)) as [[a b]|] eqn:F;
    [|reflexivity].
  exfalso. apply N. exists a, b.
  rewrite (startswith_inv _ _ S) at 1. f_equal. now apply find_split_Some.
Qed.

(** ** [inject_credit] *)

Lemma ddd_inject_credit_block (content fm body : string) :
  Spec.frontmatter_of content fm body ->
  DDD.inject_credit content =
    "---" +:+ fm +:+ "---" +:+ Spec.blank_line +:+ DDD.CREDIT_COMMENT
    +:+ Py.lstrip body.
Proof.
  intros H. apply find_of_frontmatter in H as [S F].
  unfold DDD.inject_credit. rewrite S, (split_dashes _ S), F. reflexivity.
Qed.

Lemma ddd_inject_credit_plain (content : string) :
  ~ Spec.has_frontmatter content ->
  DDD.inject_credit content = DDD.CREDIT_COMMENT +:+ content.
Proof.
  intros N. unfold DDD.inject_credit.
  destruct (no_frontmatter_find _ N) as [S | [S F]]; rewrite S;
    [reflexivity|].
  rewrite (split_dashes _ S), F. reflexivity.
Qed.

Lemma lstrip_length (s : string) :
  String.length (Py.lstrip s) <= String.length s.
Proof.
  induction s as [|c s IH]; simpl; [lia|].
  destruct (Py.is_space c); simpl; lia.
Qed.

Lemma lstrip_head (s : string) (c : ascii) (rest : string) :
  Py.lstrip s = String c rest -> Py.is_space c = false.
Proof.
  induction s as [|d s IH]; simpl; [discriminate|].
  destruct (Py.is_space d) eqn:E; [exact IH|].
  intros H. injection H as <- _. exact E.
Qed.

(** ** The header block, as lines delimit it *)











(** [lstrip] takes away a prefix of white space, and no more than that. *)
Lemma lstrip_prefix (s : string) :
  exists ws,
    s = ws +:+ Py.lstrip s /\ Spec.all_chars Py.is_space ws = true.
Proof.
  induction s as [|c s (ws & E & A)]; [now exists EmptyString|].
  cbn [Py.lstrip]. destruct (Py.is_space c) eqn:Hc.
  - exists (String c ws). sapp. cbn [Spec.all_chars]. rewrite Hc, A.
    now rewrite <- E.
  - now exists EmptyString.
Qed.

(** C9, as the code has it. For a content that begins with three dashes
    and holds three more, the DDD [inject_credit] keeps the text up to the
    first closing delimiter, puts exactly one empty line between that
    delimiter and the banner, and emits after the banner the text that
    followed the delimiter without its leading white space: the text
    after the delimiter is a run of white space followed by the text
    emitted, which starts with no white space. The text is emitted byte
    for byte exactly when that run is empty, that is when it starts with
    no white space. *)
Theorem ddd_inject_credit_strips_body (content : string) :
  Spec.has_frontmatter content ->
  exists fm body ws,
    Spec.frontmatter_of content fm body
    /\ body = ws +:+ Py.lstrip body
    /\ Spec.all_chars Py.is_space ws = true
    /\ (forall c rest, Py.lstrip body = String c rest -> Py.is_space c = false)
    /\ DDD.inject_credit content =
         ("---" +:+ fm +:+ "---") +:+ Spec.blank_line
         +:+ DDD.CREDIT_COMMENT +:+ Py.lstrip body
    /\ (Py.lstrip body = body <-> ws = EmptyString).
Proof.
  intros H. destruct (has_frontmatter_find _ H) as (fm & body & Hf).
  destruct (lstrip_prefix body) as (ws & E & A).
  exists fm, body, ws. split; [exact Hf|]. split; [exact E|].
  split; [exact A|]. split; [apply lstrip_head|]. split.
  - rewrite (ddd_inject_credit_block _ _ _ Hf), !append_assoc. reflexivity.
  - split.
    + intros L. rewrite L in E. apply (f_equal String.length) in E.
      rewrite length_append in E. destruct ws; [reflexivity|].
      cbn [String.length] in E. lia.
    + intros ->. now rewrite E at 2.
Qed.

Lemma ddd_inject_credit_strips_body_witness :
  Spec.has_frontmatter Sample.agent_doc
  /\ exists fm body ws,
       Spec.frontmatter_of Sample.agent_doc fm body
       /\ body = ws +:+ Py.lstrip body
       /\ Spec.all_chars Py.is_space ws = true
       /\ (forall c rest,
             Py.lstrip body = String c rest -> Py.is_space c = false)
       /\ DDD.inject_credit Sample.agent_doc =
            ("---" +:+ fm +:+ "---") +:+ Spec.blank_line
            +:+ DDD.CREDIT_COMMENT +:+ Py.lstrip body
       /\ (Py.lstrip body = body <-> ws = EmptyString).
Proof.
  assert (H : Spec.has_frontmatter Sample.agent_doc).
  { eexists _, _. unfold Sample.agent_doc.
    match goal with
    | |- _ = _ +:+ ?fm +:+ _ +:+ ?body =>
        unify fm "
name: planning-architect
description: Plans with @ddd:context/guide.md
"; unify body "

Read @foundation:IMPLEMENTATION_PHILOSOPHY.md first.
"
    end. reflexivity. }
  split; [exact H|]. exact (ddd_inject_credit_strips_body Sample.agent_doc H).
Defined.

(** C9 as stated fails: it is not for every content with a block that the
    body is changed. Where the text follows the closing delimiter
    directly, the text emitted after the banner is that text, byte for
    byte. *)
Lemma ddd_inject_credit_keeps_tight_body :
  Spec.frontmatter_of Sample.tight_doc "
name: a
" "Body
"
  /\ DDD.inject_credit Sample.tight_doc = "---
name: a
---" +:+ Spec.blank_line +:+ DDD.CREDIT_COMMENT +:+ "Body
"
  /\ Py.lstrip "Body
" = "Body
".
Proof.
  split; [apply frontmatter_of_find; reflexivity|].
  split; reflexivity.
Qed.

(** ** [update_frontmatter_name] *)

(** C10, as the code has it. A content that does not begin with a
    frontmatter block (it does not start with three dashes, or no three
    dashes follow the opening ones) comes back unchanged, whatever the new
    name is, and no exception is raised. *)
Theorem update_frontmatter_name_without_block (content new_name : string) :
  ~ Spec.has_frontmatter content ->
  DDD.update_frontmatter_name content new_name = Ok content.
Proof.
  intros N. unfold DDD.update_frontmatter_name.
  destruct (no_frontmatter_find _ N) as [S | [S F]]; rewrite S;
    [reflexivity|].
  rewrite (split_dashes _ S), F. reflexivity.
Qed.

Lemma update_frontmatter_name_without_block_witness :
  ~ Spec.has_frontmatter Sample.plain_doc
  /\ DDD.update_frontmatter_name Sample.plain_doc "a\1" = Ok Sample.plain_doc.
Proof.
  assert (N : ~ Spec.has_frontmatter Sample.plain_doc).
  { intros (fm & body & E). unfold Sample.plain_doc in E. sapp.
    discriminate E. }
  split; [exact N|].
  exact (update_frontmatter_name_without_block Sample.plain_doc "a\1" N).
Defined.

(** C10 as stated fails: a content with exactly one further delimiter
    after the opening one (fewer than two) has its name field rewritten. *)
Lemma update_frontmatter_name_one_further_delimiter :
  Py.startswith Sample.one_block_doc "---" = true
  /\ Spec.count "---" (Py.drop 3 Sample.one_block_doc) = 1
  /\ DDD.update_frontmatter_name Sample.one_block_doc "b" = Ok "---
name: b
---
"
  /\ String.eqb "---
name: b
---
" Sample.one_block_doc = false.
Proof. repeat split; reflexivity. Qed.

(** ** [transform_references] *)

Lemma fold_rules_raise (rules : list (string * string)) (e : exn) :
  fold_left
    (fun acc rule =>
       match acc with
       | Ok text => Re.sub false (fst rule) (snd rule) text
       | Raise e => Raise e
       end)
    rules (Raise e) = Raise e.
Proof. induction rules as [|r rules IH]; simpl; [reflexivity | exact IH]. Qed.

(** The loop over a rule table is the left fold of the table, for every
    table and every content. *)
Lemma sub_each_fold (rules : list (string * string)) (content : string) :
  Re.sub_each rules content = Spec.fold_rules rules content.
Proof.
  unfold Spec.fold_rules. revert content.
  induction rules as [|[pattern replacement] rules IH]; intros content; simpl.
  - reflexivity.
  - destruct (Re.sub false pattern replacement content) as [text|e].
    + apply IH.
    + symmetry. apply fold_rules_raise.
Qed.

Lemma sub_rule_ok (rule : string * string) (text : string) :
  Spec.rule_ok rule ->
  exists out, Re.sub false (fst rule) (snd rule) text = Ok out.
Proof.
  intros (re & tpl & Hc & Ht). unfold Re.sub. rewrite Hc, Ht. eauto.
Qed.

Lemma sub_each_total (rules : list (string * string)) (content : string) :
  Forall Spec.rule_ok rules ->
  exists out, Re.sub_each rules content = Ok out.
Proof.
  intros H. revert content.
  induction H as [|[pattern replacement] rules Hr _ IH]; intros content; simpl.
  - eauto.
  - destruct (sub_rule_ok _ content Hr) as [text E]. simpl in E.
    rewrite E. apply IH.
Qed.

Ltac rule_table_ok :=
  repeat (constructor; [eexists _, _; split; vm_compute; reflexivity|]);
  constructor.

Lemma core_rules_ok : Forall Spec.rule_ok Core.REFERENCE_PATTERNS.
Proof. unfold Core.REFERENCE_PATTERNS. rule_table_ok. Qed.

Lemma ddd_rules_ok : Forall Spec.rule_ok DDD.REFERENCE_PATTERNS.
Proof. unfold DDD.REFERENCE_PATTERNS. rule_table_ok. Qed.

Lemma core_transform_total (content : string) :
  exists out, Core.transform_references content = Ok out.
Proof. apply sub_each_total, core_rules_ok. Qed.

Lemma ddd_transform_total (content : string) :
  exists out, DDD.transform_references content = Ok out.
Proof. apply sub_each_total, ddd_rules_ok. Qed.

(** C2. In both scripts [transform_references] is the left fold of the
    script's rule table from the content: each rule's [re.sub] rewrites the
    whole text the rules before it produced. The fold never raises on
    these tables, so a transformed text always comes back. *)
Theorem transform_references_is_fold (content : string) :
  Core.transform_references content
    = Spec.fold_rules Core.REFERENCE_PATTERNS content
  /\ DDD.transform_references content
    = Spec.fold_rules DDD.REFERENCE_PATTERNS content
  /\ (exists out, Spec.fold_rules Core.REFERENCE_PATTERNS content = Ok out)
  /\ (exists out, Spec.fold_rules DDD.REFERENCE_PATTERNS content = Ok out).
Proof.
  split; [apply sub_each_fold|]. split; [apply sub_each_fold|].
  split; rewrite <- sub_each_fold.
  - apply core_transform_total.
  - apply ddd_transform_total.
Qed.

(** C7. The order of the DDD rules shows: on a reference into
    [@ddd:context/] the table gives one result as written and another
    with its first two rules exchanged, because the second rule's pattern
    [@ddd:] matches the start of the text the first rule is meant for. *)
Theorem ddd_rule_order_observable :
  exists content a b,
    Py.contains content "@ddd:context/" = true
    /\ Re.sub_each DDD.REFERENCE_PATTERNS content = Ok a
    /\ Re.sub_each (Spec.swap_first_two DDD.REFERENCE_PATTERNS) content = Ok b
    /\ a = "See @skills/ddd-guide/references/guide.md"
    /\ b = "See @skills/ddd-guide/references/context/guide.md"
    /\ String.eqb a b = false.
Proof.
  exists "See @ddd:context/guide.md".
  eexists _, _. repeat split; vm_compute; reflexivity.
Qed.

Import Spec.

(** ** The monad *)

Lemma outcome_eta {A : Type} (o : Outcome A) :
  mkOutcome (result o) (tree o) (events o) = o.
Proof. now destruct o. Qed.

Lemma prepend_nil {A : Type} (o : Outcome A) : prepend [] o = o.
Proof. now destruct o. Qed.

Lemma bind_at {A B : Type} (m : M A) (k : A -> M B) (t : Tree) :
  (m ≫= k) t =
    match result (m t) with
    | Ok a => prepend (events (m t)) (k a (tree (m t)))
    | Raise e => mkOutcome (Raise e) (tree (m t)) (events (m t))
    end.
Proof. reflexivity. Qed.

Lemma bind_ok {A B : Type} (m : M A) (k : A -> M B) (t : Tree) (a : A) :
  result (m t) = Ok a ->
  (m ≫= k) t = prepend (events (m t)) (k a (tree (m t))).
Proof. intros H. rewrite bind_at, H. reflexivity. Qed.

Lemma bind_raise {A B : Type} (m : M A) (k : A -> M B) (t : Tree) (e : exn) :
  result (m t) = Raise e ->
  (m ≫= k) t = mkOutcome (Raise e) (tree (m t)) (events (m t)).
Proof. intros H. rewrite bind_at, H. reflexivity. Qed.

Lemma bind_assoc_at {A B C : Type} (m : M A) (f : A -> M B) (g : B -> M C)
    (t : Tree) :
  ((m ≫= f) ≫= g) t = (m ≫= (fun a => f a ≫= g)) t.
Proof.
  rewrite !bind_at.
  destruct (m t) as [[a|e] t1 ev1]; simpl; [|reflexivity].
  rewrite bind_at.
  destruct (f a t1) as [[b|e] t2 ev2]; simpl; [|reflexivity].
  destruct (g b t2) as [r t3 ev3]. unfold prepend. simpl.
  now rewrite app_assoc.
Qed.

(** Reading steps: they return at once and leave no trace. *)
Lemma exists_bind {B : Type} (p : Path) (k : bool -> M B) (t : Tree) :
  (path_exists p ≫= k) t =
    k match node_at t p with Some _ => true | None => false end t.
Proof. rewrite bind_at. simpl. apply prepend_nil. Qed.

Lemma lift_bind {A B : Type} (a : A) (k : A -> M B) (t : Tree) :
  (lift (Ok a) ≫= k) t = k a t.
Proof. rewrite bind_at. simpl. apply prepend_nil. Qed.

Lemma ret_bind {A B : Type} (a : A) (k : A -> M B) (t : Tree) :
  (mret a ≫= k) t = k a t.
Proof. rewrite bind_at. simpl. apply prepend_nil. Qed.

Lemma read_bind_file {B : Type} (p : Path) (k : string -> M B) (t : Tree)
    (content : string) :
  node_at t p = Some (File content) ->
  (read_text p ≫= k) t = k content t.
Proof.
  intros H. rewrite bind_at. unfold read_text. rewrite H. simpl.
  apply prepend_nil.
Qed.

Lemma read_bind_dir {B : Type} (p : Path) (k : string -> M B) (t : Tree) :
  node_at t p = Some Dir ->
  (read_text p ≫= k) t = mkOutcome (Raise (IsADirectoryError p)) t [].
Proof. intros H. rewrite bind_at. unfold read_text. now rewrite H. Qed.

Lemma read_bind_none {B : Type} (p : Path) (k : string -> M B) (t : Tree) :
  node_at t p = None ->
  (read_text p ≫= k) t
  = mkOutcome (Raise (FileNotFoundError (path_str p))) t [].
Proof. intros H. rewrite bind_at. unfold read_text. now rewrite H. Qed.

Lemma print_bind {B : Type} (line : string) (k : unit -> M B) (t : Tree) :
  (print line ≫= k) t = prepend [Printed line] (k tt t).
Proof. reflexivity. Qed.

(** ** Paths *)

Lemma parent_child (p : Path) (a : string) : parent (p </> a) = p.
Proof. apply removelast_last. Qed.

Lemma child_not_root (p : Path) (a : string) : p </> a <> [].
Proof. unfold child. now destruct p. Qed.

Lemma parent_prefix (p : Path) : parent p `prefix_of` p.
Proof.
  destruct (decide (p = [])) as [->|N]; [reflexivity|].
  unfold parent. rewrite (app_removelast_last EmptyString N) at 2.
  now apply prefix_app_r.
Qed.

Lemma parent_length (p : Path) : p <> [] -> S (length (parent p)) = length p.
Proof.
  intros N. unfold parent.
  rewrite (app_removelast_last EmptyString N) at 2.
  rewrite length_app. simpl. lia.
Qed.

Lemma node_at_insert (t : Tree) (p q : Path) (n : node) :
  p <> [] ->
  node_at (<[p := n]> t) q = if decide (p = q) then Some n else node_at t q.
Proof.
  intros N. destruct q as [|a q].
  - simpl. destruct (decide (p = [])); [contradiction | reflexivity].
  - simpl. apply lookup_insert.
Qed.

Lemma node_at_None_not_root (t : Tree) (p : Path) :
  node_at t p = None -> p <> [].
Proof. now destruct p. Qed.

(** ** Making directories *)

Lemma made_up_to_refl (p : Path) (t : Tree) : made_up_to p t t.
Proof. intros q. now left. Qed.

Lemma made_up_to_trans (p p' : Path) (t t1 t2 : Tree) :
  p `prefix_of` p' ->
  made_up_to p t t1 -> made_up_to p' t1 t2 -> made_up_to p' t t2.
Proof.
  intros Hp H1 H2 q.
  destruct (H2 q) as [E2 | (N2 & D2 & P2)], (H1 q) as [E1 | (N1 & D1 & P1)].
  - left. congruence.
  - right. rewrite E2. repeat split; try assumption. now transitivity p.
  - right. rewrite <- E1. now repeat split.
  - congruence.
Qed.

Lemma made_up_to_weaken (p p' : Path) (t t' : Tree) :
  p `prefix_of` p' -> made_up_to p t t' -> made_up_to p' t t'.
Proof.
  intros Hp H. eapply made_up_to_trans; [exact Hp | exact H |].
  apply made_up_to_refl.
Qed.

Lemma only_made_dirs_app (a b : list event) :
  only_made_dirs a -> only_made_dirs b -> only_made_dirs (a ++ b).
Proof.
  unfold only_made_dirs, printed, writes. intros [A1 A2] [B1 B2].
  rewrite !omap_app, A1, A2, B1, B2. now split.
Qed.

Lemma only_made_dirs_nil : only_made_dirs [].
Proof. now split. Qed.

Lemma unless_is_dir_at (p : Path) (e : exn) (t : Tree) :
  unless_is_dir p e t =
    mkOutcome (match node_at t p with Some Dir => Ok tt | _ => Raise e end)
      t [].
Proof.
  unfold unless_is_dir. rewrite bind_at. simpl.
  destruct (node_at t p) as [[c|]|]; reflexivity.
Qed.

(** What [os.mkdir] comes to, by the nodes at the path and at its
    parent. *)
Lemma os_mkdir_at (p : Path) (t : Tree) :
  os_mkdir p t =
    match node_at t p, node_at t (parent p) with
    | Some _, _ => mkOutcome (Raise (FileExistsError p)) t []
    | None, None => mkOutcome (Raise (FileNotFoundError (path_str p))) t []
    | None, Some (File _) => mkOutcome (Raise (NotADirectoryError p)) t []
    | None, Some Dir => mkOutcome (Ok tt) (<[p := Dir]> t) [MadeDir p]
    end.
Proof.
  unfold os_mkdir. destruct (node_at t p); [reflexivity|].
  destruct (node_at t (parent p)) as [[c|]|]; reflexivity.
Qed.

Lemma made_up_to_insert (p : Path) (t : Tree) :
  node_at t p = None -> made_up_to p t (<[p := Dir]> t).
Proof.
  intros N q. rewrite node_at_insert by (eapply node_at_None_not_root; eassumption).
  destruct (decide (p = q)) as [<-|Ne]; [right | now left].
  now repeat split.
Qed.

Lemma mkdir_exist_ok_at (p : Path) (t : Tree) :
  mkdir_exist_ok p t =
    match node_at t p, node_at t (parent p) with
    | Some Dir, _ => mkOutcome (Ok tt) t []
    | Some (File _), _ => mkOutcome (Raise (FileExistsError p)) t []
    | None, None => mkOutcome (Raise (FileNotFoundError (path_str p))) t []
    | None, Some (File _) => mkOutcome (Raise (NotADirectoryError p)) t []
    | None, Some Dir => mkOutcome (Ok tt) (<[p := Dir]> t) [MadeDir p]
    end.
Proof.
  unfold mkdir_exist_ok. rewrite os_mkdir_at.
  destruct (node_at t p) as [[c|]|] eqn:Np;
    [| |destruct (node_at t (parent p)) as [[c|]|]];
    cbn [result tree]; rewrite ?unless_is_dir_at, ?Np; reflexivity.
Qed.

Lemma mkdir_parents_at (d : nat) (p : Path) (t : Tree) :
  mkdir_parents d p t =
    match node_at t p, node_at t (parent p) with
    | Some Dir, _ => mkOutcome (Ok tt) t []
    | Some (File _), _ => mkOutcome (Raise (FileExistsError p)) t []
    | None, None =>
        match d with
        | O => mkOutcome (Raise (FileNotFoundError (path_str p))) t []
        | S d' => (mkdir_parents d' (parent p);; mkdir_exist_ok p) t
        end
    | None, Some (File _) => mkOutcome (Raise (NotADirectoryError p)) t []
    | None, Some Dir => mkOutcome (Ok tt) (<[p := Dir]> t) [MadeDir p]
    end.
Proof.
  destruct d; cbn [mkdir_parents]; rewrite os_mkdir_at;
    (destruct (node_at t p) as [[c|]|] eqn:Np;
     [| |destruct (node_at t (parent p)) as [[c|]|]]);
    cbn [result tree]; rewrite ?unless_is_dir_at, ?Np; reflexivity.
Qed.

Lemma mkdir_exist_ok_spec (p : Path) (t : Tree) :
  let o := mkdir_exist_ok p t in
  made_up_to p t (tree o)
  /\ only_made_dirs (events o)
  /\ (result o = Ok tt -> node_at (tree o) p = Some Dir)
  /\ (node_at t (parent p) = Some Dir ->
      (forall c, node_at t p <> Some (File c)) -> result o = Ok tt).
Proof.
  cbv zeta. rewrite mkdir_exist_ok_at.
  destruct (node_at t p) as [[c|]|] eqn:Np;
    [| |destruct (node_at t (parent p)) as [[c|]|] eqn:Npp]; cbn [result tree events].
  - split; [apply made_up_to_refl|]. split; [apply only_made_dirs_nil|].
    split; [discriminate|]. intros _ H. now destruct (H c).
  - split; [apply made_up_to_refl|]. split; [apply only_made_dirs_nil|].
    now split.
  - split; [apply made_up_to_refl|]. split; [apply only_made_dirs_nil|].
    split; discriminate.
  - split; [now apply made_up_to_insert|]. split; [now split|].
    split; [|reflexivity]. intros _.
    rewrite node_at_insert by (eapply node_at_None_not_root; eassumption).
    now rewrite decide_True.
  - split; [apply made_up_to_refl|]. split; [apply only_made_dirs_nil|].
    split; discriminate.
Qed.

Lemma mkdir_parents_spec (d : nat) (p : Path) (t : Tree) :
  let o := mkdir_parents d p t in
  made_up_to p t (tree o)
  /\ only_made_dirs (events o)
  /\ (result o = Ok tt -> node_at (tree o) p = Some Dir)
  /\ (length p <= d ->
      (forall q c, q `prefix_of` p -> node_at t q <> Some (File c)) ->
      result o = Ok tt).
Proof.
  cbv zeta. revert p t. induction d as [|d IH]; intros p t;
    rewrite mkdir_parents_at;
    (destruct (node_at t p) as [[c|]|] eqn:Np;
     [| |destruct (node_at t (parent p)) as [[c|]|] eqn:Npp]);
    cbn [result tree events].
  1, 6: split; [apply made_up_to_refl|]; (split; [apply only_made_dirs_nil|]);
    (split; [discriminate|]); intros _ H; now destruct (H p c).
  1, 5: split; [apply made_up_to_refl|]; (split; [apply only_made_dirs_nil|]);
    now split.
  1, 4: split; [apply made_up_to_refl|]; (split; [apply only_made_dirs_nil|]);
    (split; [discriminate|]); intros _ H;
    destruct (H (parent p) c (parent_prefix p) Npp).
  1, 3: split; [now apply made_up_to_insert|]; (split; [now split|]);
    (split; [|reflexivity]); intros _;
    rewrite node_at_insert by (eapply node_at_None_not_root; eassumption);
    now rewrite decide_True.
  - split; [apply made_up_to_refl|]. split; [apply only_made_dirs_nil|].
    split; [discriminate|]. intros L _.
    apply node_at_None_not_root in Np. destruct p; [congruence|].
    simpl in L. lia.
  - destruct (IH (parent p) t) as (G1 & E1 & D1 & S1).
    rewrite bind_at.
    destruct (result (mkdir_parents d (parent p) t)) as [[]|e] eqn:R1.
    + destruct (mkdir_exist_ok_spec p (tree (mkdir_parents d (parent p) t)))
        as (G2 & E2 & D2 & S2). cbn [prepend result tree events].
      split; [eapply made_up_to_trans; eauto using parent_prefix|].
      split; [now apply only_made_dirs_app|].
      split; [exact D2|]. intros L H. apply S2; [now apply D1|].
      intros c Hc. destruct (G1 p) as [Eq | (_ & Dp & _)]; [|congruence].
      rewrite Eq, Np in Hc. discriminate.
    + cbn [result tree events].
      split; [eapply made_up_to_weaken; eauto using parent_prefix|].
      split; [exact E1|]. split; [discriminate|]. intros L H.
      assert (N : p <> []) by now apply node_at_None_not_root in Np.
      pose proof (parent_length p N).
      assert (R2 : @Raise unit e = Ok tt); [|discriminate R2].
      apply S1; [lia|]. intros q c Hq. apply H.
      etransitivity; [exact Hq|]. apply parent_prefix.
Qed.

(** ** Writing one file *)

Lemma write_text_at (p : Path) (content : string) (t : Tree) :
  write_text p content t =
    match node_at t p, node_at t (parent p) with
    | Some Dir, _ => mkOutcome (Raise (IsADirectoryError p)) t []
    | _, None => mkOutcome (Raise (FileNotFoundError (path_str p))) t []
    | _, Some (File _) => mkOutcome (Raise (NotADirectoryError p)) t []
    | _, Some Dir =>
        mkOutcome (Ok tt) (<[p := File content]> t) [Wrote p content]
    end.
Proof.
  unfold write_text.
  destruct (node_at t p) as [[c|]|], (node_at t (parent p)) as [[c'|]|];
    reflexivity.
Qed.

Lemma writer_dry (would done : string) (target : Path) (content : string)
    (t : Tree) :
  Spec.writer would done true target content t
  = mkOutcome (Ok tt) t [Printed (would +:+ path_str target)].
Proof. reflexivity. Qed.

(** The applying Writer: directories are made on the way to the target,
    and then either the file is written and reported, or the run stops
    with nothing written. It returns whenever no file stands in the way of
    the directories and no directory in the place of the file. *)
Lemma writer_apply (would done : string) (target : Path) (content : string)
    (t : Tree) :
  let o := Spec.writer would done false target content t in
  exists t1 ev1,
    made_up_to (parent target) t t1
    /\ only_made_dirs ev1
    /\ ((result o = Ok tt
         /\ target <> []
         /\ tree o = <[target := File content]> t1
         /\ events o
            = ev1 ++ [Wrote target content;
                      Printed (done +:+ path_str target)])
        \/ (exists e, result o = Raise e /\ tree o = t1 /\ events o = ev1))
    /\ ((forall q c, q `prefix_of` parent target ->
                     node_at t q <> Some (File c)) ->
        node_at t target <> Some Dir ->
        result o = Ok tt).
Proof.
  cbv zeta. unfold Spec.writer, mkdir. rewrite bind_at.
  destruct (mkdir_parents_spec (length (parent target)) (parent target) t)
    as (G & E & D & S).
  set (o1 := mkdir_parents (length (parent target)) (parent target) t) in *.
  exists (tree o1), (events o1). split; [exact G|]. split; [exact E|].
  destruct (result o1) as [[]|e] eqn:R1.
  - specialize (D eq_refl).
    rewrite bind_at, write_text_at, D.
    destruct (node_at (tree o1) target) as [[c|]|] eqn:Nt;
      cbn [result tree events prepend print].
    + split; [left|reflexivity].
      split; [reflexivity|]. split; [|split; [reflexivity|]].
      * intros ->. simpl in Nt. discriminate.
      * reflexivity.
    + split; [right; eexists; split; [reflexivity|]; split;
              [reflexivity | apply app_nil_r]|].
      intros _ Hd. exfalso. apply Hd.
      destruct (G target) as [Eq | (Nn & _ & Pt)]; [congruence|].
      pose proof (node_at_None_not_root _ _ Nn) as Nr.
      apply prefix_length in Pt. pose proof (parent_length _ Nr). lia.
    + split; [left|reflexivity].
      split; [reflexivity|]. split; [|split; [reflexivity|]].
      * now apply node_at_None_not_root in Nt.
      * reflexivity.
  - cbn [result tree events].
    split; [right; eexists; repeat split|].
    intros Hf _. assert (R2 : @Raise unit e = Ok tt); [|discriminate R2].
    apply S; [lia | exact Hf].
Qed.

(** ** The loops over the Writer *)

Lemma agree_refl (S : Path) (t : Tree) : agree S t t.
Proof. now intros q _. Qed.

Lemma apart_prefix (S R q target : Path) :
  Spec.apart S R -> S `prefix_of` q -> q `prefix_of` target ->
  R `prefix_of` target -> False.
Proof.
  intros [N1 N2] Hs Hq Hr.
  assert (Hst : S `prefix_of` target) by now transitivity q.
  destruct (prefix_weak_total _ _ _ Hst Hr); contradiction.
Qed.

(** The applying Writer changes nothing off the way to its target... *)
Lemma writer_frame (would done : string) (target : Path) (content : string)
    (t : Tree) (q : Path) :
  ~ q `prefix_of` target ->
  node_at (tree (Spec.writer would done false target content t)) q
  = node_at t q.
Proof.
  intros Nq.
  destruct (writer_apply would done target content t)
    as (t1 & ev1 & G & _ & [(_ & Nr & -> & _) | (e & _ & -> & _)] & _).
  - rewrite node_at_insert by exact Nr.
    rewrite decide_False by (intros <-; now apply Nq).
    destruct (G q) as [E | (_ & _ & P)]; [exact E|].
    exfalso. apply Nq. transitivity (parent target); [exact P|].
    apply parent_prefix.
  - destruct (G q) as [E | (_ & _ & P)]; [exact E|].
    exfalso. apply Nq. transitivity (parent target); [exact P|].
    apply parent_prefix.
Qed.

(** ... and keeps every node that is not its target. *)
Lemma writer_keeps (would done : string) (target : Path) (content : string)
    (t : Tree) (q : Path) (n : node) :
  q <> target -> node_at t q = Some n ->
  node_at (tree (Spec.writer would done false target content t)) q = Some n.
Proof.
  intros Nq Hn.
  destruct (writer_apply would done target content t)
    as (t1 & ev1 & G & _ & [(_ & Nr & -> & _) | (e & _ & -> & _)] & _).
  - rewrite node_at_insert by exact Nr.
    rewrite decide_False by congruence.
    destruct (G q) as [E | (N & _)]; congruence.
  - destruct (G q) as [E | (N & _)]; congruence.
Qed.

Lemma writer_agree (would done : string) (S R target : Path)
    (content : string) (t0 t : Tree) :
  Spec.apart S R -> R `prefix_of` target -> agree S t0 t ->
  agree S t0 (tree (Spec.writer would done false target content t)).
Proof.
  intros Ha Hr Hag q Hq. rewrite writer_frame; [now apply Hag|].
  intros Hp. eapply apart_prefix; eauto.
Qed.

Lemma printed_app (a b : list event) : printed (a ++ b) = printed a ++ printed b.
Proof. apply omap_app. Qed.

Lemma writes_app (a b : list event) : writes (a ++ b) = writes a ++ writes b.
Proof. apply omap_app. Qed.

Lemma made_dirs_app (a b : list event) :
  made_dirs (a ++ b) = made_dirs a ++ made_dirs b.
Proof. apply omap_app. Qed.

Lemma written_app (a b : list event) : written (a ++ b) = written a ++ written b.
Proof. unfold written. now rewrite writes_app, map_app. Qed.

Lemma reported_app (a b : list event) :
  Spec.reported (a ++ b) = Spec.reported a ++ Spec.reported b.
Proof. unfold Spec.reported. now rewrite printed_app, omap_app. Qed.

Section WriteEach.

Context {X : Type}.
Variable prepare : X -> M Spec.prepared.
Variable tgt : X -> Path.
Variables would done : string.
Variables S R : Path.

Hypothesis prepare_readonly : readonly prepare.
Hypothesis prepare_local : source_local S prepare.
Hypothesis prepare_targets : targets_by tgt prepare.
Hypothesis targets_in_plugin : forall x, R `prefix_of` tgt x.
Hypothesis trees_apart : Spec.apart S R.

Lemma write_each_cons (dry_run : bool) (x : X) (items : list X)
    (acc : list Path) (t : Tree) :
  Spec.write_each prepare would done dry_run (x :: items) acc t =
    match result (prepare x t) with
    | Raise e => mkOutcome (Raise e) t []
    | Ok (Spec.Skipped warning) =>
        prepend [Printed warning]
          (Spec.write_each prepare would done dry_run items acc t)
    | Ok (Spec.Ready target content) =>
        let ow := Spec.writer would done dry_run target content t in
        match result ow with
        | Ok _ =>
            prepend (events ow)
              (Spec.write_each prepare would done dry_run items
                 (acc ++ [target]) (tree ow))
        | Raise e => mkOutcome (Raise e) (tree ow) (events ow)
        end
    end.
Proof.
  cbn [Spec.write_each]. rewrite bind_at.
  destruct (prepare_readonly x t) as [Et Ee]. rewrite Et, Ee.
  destruct (result (prepare x t)) as [[warning|target content]|e];
    [| |reflexivity].
  - rewrite prepend_nil. apply print_bind.
  - rewrite prepend_nil, bind_at. reflexivity.
Qed.

(** A dry run of the loop touches nothing. *)
Lemma write_each_dry (items : list X) (acc : list Path) (t : Tree) :
  let o := Spec.write_each prepare would done true items acc t in
  tree o = t /\ made_dirs (events o) = [] /\ writes (events o) = [].
Proof.
  cbv zeta. revert acc. induction items as [|x items IH]; intros acc.
  - now repeat split.
  - rewrite write_each_cons.
    destruct (result (prepare x t)) as [[warning|target content]|e].
    + destruct (IH acc) as (E1 & E2 & E3). cbn [prepend tree events].
      rewrite made_dirs_app, writes_app, E2, E3. now repeat split.
    + cbv zeta. rewrite writer_dry. cbn [result tree events prepend].
      destruct (IH (acc ++ [target])) as (E1 & E2 & E3).
      rewrite made_dirs_app, writes_app, E2, E3. now repeat split.
    + now repeat split.
Qed.

(** The applying loop keeps every node that is no target of its
    items... *)
Lemma write_each_keeps (items : list X) (acc : list Path) (t : Tree)
    (q : Path) (n : node) :
  node_at t q = Some n ->
  (forall x, x ∈ items -> q <> tgt x) ->
  node_at (tree (Spec.write_each prepare would done false items acc t)) q
  = Some n.
Proof.
  revert acc t. induction items as [|x items IH]; intros acc t Hn Hq.
  - exact Hn.
  - rewrite write_each_cons.
    destruct (result (prepare x t)) as [[warning|target content]|e] eqn:Rp.
    + cbn [prepend tree]. apply IH; [exact Hn|].
      intros y Hy. apply Hq. now right.
    + cbv zeta. pose proof (prepare_targets _ _ _ _ Rp) as ->.
      assert (Hk : node_at (tree (Spec.writer would done false (tgt x)
                                    content t)) q = Some n)
        by (apply writer_keeps; [apply Hq; now left | exact Hn]).
      destruct (result (Spec.writer would done false (tgt x) content t));
        [|exact Hk].
      cbn [prepend tree]. apply IH; [exact Hk|].
      intros y Hy. apply Hq. now right.
    + exact Hn.
Qed.

(** ... and changes nothing off the way to these targets. *)
Lemma write_each_frame (items : list X) (acc : list Path) (t : Tree)
    (q : Path) :
  (forall x, x ∈ items -> ~ q `prefix_of` tgt x) ->
  node_at (tree (Spec.write_each prepare would done false items acc t)) q
  = node_at t q.
Proof.
  revert acc t. induction items as [|x items IH]; intros acc t Hq.
  - reflexivity.
  - rewrite write_each_cons.
    destruct (result (prepare x t)) as [[warning|target content]|e] eqn:Rp.
    + cbn [prepend tree]. apply IH. intros y Hy. apply Hq. now right.
    + cbv zeta. pose proof (prepare_targets _ _ _ _ Rp) as ->.
      assert (Hk : node_at (tree (Spec.writer would done false (tgt x)
                                    content t)) q = node_at t q)
        by (apply writer_frame, Hq; now left).
      destruct (result (Spec.writer would done false (tgt x) content t));
        [|exact Hk].
      cbn [prepend tree]. rewrite IH; [exact Hk|].
      intros y Hy. apply Hq. now right.
    + reflexivity.
Qed.

(** The applying loop changes nothing off the way to the targets it
    has a content for. *)
Lemma write_each_frame_planned (items : list X) (acc : list Path)
    (t0 t : Tree) (q : Path) :
  agree S t0 t ->
  (forall target content,
     (target, content) ∈ planned prepare t0 items -> ~ q `prefix_of` target) ->
  node_at (tree (Spec.write_each prepare would done false items acc t)) q
  = node_at t q.
Proof.
  revert acc t. induction items as [|x items IH]; intros acc t Hag Hq.
  - reflexivity.
  - rewrite write_each_cons, (prepare_local x t0 t Hag).
    unfold planned in Hq. cbn [omap list_omap] in Hq. fold (planned prepare t0 items) in Hq.
    destruct (result (prepare x t0)) as [[warning|target content]|e] eqn:Rp;
      cbn [ready_of] in Hq.
    + cbn [prepend tree]. now apply IH.
    + cbv zeta.
      assert (Hk : node_at (tree (Spec.writer would done false target
                                    content t)) q = node_at t q)
        by (apply writer_frame, (Hq target content); now left).
      destruct (result (Spec.writer would done false target content t));
        [|exact Hk].
      cbn [prepend tree]. rewrite IH; [exact Hk | |].
      * pose proof (prepare_targets _ _ _ _ Rp) as ->.
        eapply writer_agree; eauto.
      * intros tg c Hin. apply (Hq tg c). now right.
    + reflexivity.
Qed.

Lemma planned_cons (t : Tree) (x : X) (items : list X) :
  planned prepare t (x :: items) =
    match ready_of (result (prepare x t)) with
    | Some r => r :: planned prepare t items
    | None => planned prepare t items
    end.
Proof. reflexivity. Qed.

(** What the applying loop has done when it returns: one write per item
    that was ready, in order, with the content prepared from the sources as
    they were at the start; one line per item; and each of these files is
    in the tree at the end. *)
Lemma write_each_apply (items : list X) (acc : list Path) (t0 t : Tree)
    (v : list Path) :
  agree S t0 t ->
  NoDup (map tgt items) ->
  result (Spec.write_each prepare would done false items acc t) = Ok v ->
  let o := Spec.write_each prepare would done false items acc t in
  writes (events o) = planned prepare t0 items
  /\ printed (events o)
     = map (fun x => line_of done (result (prepare x t0))) items
  /\ v = acc ++ map fst (planned prepare t0 items)
  /\ forall target content,
       (target, content) ∈ planned prepare t0 items ->
       node_at (tree o) target = Some (File content).
Proof.
  cbv zeta. revert acc t.
  induction items as [|x items IH]; intros acc t Hag Hnd Hv.
  - cbn in *. injection Hv as <-. rewrite app_nil_r.
    repeat split. intros target content Hin. inversion Hin.
  - apply NoDup_cons in Hnd as [Hx Hnd].
    revert Hv. rewrite write_each_cons, (prepare_local x t0 t Hag).
    rewrite planned_cons. cbn [map].
    destruct (result (prepare x t0)) as [[warning|target content]|e] eqn:Rp;
      [| |discriminate]; cbn [ready_of line_of].
    + cbn [prepend result tree events]. intros Hv.
      destruct (IH acc t Hag Hnd Hv) as (E1 & E2 & E3 & E4).
      rewrite writes_app, printed_app, E1, E2. now repeat split.
    + cbv zeta. pose proof (prepare_targets _ _ _ _ Rp) as ->.
      destruct (writer_apply would done (tgt x) content t)
        as (t1 & ev1 & G & [Ep Ew] & [(Ro & Nr & Et & Ev) | (e & Ro & _)] & _);
        rewrite Ro; [|discriminate].
      cbn [prepend result tree events]. intros Hv.
      assert (Hag' : agree S t0
                (tree (Spec.writer would done false (tgt x) content t)))
        by (eapply writer_agree; eauto).
      destruct (IH _ _ Hag' Hnd Hv) as (E1 & E2 & E3 & E4).
      rewrite writes_app, printed_app, E1, E2, Ev.
      rewrite writes_app, printed_app, Ep, Ew.
      split; [reflexivity|]. split; [reflexivity|].
      split; [rewrite E3, <- app_assoc; reflexivity|].
      intros target content' Hin.
      apply elem_of_cons in Hin as [[= -> ->] | Hin]; [|now apply E4].
      apply write_each_keeps.
      * rewrite Et, node_at_insert by exact Nr. now rewrite decide_True.
      * intros y Hy E. apply Hx. rewrite E.
        now apply list_elem_of_In, in_map, list_elem_of_In.
Qed.

Lemma writer_writable (x : X) (items : list X) (content : string) (t : Tree) :
  Spec.writable tgt t (x :: items) -> Spec.unnested tgt (x :: items) ->
  result (Spec.writer would done false (tgt x) content t) = Ok tt ->
  Spec.writable tgt (tree (Spec.writer would done false (tgt x) content t)) items.
Proof.
  intros Hw Hu Ro y Hy.
  destruct (writer_apply would done (tgt x) content t)
    as (t1 & ev1 & G & _ & [(_ & Nr & Et & _) | (e & Re & _)] & _);
    [|congruence].
  destruct (Hw y) as [Hf Hd]; [now right|].
  rewrite Et. split.
  - intros q c Hq. rewrite node_at_insert by exact Nr.
    destruct (decide (tgt x = q)) as [<-|Nq].
    + exfalso.
      assert (Hp : tgt x `prefix_of` tgt y)
        by (transitivity (parent (tgt y)); [exact Hq | apply parent_prefix]).
      apply Hu in Hp; [|now left | now right].
      rewrite Hp in Hq. apply prefix_length in Hq.
      rewrite Hp in Nr. pose proof (parent_length _ Nr). lia.
    + destruct (G q) as [E | (_ & E & _)]; rewrite E; [now apply Hf|].
      discriminate.
  - rewrite node_at_insert by exact Nr.
    destruct (decide (tgt x = tgt y)) as [_|Ne]; [discriminate|].
    destruct (G (tgt y)) as [E | (_ & _ & Hp)]; [now rewrite E|].
    exfalso. apply Ne. symmetry. apply Hu; [now right | now left|].
    transitivity (parent (tgt x)); [exact Hp | apply parent_prefix].
Qed.

(** The applying loop returns when every item can be prepared and the
    targets can be written. *)
Lemma write_each_returns (items : list X) (acc : list Path) (t0 t : Tree) :
  agree S t0 t ->
  (forall x, x ∈ items -> exists p, result (prepare x t0) = Ok p) ->
  Spec.writable tgt t items -> Spec.unnested tgt items ->
  exists v, result (Spec.write_each prepare would done false items acc t) = Ok v.
Proof.
  revert acc t. induction items as [|x items IH]; intros acc t Hag Hp Hw Hu.
  - now exists acc.
  - rewrite write_each_cons, (prepare_local x t0 t Hag).
    destruct (Hp x) as [p Rp]; [now left|]. rewrite Rp.
    assert (Hp' : forall y, y ∈ items -> exists p, result (prepare y t0) = Ok p)
      by (intros y Hy; apply Hp; now right).
    assert (Hu' : Spec.unnested tgt items)
      by (intros y z Hy Hz; apply Hu; now right).
    destruct p as [warning|target content].
    + cbn [prepend result]. apply IH; try assumption.
      intros y Hy. apply Hw. now right.
    + cbv zeta. pose proof (prepare_targets _ _ _ _ Rp) as ->.
      assert (Ro : result (Spec.writer would done false (tgt x) content t)
                   = Ok tt).
      { destruct (writer_apply would done (tgt x) content t)
          as (t1 & ev1 & _ & _ & _ & Hs).
        destruct (Hw x) as [Hf Hd]; [now left|]. now apply Hs. }
      rewrite Ro. cbn [prepend result]. apply IH; try assumption.
      * eapply writer_agree; eauto.
      * now apply writer_writable.
Qed.

Hypothesis would_reported : forall s, Spec.report_of (would +:+ s) = Some s.
Hypothesis done_not_reported : forall s, Spec.report_of (done +:+ s) = None.
Hypothesis warnings_not_reported :
  forall x t warning,
    result (prepare x t) = Ok (Spec.Skipped warning) ->
    Spec.report_of warning = None.

(** When the applying run of the loop returns, the dry run returns the
    same, and reports the paths the applying run wrote. *)
Lemma write_each_simulation (items : list X) (acc : list Path)
    (td ta : Tree) (v : list Path) :
  agree S td ta ->
  result (Spec.write_each prepare would done false items acc ta) = Ok v ->
  result (Spec.write_each prepare would done true items acc td) = Ok v
  /\ Spec.reported (events (Spec.write_each prepare would done true items acc td))
     = map path_str
         (written (events (Spec.write_each prepare would done false items acc ta)))
  /\ v = acc
         ++ written (events (Spec.write_each prepare would done false items acc ta)).
Proof.
  revert acc ta. induction items as [|x items IH]; intros acc ta Hag.
  - cbn. intros [= <-]. now rewrite app_nil_r.
  - rewrite !write_each_cons, (prepare_local x td ta Hag).
    destruct (result (prepare x td)) as [[warning|target content]|e] eqn:Rp;
      [| |discriminate].
    + cbn [prepend result events]. intros Hv.
      destruct (IH acc ta Hag Hv) as (E1 & E2 & E3).
      rewrite !reported_app, !written_app, E1, E2. split; [reflexivity|].
      split; [|exact E3]. unfold Spec.reported at 1. cbn.
      now rewrite (warnings_not_reported _ _ _ Rp).
    + cbv zeta. rewrite writer_dry. cbn [result tree events prepend].
      pose proof (prepare_targets _ _ _ _ Rp) as ->.
      destruct (writer_apply would done (tgt x) content ta)
        as (t1 & ev1 & G & [Ep Ew] & [(Ro & Nr & Et & Ev) | (e & Ro & _)] & _);
        rewrite Ro; [|discriminate].
      cbn [prepend result events]. intros Hv.
      assert (Hag' : agree S td
                (tree (Spec.writer would done false (tgt x) content ta)))
        by (eapply writer_agree; eauto).
      destruct (IH _ _ Hag' Hv) as (E1 & E2 & E3).
      rewrite !reported_app, !written_app, E1, E2, Ev. split; [reflexivity|].
      assert (Hw : written (ev1 ++ [Wrote (tgt x) content;
                                    Printed (done +:+ path_str (tgt x))])
                   = [tgt x])
        by (unfold written; rewrite writes_app, Ew; reflexivity).
      rewrite Hw. split.
      * unfold Spec.reported at 1. cbn. now rewrite would_reported.
      * rewrite E3, <- app_assoc. reflexivity.
Qed.

End WriteEach.

(** ** Dry runs *)

Lemma report_of_update (s : string) :
  report_of ("  [DRY-RUN] Would update: " +:+ s) = Some s.
Proof. reflexivity. Qed.

Lemma report_of_create (s : string) :
  report_of ("  [DRY-RUN] Would create: " +:+ s) = Some s.
Proof. reflexivity. Qed.

Lemma report_of_warning (s : string) : report_of ("  WARNING: " +:+ s) = None.
Proof. reflexivity. Qed.

Lemma relative_to_app (q base rel : Path) :
  relative_to q base = Some rel -> q = base ++ rel.
Proof.
  revert q. induction base as [|b base IH]; intros q H; simpl in H.
  - now injection H as <-.
  - destruct q as [|a q]; [discriminate|].
    destruct (String.eqb_spec a b) as [->|]; [|discriminate].
    simpl. f_equal. now apply IH.
Qed.

Lemma relative_to_app_eq (base rel : Path) :
  relative_to (base ++ rel) base = Some rel.
Proof.
  induction base as [|b base IH]; simpl; [reflexivity|].
  now rewrite String.eqb_refl.
Qed.


(** ** The loops of sync_ddd.py are loops over the Writer *)

Lemma lift_bind_raise {A B : Type} (e : exn) (k : A -> M B) (t : Tree) :
  (lift (Raise e) ≫= k) t = mkOutcome (Raise e) t [].
Proof. reflexivity. Qed.

Lemma prepare_agent_at (agents_dir commands_dir : Path)
    (item : string * string) (t : Tree) :
  prepare_agent agents_dir commands_dir item t =
    mkOutcome
      match node_at t (agents_dir </> fst item) with
      | None =>
          Ok (Skipped ("  WARNING: " +:+ path_str (agents_dir </> fst item)
                       +:+ " not found, skipping"))
      | Some Dir => Raise (IsADirectoryError (agents_dir </> fst item))
      | Some (File source) =>
          match DDD.transform_references source with
          | Raise e => Raise e
          | Ok text =>
              match DDD.update_frontmatter_name (DDD.inject_credit text)
                      (Py.replace ".md" "" (snd item)) with
              | Raise e => Raise e
              | Ok content => Ok (Ready (commands_dir </> snd item) content)
              end
          end
      end
      t [].
Proof.
  unfold prepare_agent. rewrite exists_bind.
  destruct (node_at t (agents_dir </> fst item)) as [[source|]|] eqn:N;
    cbn [negb].
  - rewrite (read_bind_file _ _ _ _ N).
    destruct (DDD.transform_references source) as [text|e];
      [rewrite lift_bind | reflexivity].
    destruct (DDD.update_frontmatter_name _ _) as [content|e];
      [rewrite lift_bind | reflexivity].
    reflexivity.
  - now rewrite (read_bind_dir _ _ _ N).
  - reflexivity.
Qed.

Lemma convert_each_write_each (agents_dir commands_dir : Path)
    (dry_run : bool) (items : list (string * string))
    (converted : list Path) (t : Tree) :
  DDD.convert_each agents_dir commands_dir dry_run items converted t
  = write_each (prepare_agent agents_dir commands_dir)
      "  [DRY-RUN] Would create: " "  Created: " dry_run items converted t.
Proof.
  revert converted t.
  induction items as [|[agent_file command_file] items IH];
    intros converted t; [reflexivity|].
  cbn [DDD.convert_each write_each].
  rewrite (bind_at (prepare_agent _ _ _)), prepare_agent_at, exists_bind.
  cbn [fst snd result tree events].
  destruct (node_at t (agents_dir </> agent_file)) as [[source|]|] eqn:N;
    cbn [negb].
  - rewrite (read_bind_file _ _ _ _ N).
    destruct (DDD.transform_references source) as [text|e];
      [rewrite lift_bind | reflexivity].
    destruct (DDD.update_frontmatter_name _ _) as [content|e];
      [rewrite lift_bind | reflexivity].
    rewrite prepend_nil, !bind_at. fold (writer "  [DRY-RUN] Would create: " "  Created: " dry_run (commands_dir </> command_file) content).
    destruct (result (writer _ _ dry_run _ content t)); [|reflexivity].
    now rewrite IH.
  - now rewrite (read_bind_dir _ _ _ N).
  - rewrite prepend_nil, !print_bind. now rewrite IH.
Qed.

Lemma prepare_md_at (context_dir references_dir md_file : Path) (t : Tree) :
  prepare_md context_dir references_dir md_file t =
    mkOutcome
      match relative_to md_file context_dir with
      | None => Raise (ValueError (path_str md_file))
      | Some relative_path =>
          match node_at t md_file with
          | None => Raise (FileNotFoundError (path_str md_file))
          | Some Dir => Raise (IsADirectoryError md_file)
          | Some (File source) =>
              match DDD.transform_references source with
              | Raise e => Raise e
              | Ok text =>
                  Ok (Ready (references_dir ++ relative_path)
                        (DDD.inject_credit text))
              end
          end
      end
      t [].
Proof.
  unfold prepare_md.
  destruct (relative_to md_file context_dir) as [relative_path|];
    [|reflexivity].
  destruct (node_at t md_file) as [[source|]|] eqn:N.
  - rewrite (read_bind_file _ _ _ _ N).
    destruct (DDD.transform_references source) as [text|e];
      [rewrite lift_bind | reflexivity].
    reflexivity.
  - now rewrite (read_bind_dir _ _ _ N).
  - now rewrite (read_bind_none _ _ _ N).
Qed.

Lemma copy_each_write_each (context_dir references_dir : Path)
    (dry_run : bool) (md_files : list Path) (copied : list Path) (t : Tree) :
  DDD.copy_each context_dir references_dir dry_run md_files copied t
  = write_each (prepare_md context_dir references_dir)
      "  [DRY-RUN] Would create: " "  Created: " dry_run md_files copied t.
Proof.
  revert copied t.
  induction md_files as [|md_file md_files IH]; intros copied t;
    [reflexivity|].
  cbn [DDD.copy_each write_each].
  rewrite (bind_at (prepare_md _ _ _)), prepare_md_at.
  cbn [result tree events].
  destruct (relative_to md_file context_dir) as [relative_path|];
    [|reflexivity].
  destruct (node_at t md_file) as [[source|]|] eqn:N.
  - rewrite (read_bind_file _ _ _ _ N).
    destruct (DDD.transform_references source) as [text|e];
      [rewrite lift_bind | reflexivity].
    rewrite prepend_nil, !bind_at.
    fold (writer "  [DRY-RUN] Would create: " "  Created: " dry_run
            (references_dir ++ relative_path) (DDD.inject_credit text)).
    destruct (result (writer _ _ dry_run _ _ t)); [|reflexivity].
    now rewrite IH.
  - now rewrite (read_bind_dir _ _ _ N).
  - now rewrite (read_bind_none _ _ _ N).
Qed.

Lemma sync_module_development_split (PLUGIN_ROOT source_dir : Path)
    (dry_run : bool) (t : Tree) :
  Core.sync_module_development PLUGIN_ROOT source_dir dry_run t =
    (gather_module_development source_dir ≫= fun content =>
       writer "  [DRY-RUN] Would update: " "  Updated: " dry_run
         (PLUGIN_ROOT </> "skills" </> "module-development" </> "SKILL.md")
         content;;
       mret (PLUGIN_ROOT </> "skills" </> "module-development" </> "SKILL.md"))
      t.
Proof.
  unfold Core.sync_module_development, gather_module_development.
  rewrite bind_assoc_at, !exists_bind.
  destruct (node_at t (source_dir </> "docs" </> "contracts")); [|reflexivity].
  cbn [negb]. rewrite bind_assoc_at, !exists_bind.
  destruct (node_at t (source_dir </> "docs" </> "contracts" </> "README.md"))
    as [[readme|]|] eqn:Nr; [| |reflexivity]; cbn [negb].
  - rewrite bind_assoc_at, !(read_bind_file _ _ _ _ Nr).
    rewrite bind_assoc_at.
    destruct (Core.transform_references readme) as [text|e];
      [rewrite !lift_bind | reflexivity].
    rewrite bind_assoc_at, !(bind_at (Core.merge_contracts _ _ _)).
    destruct (result (Core.merge_contracts _ _ _ t)) as [sections|e];
      [|reflexivity].
    f_equal.
    set (t1 := tree (Core.merge_contracts _ _ _ t)).
    rewrite bind_assoc_at, !exists_bind.
    rewrite bind_assoc_at.
    destruct (node_at t1 (source_dir </> "docs" </> "MODULE_SOURCE_PROTOCOL.md"))
      as [[msp|]|] eqn:Nm.
    + rewrite !(bind_assoc_at (read_text _)), !(read_bind_file _ _ _ _ Nm).
      rewrite !(bind_assoc_at (lift _)).
      destruct (Core.transform_references msp) as [text'|e];
        [rewrite !lift_bind | reflexivity].
      rewrite !ret_bind. reflexivity.
    + rewrite !(bind_assoc_at (read_text _)), !(read_bind_dir _ _ _ Nm).
      reflexivity.
    + rewrite !(bind_assoc_at (print _)), !print_bind. reflexivity.
  - rewrite bind_assoc_at, !(read_bind_dir _ _ _ Nr). reflexivity.
Qed.

Lemma quiet_nil : quiet [].
Proof. now repeat split. Qed.

Lemma quiet_app (a b : list event) : quiet a -> quiet b -> quiet (a ++ b).
Proof.
  intros (A1 & A2 & A3) (B1 & B2 & B3). unfold quiet.
  now rewrite made_dirs_app, writes_app, reported_app, A1, A2, A3, B1, B2, B3.
Qed.

(** A dry run after a part that only reads and warns is faithful when
    the part after it is. *)
Lemma after_reading_faithful {A B : Type} (paths : B -> list Path)
    (pre : M A) (k : A -> bool -> M B) (f : bool -> M B) (t : Tree) :
  (forall dry_run, f dry_run t = (pre ≫= fun a => k a dry_run) t) ->
  tree (pre t) = t -> quiet (events (pre t)) ->
  (forall a, result (pre t) = Ok a -> dry_run_faithful paths (k a) t) ->
  dry_run_faithful paths f t.
Proof.
  intros Hf Ht (Q1 & Q2 & Q3) Hk. unfold dry_run_faithful.
  rewrite !Hf, !bind_at.
  destruct (result (pre t)) as [a|e] eqn:Rp.
  - destruct (Hk a eq_refl) as (K1 & K2 & K3 & K4).
    cbn [prepend result tree events]. rewrite Ht in *.
    rewrite made_dirs_app, writes_app, Q1, Q2, K2, K3.
    repeat split; try assumption; destruct (K4 v) as (V1 & V2 & V3);
      try assumption.
    + rewrite reported_app, written_app, Q3, V2.
      unfold written at 2. now rewrite Q2.
    + rewrite written_app. unfold written at 1. now rewrite Q2.
  - cbn [result tree events]. repeat split; try assumption; discriminate.
Qed.

Lemma written_after_dirs (evs : list event) (p : Path) (content line : string) :
  only_made_dirs evs ->
  written (evs ++ [Wrote p content; Printed line]) = [p].
Proof.
  intros [_ Ew]. unfold written. now rewrite writes_app, Ew.
Qed.

(** The Writer followed by the return of its target. *)
Lemma writer_ret_faithful (would done : string) (target : Path)
    (content : string) (t : Tree) :
  (forall s, report_of (would +:+ s) = Some s) ->
  dry_run_faithful (fun p => [p])
    (fun dry_run => writer would done dry_run target content;; mret target) t.
Proof.
  intros Hw. unfold dry_run_faithful. rewrite !bind_at, writer_dry.
  cbn [result tree events prepend].
  repeat split.
  all: destruct (writer_apply would done target content t)
      as (t1 & ev1 & G & [Ep Ew] & [(Ro & Nr & Et & Ev) | (e & Ro & _)] & _);
    revert H; rewrite Ro; [|discriminate]; cbn [prepend result events].
  - now intros [= <-].
  - intros _. rewrite Ev, !app_nil_r, (written_after_dirs _ _ _ _ (conj Ep Ew)).
    unfold reported. cbn. now rewrite Hw.
  - intros [= <-].
    now rewrite Ev, !app_nil_r, (written_after_dirs _ _ _ _ (conj Ep Ew)).
Qed.

Lemma sync_philosophy_split (PLUGIN_ROOT source_dir : Path)
    (dry_run : bool) (t : Tree) :
  Core.sync_philosophy PLUGIN_ROOT source_dir dry_run t =
    (gather_philosophy source_dir ≫= fun content =>
       writer "  [DRY-RUN] Would update: " "  Updated: " dry_run
         (PLUGIN_ROOT </> "skills" </> "amplifier-philosophy" </> "SKILL.md")
         content;;
       mret (PLUGIN_ROOT </> "skills" </> "amplifier-philosophy" </> "SKILL.md"))
      t.
Proof.
  unfold Core.sync_philosophy, gather_philosophy.
  rewrite bind_assoc_at, !exists_bind.
  destruct (node_at t (source_dir </> "docs" </> "DESIGN_PHILOSOPHY.md"))
    as [[source|]|] eqn:N; [| |reflexivity]; cbn [negb].
  - rewrite bind_assoc_at, !(read_bind_file _ _ _ _ N), bind_assoc_at.
    destruct (Core.transform_references source) as [text|e];
      [rewrite !lift_bind | reflexivity].
    rewrite ret_bind. reflexivity.
  - rewrite bind_assoc_at, !(read_bind_dir _ _ _ N). reflexivity.
Qed.

Lemma gather_philosophy_at (source_dir : Path) (t : Tree) :
  gather_philosophy source_dir t =
    mkOutcome
      match node_at t (source_dir </> "docs" </> "DESIGN_PHILOSOPHY.md") with
      | None =>
          Raise (FileNotFoundError
                   ("Source file not found: "
                    +:+ path_str (source_dir </> "docs"
                                  </> "DESIGN_PHILOSOPHY.md")))
      | Some Dir =>
          Raise (IsADirectoryError
                   (source_dir </> "docs" </> "DESIGN_PHILOSOPHY.md"))
      | Some (File source) =>
          match Core.transform_references source with
          | Raise e => Raise e
          | Ok text =>
              Ok (Core.PHILOSOPHY_FRONTMATTER +:+ Core.inject_credit text)
          end
      end
      t [].
Proof.
  unfold gather_philosophy. rewrite exists_bind.
  destruct (node_at t (source_dir </> "docs" </> "DESIGN_PHILOSOPHY.md"))
    as [[source|]|] eqn:N; [| |reflexivity]; cbn [negb].
  - rewrite (read_bind_file _ _ _ _ N).
    destruct (Core.transform_references source) as [text|e]; reflexivity.
  - now rewrite (read_bind_dir _ _ _ N).
Qed.

Lemma sync_philosophy_faithful (PLUGIN_ROOT source_dir : Path) (t : Tree) :
  dry_run_faithful (fun p => [p])
    (Core.sync_philosophy PLUGIN_ROOT source_dir) t.
Proof.
  eapply after_reading_faithful.
  - intros dry_run. apply sync_philosophy_split.
  - now rewrite gather_philosophy_at.
  - rewrite gather_philosophy_at. apply quiet_nil.
  - intros content _. apply writer_ret_faithful, report_of_update.
Qed.

(** The merge of the contracts only reads and warns. *)
Lemma merge_contracts_quiet (contracts_dir : Path) (files sections : list string)
    (t : Tree) :
  tree (Core.merge_contracts contracts_dir files sections t) = t
  /\ quiet (events (Core.merge_contracts contracts_dir files sections t)).
Proof.
  revert sections. induction files as [|file files IH]; intros sections.
  - split; [reflexivity | apply quiet_nil].
  - cbn [Core.merge_contracts]. rewrite exists_bind.
    destruct (node_at t (contracts_dir </> file)) as [[source|]|] eqn:N.
    + rewrite (read_bind_file _ _ _ _ N).
      destruct (Core.transform_references source) as [text|e];
        [rewrite lift_bind; apply IH | split; [reflexivity | apply quiet_nil]].
    + rewrite (read_bind_dir _ _ _ N). split; [reflexivity | apply quiet_nil].
    + rewrite print_bind. destruct (IH sections) as [E Q].
      split; [exact E|]. cbn [prepend events].
      apply quiet_app; [|exact Q]. now repeat split.
Qed.

Lemma gather_module_development_quiet (source_dir : Path) (t : Tree) :
  tree (gather_module_development source_dir t) = t
  /\ quiet (events (gather_module_development source_dir t)).
Proof.
  unfold gather_module_development. rewrite exists_bind.
  destruct (node_at t (source_dir </> "docs" </> "contracts"));
    [|split; [reflexivity | apply quiet_nil]].
  cbn [negb]. rewrite exists_bind.
  destruct (node_at t (source_dir </> "docs" </> "contracts" </> "README.md"))
    as [[readme|]|] eqn:Nr; cbn [negb];
    [| rewrite (read_bind_dir _ _ _ Nr) |];
    [| split; [reflexivity | apply quiet_nil]..].
  rewrite (read_bind_file _ _ _ _ Nr).
  destruct (Core.transform_references readme) as [text|e];
    [rewrite lift_bind | split; [reflexivity | apply quiet_nil]].
  rewrite bind_at.
  destruct (merge_contracts_quiet (source_dir </> "docs" </> "contracts")
              Core.CONTRACT_FILES [text] t) as [Et Q].
  destruct (result (Core.merge_contracts _ _ _ t)) as [sections|e];
    [|split; assumption].
  rewrite Et. cbn [prepend tree events]. rewrite exists_bind.
  destruct (node_at t (source_dir </> "docs" </> "MODULE_SOURCE_PROTOCOL.md"))
    as [[msp|]|] eqn:Nm.
  - rewrite bind_assoc_at, (read_bind_file _ _ _ _ Nm), bind_assoc_at.
    destruct (Core.transform_references msp) as [text'|e].
    + rewrite lift_bind, !ret_bind. unfold mret, M_ret, ret.
      cbn [prepend tree events]. rewrite app_nil_r.
      split; [reflexivity | exact Q].
    + rewrite lift_bind_raise. cbn [prepend tree events].
      rewrite app_nil_r. split; [reflexivity | exact Q].
  - rewrite bind_assoc_at, (read_bind_dir _ _ _ Nm).
    cbn [prepend tree events]. rewrite app_nil_r.
    split; [reflexivity | exact Q].
  - rewrite bind_assoc_at, print_bind, !ret_bind. unfold mret, M_ret, ret.
    cbn [prepend tree events]. split; [reflexivity|].
    apply quiet_app; [exact Q | now repeat split].
Qed.

Lemma sync_module_development_faithful (PLUGIN_ROOT source_dir : Path)
    (t : Tree) :
  dry_run_faithful (fun p => [p])
    (Core.sync_module_development PLUGIN_ROOT source_dir) t.
Proof.
  eapply after_reading_faithful.
  - intros dry_run. apply sync_module_development_split.
  - apply gather_module_development_quiet.
  - apply gather_module_development_quiet.
  - intros content _. apply writer_ret_faithful, report_of_update.
Qed.

Lemma generate_skill_md_faithful (PLUGIN_ROOT : Path) (t : Tree) :
  dry_run_faithful (fun p => [p]) (DDD.generate_skill_md PLUGIN_ROOT) t.
Proof.
  apply (writer_ret_faithful "  [DRY-RUN] Would create: " "  Created: ").
  apply report_of_create.
Qed.

Section DDDLoops.

Variables source_dir PLUGIN_ROOT : Path.
Hypothesis trees_apart : apart source_dir PLUGIN_ROOT.

Local Abbreviation agents_dir := (source_dir </> "agents").
Local Abbreviation commands_dir := (PLUGIN_ROOT </> "commands").
Local Abbreviation context_dir := (source_dir </> "context").
Local Abbreviation references_dir :=
  (PLUGIN_ROOT </> "skills" </> "ddd-guide" </> "references").
Local Abbreviation md_target := (Spec.md_target context_dir references_dir).

Lemma prepare_agent_readonly :
  readonly (prepare_agent agents_dir commands_dir).
Proof. intros x t. now rewrite prepare_agent_at. Qed.

Lemma prepare_agent_local :
  source_local source_dir (prepare_agent agents_dir commands_dir).
Proof.
  intros x t t' Hag. rewrite !prepare_agent_at. cbn [result].
  rewrite (Hag (agents_dir </> fst x)); [reflexivity|].
  unfold child. rewrite <- app_assoc. now apply prefix_app_r.
Qed.

Lemma prepare_agent_targets :
  targets_by (fun item => commands_dir </> snd item)
    (prepare_agent agents_dir commands_dir).
Proof.
  intros x t target content. rewrite prepare_agent_at. cbn [result].
  destruct (node_at t _) as [[source|]|]; try discriminate.
  destruct (DDD.transform_references source); [|discriminate].
  destruct (DDD.update_frontmatter_name _ _); [|discriminate].
  now intros [= <- _].
Qed.

Lemma prepare_agent_warning (x : string * string) (t : Tree)
    (warning : string) :
  result (prepare_agent agents_dir commands_dir x t) = Ok (Skipped warning) ->
  report_of warning = None.
Proof.
  rewrite prepare_agent_at. cbn [result].
  destruct (node_at t _) as [[source|]|]; try discriminate.
  - destruct (DDD.transform_references source); [|discriminate].
    destruct (DDD.update_frontmatter_name _ _); discriminate.
  - now intros [= <-].
Qed.

Lemma prepare_md_readonly : readonly (prepare_md context_dir references_dir).
Proof. intros x t. now rewrite prepare_md_at. Qed.

Lemma prepare_md_local :
  source_local source_dir (prepare_md context_dir references_dir).
Proof.
  intros x t t' Hag. rewrite !prepare_md_at. cbn [result].
  destruct (relative_to x context_dir) as [rel|] eqn:E; [|reflexivity].
  rewrite (Hag x); [reflexivity|].
  rewrite (relative_to_app _ _ _ E). unfold child.
  rewrite <- app_assoc. now apply prefix_app_r.
Qed.

Lemma prepare_md_targets :
  targets_by md_target (prepare_md context_dir references_dir).
Proof.
  intros x t target content. rewrite prepare_md_at. cbn [result].
  unfold Spec.md_target.
  destruct (relative_to x context_dir) as [rel|]; [|discriminate].
  destruct (node_at t x) as [[source|]|]; try discriminate.
  destruct (DDD.transform_references source); [|discriminate].
  now intros [= <- _].
Qed.

Lemma prepare_md_warning (x : Path) (t : Tree) (warning : string) :
  result (prepare_md context_dir references_dir x t) = Ok (Skipped warning) ->
  report_of warning = None.
Proof.
  rewrite prepare_md_at. cbn [result].
  destruct (relative_to x context_dir) as [rel|]; [|discriminate].
  destruct (node_at t x) as [[source|]|]; try discriminate.
  all: destruct (DDD.transform_references source); discriminate.
Qed.

Lemma convert_agents_at (dry_run : bool) (t : Tree) :
  DDD.convert_agents_to_commands PLUGIN_ROOT source_dir dry_run t =
    match node_at t agents_dir with
    | None =>
        mkOutcome
          (Raise (FileNotFoundError
                    ("agents directory not found: " +:+ path_str agents_dir)))
          t []
    | Some _ =>
        write_each (prepare_agent agents_dir commands_dir)
          "  [DRY-RUN] Would create: " "  Created: " dry_run
          DDD.AGENT_TO_COMMAND [] t
    end.
Proof.
  unfold DDD.convert_agents_to_commands. rewrite exists_bind.
  destruct (node_at t agents_dir); [|reflexivity].
  apply convert_each_write_each.
Qed.

Lemma copy_context_at (dry_run : bool) (t : Tree) :
  DDD.copy_context_to_skills PLUGIN_ROOT source_dir dry_run t =
    match node_at t context_dir with
    | None =>
        mkOutcome
          (Raise (FileNotFoundError
                    ("context directory not found: " +:+ path_str context_dir)))
          t []
    | Some _ =>
        write_each (prepare_md context_dir references_dir)
          "  [DRY-RUN] Would create: " "  Created: " dry_run
          (filter (fun q => globbed t context_dir ".md" q = true)
             (map fst (map_to_list t)))
          [] t
    end.
Proof.
  unfold DDD.copy_context_to_skills. rewrite exists_bind.
  destruct (node_at t context_dir); [|reflexivity].
  cbn [negb]. rewrite bind_at. cbn [rglob result tree events].
  rewrite prepend_nil. apply copy_each_write_each.
Qed.

Lemma convert_agents_faithful (t : Tree) :
  dry_run_faithful (fun v => v)
    (DDD.convert_agents_to_commands PLUGIN_ROOT source_dir) t.
Proof.
  unfold dry_run_faithful. rewrite !convert_agents_at.
  destruct (node_at t agents_dir); [|now repeat split].
  destruct (write_each_dry _ "  [DRY-RUN] Would create: " "  Created: "
              prepare_agent_readonly DDD.AGENT_TO_COMMAND [] t)
    as (E1 & E2 & E3).
  repeat split; try assumption;
    edestruct (write_each_simulation (prepare_agent agents_dir commands_dir)
                 (fun item => commands_dir </> snd item)
                 "  [DRY-RUN] Would create: " "  Created: "
                 source_dir PLUGIN_ROOT)
      as (S1 & S2 & S3);
    eauto using prepare_agent_readonly, prepare_agent_local,
      prepare_agent_targets, prepare_agent_warning, report_of_create,
      agree_refl.
  all: intros x; unfold child; rewrite <- app_assoc;
    now apply prefix_app_r.
Qed.

Lemma md_target_in_plugin (md_file : Path) :
  PLUGIN_ROOT `prefix_of` md_target md_file.
Proof.
  unfold Spec.md_target, child. rewrite <- !app_assoc.
  now apply prefix_app_r.
Qed.

Lemma copy_context_faithful (t : Tree) :
  dry_run_faithful (fun v => v)
    (DDD.copy_context_to_skills PLUGIN_ROOT source_dir) t.
Proof.
  unfold dry_run_faithful. rewrite !copy_context_at.
  destruct (node_at t context_dir); [|now repeat split].
  set (md_files := filter _ _).
  destruct (write_each_dry _ "  [DRY-RUN] Would create: " "  Created: "
              prepare_md_readonly md_files [] t)
    as (E1 & E2 & E3).
  repeat split; try assumption;
    edestruct (write_each_simulation (prepare_md context_dir references_dir)
                 md_target
                 "  [DRY-RUN] Would create: " "  Created: "
                 source_dir PLUGIN_ROOT)
      as (S1 & S2 & S3);
    eauto using prepare_md_readonly, prepare_md_local,
      prepare_md_targets, prepare_md_warning, report_of_create,
      agree_refl, md_target_in_plugin.
Qed.

End DDDLoops.

(** C3, X1. Every assembler is faithful under dry-run, from every tree, when
    the clone and the plugin tree lie apart: the dry run leaves the tree as
    it is, makes no directory and writes no file; and whenever the applying
    run returns, the dry run returns the same paths and its report lines
    name exactly the paths the applying run wrote, in the same order, which
    are the paths returned. *)
Theorem dry_run_is_faithful (PLUGIN_ROOT source_dir : Path) (t : Tree) :
  apart source_dir PLUGIN_ROOT ->
  dry_run_faithful (fun p => [p])
    (Core.sync_philosophy PLUGIN_ROOT source_dir) t
  /\ dry_run_faithful (fun p => [p])
       (Core.sync_module_development PLUGIN_ROOT source_dir) t
  /\ dry_run_faithful (fun v => v)
       (DDD.convert_agents_to_commands PLUGIN_ROOT source_dir) t
  /\ dry_run_faithful (fun v => v)
       (DDD.copy_context_to_skills PLUGIN_ROOT source_dir) t
  /\ dry_run_faithful (fun p => [p]) (DDD.generate_skill_md PLUGIN_ROOT) t.
Proof.
  intros Ha. split; [apply sync_philosophy_faithful|].
  split; [apply sync_module_development_faithful|].
  split; [now apply convert_agents_faithful|].
  split; [now apply copy_context_faithful|].
  apply generate_skill_md_faithful.
Qed.

(** ** A missing mandatory source *)

Lemma prefix_same_length (p q : Path) :
  p `prefix_of` q -> length p = length q -> p = q.
Proof.
  intros [k ->] L. rewrite length_app in L.
  destruct k; [now rewrite app_nil_r | simpl in L; lia].
Qed.

(** An assembler made of a reading part and the Writer changes nothing
    off the way to its target, and writes its target at most. *)
Lemma read_then_write_frame {A : Type} (pre : M string) (would done : string)
    (dry_run : bool) (target : Path) (f : M A) (k : M A) (t : Tree) (q : Path) :
  f t = (pre ≫= fun content => writer would done dry_run target content;; k) t ->
  tree (pre t) = t -> quiet (events (pre t)) ->
  (forall t', tree (k t') = t' /\ events (k t') = []) ->
  (~ q `prefix_of` target -> node_at (tree (f t)) q = node_at t q)
  /\ (forall p, p ∈ written (events (f t)) -> p = target).
Proof.
  intros Hf Ht (_ & Qw & _) Hk. rewrite Hf, bind_at.
  destruct (result (pre t)) as [content|e]; cbn [prepend tree events].
  - rewrite Ht, bind_at.
    set (ow := writer would done dry_run target content t).
    assert (Fr : ~ q `prefix_of` target -> node_at (tree ow) q = node_at t q).
    { intros Nq. subst ow. destruct dry_run; [reflexivity|].
      now apply writer_frame. }
    assert (Wr : forall p, p ∈ written (events ow) -> p = target).
    { subst ow. destruct dry_run; [intros p Hp; inversion Hp|].
      destruct (writer_apply would done target content t)
        as (t1 & ev1 & _ & Em & [(_ & _ & _ & ->) | (e & _ & _ & ->)] & _).
      - rewrite (written_after_dirs _ _ _ _ Em). intros p Hp.
        now apply list_elem_of_singleton in Hp.
      - destruct Em as [_ Ew]. unfold written. rewrite Ew.
        intros p Hp. inversion Hp. }
    destruct (result ow); cbn [prepend tree events].
    + destruct (Hk (tree ow)) as [-> ->]. rewrite app_nil_r.
      split; [exact Fr|]. intros p. rewrite written_app.
      unfold written at 1. rewrite Qw. exact (Wr p).
    + split; [exact Fr|]. intros p. rewrite written_app.
      unfold written at 1. rewrite Qw. exact (Wr p).
  - rewrite Ht. split; [reflexivity|]. unfold written. rewrite Qw.
    intros p Hp. inversion Hp.
Qed.

Lemma sync_philosophy_frame (PLUGIN_ROOT source_dir : Path) (dry_run : bool)
    (t : Tree) (q : Path) :
  let o := Core.sync_philosophy PLUGIN_ROOT source_dir dry_run t in
  let target :=
    PLUGIN_ROOT </> "skills" </> "amplifier-philosophy" </> "SKILL.md" in
  (~ q `prefix_of` target -> node_at (tree o) q = node_at t q)
  /\ (forall p, p ∈ written (events o) -> p = target).
Proof.
  cbv zeta. eapply read_then_write_frame.
  - apply sync_philosophy_split.
  - now rewrite gather_philosophy_at.
  - rewrite gather_philosophy_at. apply quiet_nil.
  - now intros t'.
Qed.

Lemma sync_philosophy_missing (PLUGIN_ROOT source_dir : Path)
    (dry_run : bool) (t : Tree) :
  node_at t (source_dir </> "docs" </> "DESIGN_PHILOSOPHY.md") = None ->
  Core.sync_philosophy PLUGIN_ROOT source_dir dry_run t
  = mkOutcome
      (Raise (FileNotFoundError
                ("Source file not found: "
                 +:+ path_str (source_dir </> "docs" </> "DESIGN_PHILOSOPHY.md"))))
      t [].
Proof.
  intros N. unfold Core.sync_philosophy. rewrite exists_bind, N. reflexivity.
Qed.

Lemma sync_module_development_missing (PLUGIN_ROOT source_dir : Path)
    (dry_run : bool) (t : Tree) :
  node_at t (source_dir </> "docs" </> "contracts") = None
  \/ node_at t (source_dir </> "docs" </> "contracts" </> "README.md") = None ->
  exists msg,
    Core.sync_module_development PLUGIN_ROOT source_dir dry_run t
    = mkOutcome (Raise (FileNotFoundError msg)) t [].
Proof.
  intros H. unfold Core.sync_module_development. rewrite exists_bind.
  destruct (node_at t (source_dir </> "docs" </> "contracts")) eqn:Nc;
    [|eexists; reflexivity].
  destruct H as [H|H]; [discriminate|].
  cbn [negb]. rewrite exists_bind, H. eexists. reflexivity.
Qed.

(** C4, X2. A mandatory source that is missing stops the run before
    anything is written for its artifact. Without DESIGN_PHILOSOPHY.md,
    [sync_philosophy] raises FileNotFoundError from a tree it has not
    touched, and [main] ends there with exit status 1. Without the
    contracts directory or its README.md, [sync_module_development] does the
    same; [main], which has run [sync_philosophy] before, ends with exit
    status 1, has written no module-development/SKILL.md, and leaves what
    was at that path as it was. *)
Theorem missing_mandatory_source_aborts (PLUGIN_ROOT source_dir : Path)
    (dry_run : bool) (t : Tree) :
  apart source_dir PLUGIN_ROOT ->
  let philosophy_md :=
    PLUGIN_ROOT </> "skills" </> "amplifier-philosophy" </> "SKILL.md" in
  let module_md :=
    PLUGIN_ROOT </> "skills" </> "module-development" </> "SKILL.md" in
  let run := Core.main_after_clone PLUGIN_ROOT source_dir dry_run t in
  (node_at t (source_dir </> "docs" </> "DESIGN_PHILOSOPHY.md") = None ->
   (exists msg,
      Core.sync_philosophy PLUGIN_ROOT source_dir dry_run t
      = mkOutcome (Raise (FileNotFoundError msg)) t [])
   /\ exit_status (result run) = 1
   /\ tree run = t
   /\ written (events run) = [])
  /\ (node_at t (source_dir </> "docs" </> "contracts") = None
      \/ node_at t (source_dir </> "docs" </> "contracts" </> "README.md")
         = None ->
      (exists msg,
         Core.sync_module_development PLUGIN_ROOT source_dir dry_run t
         = mkOutcome (Raise (FileNotFoundError msg)) t [])
      /\ exit_status (result run) = 1
      /\ node_at (tree run) module_md = node_at t module_md
      /\ module_md ∉ written (events run)).
Proof.
  intros Ha. cbv zeta. unfold Core.main_after_clone. rewrite print_bind.
  split.
  - intros N. split; [eexists; now apply sync_philosophy_missing|].
    rewrite bind_at, (sync_philosophy_missing _ _ _ _ N). now repeat split.
  - intros N. split; [now apply sync_module_development_missing|].
    rewrite bind_at.
    destruct (sync_philosophy_frame PLUGIN_ROOT source_dir dry_run t
                (PLUGIN_ROOT </> "skills" </> "module-development" </> "SKILL.md"))
      as [Fr Wr]. cbv zeta in Fr, Wr.
    assert (Np : ~ (PLUGIN_ROOT </> "skills" </> "module-development" </> "SKILL.md")
                   `prefix_of`
                   (PLUGIN_ROOT </> "skills" </> "amplifier-philosophy" </> "SKILL.md")).
    { intros Hp. apply prefix_same_length in Hp.
      - unfold child in Hp. rewrite <- !app_assoc in Hp.
        apply app_inv_head in Hp. discriminate.
      - unfold child. now rewrite !length_app. }
    assert (Nw : (PLUGIN_ROOT </> "skills" </> "module-development" </> "SKILL.md")
                 ∉ written (events (Core.sync_philosophy PLUGIN_ROOT
                                      source_dir dry_run t))).
    { intros Hin. apply Wr in Hin. unfold child in Hin.
      rewrite <- !app_assoc in Hin. apply app_inv_head in Hin. discriminate. }
    set (o1 := Core.sync_philosophy PLUGIN_ROOT source_dir dry_run t) in *.
    destruct (result o1) as [p|e] eqn:R1; cbn [prepend result tree events].
    + assert (Hag : forall q, source_dir `prefix_of` q ->
                      node_at (tree o1) q = node_at t q).
      { intros q Hq.
        apply (proj1 (sync_philosophy_frame PLUGIN_ROOT source_dir dry_run t q)).
        intros Hp. eapply apart_prefix; eauto.
        unfold child. rewrite <- !app_assoc. now apply prefix_app_r. }
      assert (N' : node_at (tree o1) (source_dir </> "docs" </> "contracts") = None
                   \/ node_at (tree o1)
                        (source_dir </> "docs" </> "contracts" </> "README.md")
                      = None).
      { destruct N as [N|N]; [left|right]; rewrite Hag; try exact N;
          unfold child; rewrite <- !app_assoc; now apply prefix_app_r. }
      destruct (sync_module_development_missing PLUGIN_ROOT source_dir
                  dry_run (tree o1) N') as [msg Em].
      rewrite print_bind, bind_at, Em. cbn [prepend result tree events].
      split; [reflexivity|]. split; [now apply Fr|].
      rewrite app_nil_r.
      change (?a :: events o1 ++ [?b]) with ([a] ++ events o1 ++ [b]).
      rewrite !written_app. unfold written at 1 3. cbn.
      now rewrite app_nil_r.
    + split; [reflexivity|]. split; [now apply Fr|].
      change (?a :: events o1) with ([a] ++ events o1).
      now rewrite written_app.
Qed.

(** ** The merge of the contracts *)

Lemma core_transform_ok (content : string) :
  Core.transform_references content = Ok (core_transformed content).
Proof.
  unfold core_transformed.
  destruct (core_transform_total content) as [out ->]. reflexivity.
Qed.

Lemma join_cons_append (sep a x : string) (l : list string) :
  Py.join sep ((a +:+ x) :: l) = a +:+ Py.join sep (x :: l).
Proof.
  unfold Py.join. destruct l; cbn [String.concat]; [reflexivity|].
  now rewrite append_assoc.
Qed.

Lemma join_marked (first : string) (rest : list string) :
  Py.join "
" (first :: map (fun f => "
---

" +:+ f) rest)
  = Py.join separator (first :: rest).
Proof.
  revert first. induction rest as [|f rest IH]; intros first; [reflexivity|].
  change (Py.join separator (first :: f :: rest))
    with (first +:+ separator +:+ Py.join separator (f :: rest)).
  cbn [map].
  change (Py.join ?s (first :: ?y :: ?l))
    with (first +:+ s +:+ Py.join s (y :: l)).
  now rewrite IH, join_cons_append.
Qed.

Lemma omap_cons_match {A B : Type} (f : A -> option B) (x : A) (l : list A) :
  omap f (x :: l) = match f x with Some y => y :: omap f l | None => omap f l end.
Proof. reflexivity. Qed.

Lemma merge_contracts_at (contracts_dir : Path) (files sections : list string)
    (t : Tree) :
  (forall file, file ∈ files -> node_at t (contracts_dir </> file) <> Some Dir) ->
  Core.merge_contracts contracts_dir files sections t
  = mkOutcome
      (Ok (sections
           ++ map (fun f => "
---

" +:+ f)
                (omap (fragment_of t) (map (contract_entry contracts_dir) files))))
      t
      (map Printed
         (omap (warning_of t) (map (contract_entry contracts_dir) files))).
Proof.
  revert sections. induction files as [|file files IH]; intros sections H.
  - cbn. now rewrite app_nil_r.
  - assert (H' : forall f, f ∈ files -> node_at t (contracts_dir </> f) <> Some Dir)
      by (intros f Hf; apply H; now right).
    cbn [Core.merge_contracts map]. rewrite exists_bind, !omap_cons_match.
    unfold fragment_of at 1, warning_of at 1. cbn [contract_entry fst snd].
    destruct (node_at t (contracts_dir </> file)) as [[source|]|] eqn:N.
    + rewrite (read_bind_file _ _ _ _ N), core_transform_ok, lift_bind, (IH _ H').
      cbn [map]. now rewrite <- app_assoc.
    + destruct (H file); [now left | exact N].
    + rewrite print_bind, (IH _ H'). reflexivity.
Qed.

Lemma gather_module_development_at (source_dir : Path) (t : Tree)
    (readme : string) :
  is_Some (node_at t (source_dir </> "docs" </> "contracts")) ->
  node_at t (source_dir </> "docs" </> "contracts" </> "README.md")
  = Some (File readme) ->
  (forall entry, entry ∈ secondary source_dir ->
                 node_at t (fst (fst entry)) <> Some Dir) ->
  gather_module_development source_dir t
  = mkOutcome (Ok (module_development_text t source_dir readme)) t
      (map Printed (omap (warning_of t) (secondary source_dir))).
Proof.
  intros [n Nc] Nr H. unfold gather_module_development.
  rewrite exists_bind, Nc. cbn [negb]. rewrite exists_bind, Nr. cbn [negb].
  rewrite (read_bind_file _ _ _ _ Nr), core_transform_ok, lift_bind, bind_at.
  rewrite merge_contracts_at.
  2:{ intros file Hf.
      apply (H (contract_entry (source_dir </> "docs" </> "contracts") file)).
      unfold secondary. apply elem_of_app. left.
      now apply list_elem_of_In, in_map, list_elem_of_In. }
  cbn [result tree events]. rewrite exists_bind.
  unfold module_development_text, secondary.
  rewrite !omap_app, map_app, !omap_cons_match.
  set (entry := (source_dir </> "docs" </> "MODULE_SOURCE_PROTOCOL.md",
                 "# Appendix: Module Source Protocol

", "  WARNING: MODULE_SOURCE_PROTOCOL.md not found")).
  assert (Hm : node_at t (source_dir </> "docs" </> "MODULE_SOURCE_PROTOCOL.md")
               <> Some Dir).
  { apply (H entry). unfold secondary. apply elem_of_app. right. now left. }
  destruct (node_at t (source_dir </> "docs" </> "MODULE_SOURCE_PROTOCOL.md"))
    as [[msp|]|] eqn:Nm; [| congruence |].
  - assert (Ef : fragment_of t entry
                 = Some ("# Appendix: Module Source Protocol

" +:+ core_transformed msp))
      by (unfold fragment_of; cbn [entry fst snd]; now rewrite Nm).
    assert (Ew : warning_of t entry = None)
      by (unfold warning_of; cbn [entry fst snd]; now rewrite Nm).
    rewrite Ef, Ew.
    rewrite bind_assoc_at, (read_bind_file _ _ _ _ Nm), bind_assoc_at.
    rewrite core_transform_ok, lift_bind, !ret_bind.
    unfold mret, M_ret, ret, prepend. cbn [result tree events map omap].
    rewrite !app_nil_r. f_equal. f_equal. unfold Core.inject_credit.
    do 2 f_equal.
    rewrite <- join_marked. cbn [app]. f_equal. f_equal.
    rewrite map_app. reflexivity.
  - assert (Ef : fragment_of t entry = None)
      by (unfold fragment_of; cbn [entry fst snd]; now rewrite Nm).
    assert (Ew : warning_of t entry
                 = Some "  WARNING: MODULE_SOURCE_PROTOCOL.md not found")
      by (unfold warning_of; cbn [entry fst snd]; now rewrite Nm).
    rewrite Ef, Ew.
    rewrite bind_assoc_at, print_bind, !ret_bind.
    unfold mret, M_ret, ret, prepend. cbn [result tree events map omap].
    rewrite !app_nil_r. f_equal. f_equal. unfold Core.inject_credit.
    do 2 f_equal.
    rewrite <- join_marked. reflexivity.
Qed.

Lemma fragment_or_warning (t : Tree) (entries : list (Path * string * string)) :
  (forall entry, entry ∈ entries -> node_at t (fst (fst entry)) <> Some Dir) ->
  length (omap (fragment_of t) entries) + length (omap (warning_of t) entries)
  = length entries.
Proof.
  induction entries as [|entry entries IH]; intros H; [reflexivity|].
  rewrite !omap_cons_match. unfold fragment_of at 1, warning_of at 1.
  assert (Hd : node_at t (fst (fst entry)) <> Some Dir) by (apply H; now left).
  assert (IH' := IH (fun e He => H e (list_elem_of_further _ _ _ He))).
  destruct (node_at t (fst (fst entry))) as [[c|]|]; [|congruence|];
    simpl; lia.
Qed.

Lemma printed_lines (lines : list string) :
  printed (map Printed lines) = lines.
Proof.
  induction lines as [|w ws IH]; [reflexivity|]. cbn. f_equal. exact IH.
Qed.

Lemma writes_lines (lines : list string) : writes (map Printed lines) = [].
Proof. induction lines as [|w ws IH]; [reflexivity | exact IH]. Qed.

(** C5, X3. With the contracts directory and its README.md in place, and
    every secondary file (the five contracts and MODULE_SOURCE_PROTOCOL.md)
    either a file or missing, [sync_module_development] returns its target
    without raising: it prints one warning per missing secondary file, in
    order, and then its report line; each secondary file gives a fragment
    or a warning; and the applying run writes one file, the frontmatter,
    the banner and the fragments of the files present, in the fixed order,
    with the separator between them. The applying run needs its
    destination to be writable; the dry run changes nothing. *)
Theorem missing_optional_fragments (PLUGIN_ROOT source_dir : Path)
    (dry_run : bool) (t : Tree) (readme : string) :
  let target :=
    PLUGIN_ROOT </> "skills" </> "module-development" </> "SKILL.md" in
  is_Some (node_at t (source_dir </> "docs" </> "contracts")) ->
  node_at t (source_dir </> "docs" </> "contracts" </> "README.md")
  = Some (File readme) ->
  (forall entry, entry ∈ secondary source_dir ->
                 node_at t (fst (fst entry)) <> Some Dir) ->
  (dry_run = false ->
   (forall q c, q `prefix_of` parent target -> node_at t q <> Some (File c))
   /\ node_at t target <> Some Dir) ->
  let o := Core.sync_module_development PLUGIN_ROOT source_dir dry_run t in
  let text := module_development_text t source_dir readme in
  result o = Ok target
  /\ printed (events o)
     = omap (warning_of t) (secondary source_dir)
       ++ [(if dry_run then "  [DRY-RUN] Would update: " else "  Updated: ")
           +:+ path_str target]
  /\ length (omap (fragment_of t) (secondary source_dir))
     + length (omap (warning_of t) (secondary source_dir)) = 6
  /\ (if dry_run
      then tree o = t /\ writes (events o) = []
      else writes (events o) = [(target, text)]
           /\ node_at (tree o) target = Some (File text)).
Proof.
  intros target Hc Hr Hs Hw. cbv zeta.
  rewrite sync_module_development_split, bind_at,
    (gather_module_development_at _ _ _ Hc Hr Hs).
  cbn [result tree events]. fold target.
  pose proof (printed_lines (omap (warning_of t) (secondary source_dir))) as Pw.
  pose proof (writes_lines (omap (warning_of t) (secondary source_dir))) as Ww.
  split; [|split; [|split; [now apply fragment_or_warning|]]];
    destruct dry_run.
  - reflexivity.
  - rewrite bind_at.
    destruct (writer_apply "  [DRY-RUN] Would update: " "  Updated: " target
                (module_development_text t source_dir readme) t)
      as (t1 & ev1 & _ & _ & _ & Ok_).
    destruct (Hw eq_refl) as [Hf Hd]. now rewrite (Ok_ Hf Hd).
  - rewrite bind_at, writer_dry. cbn [prepend result tree events].
    now rewrite printed_app, Pw.
  - rewrite bind_at.
    destruct (writer_apply "  [DRY-RUN] Would update: " "  Updated: " target
                (module_development_text t source_dir readme) t)
      as (t1 & ev1 & _ & [Ep Ew] & [(Ro & _ & _ & Ev) | (e & Ro & _)] & Ok_);
      destruct (Hw eq_refl) as [Hf Hd]; rewrite (Ok_ Hf Hd) in Ro;
      [|discriminate].
    rewrite (Ok_ Hf Hd). unfold mret, M_ret, ret.
    cbn [prepend result tree events].
    rewrite Ev, app_nil_r, !printed_app, Pw, Ep. reflexivity.
  - rewrite bind_at, writer_dry. cbn [prepend result tree events].
    split; [reflexivity|]. now rewrite writes_app, Ww.
  - rewrite bind_at.
    destruct (writer_apply "  [DRY-RUN] Would update: " "  Updated: " target
                (module_development_text t source_dir readme) t)
      as (t1 & ev1 & _ & [Ep Ew] & [(Ro & Nr & Et & Ev) | (e & Ro & _)] & Ok_);
      destruct (Hw eq_refl) as [Hf Hd]; rewrite (Ok_ Hf Hd) in Ro;
      [|discriminate].
    rewrite (Ok_ Hf Hd). unfold mret, M_ret, ret.
    cbn [prepend result tree events].
    rewrite Ev, Et, app_nil_r, !writes_app, Ww, Ew.
    split; [reflexivity|].
    rewrite node_at_insert by exact Nr. now rewrite decide_True.
Qed.

(** ** The mapping from agents to commands *)

Lemma ddd_transform_ok (content : string) :
  DDD.transform_references content = Ok (ddd_transformed content).
Proof.
  unfold ddd_transformed.
  destruct (ddd_transform_total content) as [out ->]. reflexivity.
Qed.

(** Every command file of the table is its stem and the extension, and
    [replace] takes exactly the extension off. *)
Lemma command_names :
  Forall (fun item =>
            snd item = stem (snd item) +:+ ".md"
            /\ Py.replace ".md" "" (snd item) = stem (snd item))
    DDD.AGENT_TO_COMMAND.
Proof. repeat constructor. Qed.

(** With a name of the table, the rewrite of the name field never
    raises: the name is a template without a backslash. *)
Lemma update_frontmatter_name_table (item : string * string) (content : string) :
  item ∈ DDD.AGENT_TO_COMMAND ->
  DDD.update_frontmatter_name content (Py.replace ".md" "" (snd item))
  = Ok (match DDD.update_frontmatter_name content (stem (snd item)) with
        | Ok c => c
        | Raise _ => content
        end).
Proof.
  intros Hin. unfold DDD.update_frontmatter_name.
  destruct (negb (Py.startswith content "---")); [reflexivity|].
  destruct (List.length (Py.split "---" 2 content) <? 3); [reflexivity|].
  unfold Re.sub.
  repeat (apply elem_of_cons in Hin as [-> | Hin]; [reflexivity|]).
  inversion Hin.
Qed.

Lemma prepare_agent_result (agents_dir commands_dir : Path)
    (item : string * string) (t : Tree) :
  item ∈ DDD.AGENT_TO_COMMAND ->
  node_at t (agents_dir </> fst item) <> Some Dir ->
  result (prepare_agent agents_dir commands_dir item t)
  = Ok match converted_file t agents_dir commands_dir item with
       | Some (target, content) => Ready target content
       | None =>
           Skipped ("  WARNING: " +:+ path_str (agents_dir </> fst item)
                    +:+ " not found, skipping")
       end.
Proof.
  intros Hin Hd. rewrite prepare_agent_at. cbn [result].
  unfold converted_file, command_text.
  destruct (node_at t (agents_dir </> fst item)) as [[source|]|];
    [|congruence|reflexivity].
  rewrite ddd_transform_ok, (update_frontmatter_name_table _ _ Hin).
  reflexivity.
Qed.

Lemma command_targets_NoDup (commands_dir : Path) :
  NoDup (map (fun item : string * string => commands_dir </> snd item)
           DDD.AGENT_TO_COMMAND).
Proof.
  unfold DDD.AGENT_TO_COMMAND, child. cbn [map snd].
  repeat (apply NoDup_cons; split;
          [intros H;
           repeat (apply elem_of_cons in H as [H|H];
                   [apply app_inv_head in H; discriminate|]);
           inversion H|]).
  apply NoDup_nil. constructor.
Qed.

Lemma command_names_inj (x y : string * string) :
  x ∈ DDD.AGENT_TO_COMMAND -> y ∈ DDD.AGENT_TO_COMMAND ->
  snd x = snd y -> x = y.
Proof.
  intros Hx Hy.
  repeat (apply elem_of_cons in Hx as [-> | Hx]);
    try (inversion Hx; fail);
    repeat (apply elem_of_cons in Hy as [-> | Hy]);
    try (inversion Hy; fail);
    intros E; try reflexivity; discriminate E.
Qed.

Lemma prefix_of_child (q p : Path) (a : string) :
  q `prefix_of` p </> a -> q `prefix_of` p \/ q = p </> a.
Proof.
  intros [k E]. unfold child in *.
  destruct (decide (k = [])) as [->|Nk].
  - right. now rewrite app_nil_r in E.
  - left. rewrite (app_removelast_last EmptyString Nk), app_assoc in E.
    apply app_inj_tail in E as [-> _]. now apply prefix_app_r.
Qed.

Section Convert.

Variables source_dir PLUGIN_ROOT : Path.
Variable t : Tree.

Local Abbreviation agents_dir := (source_dir </> "agents").
Local Abbreviation commands_dir := (PLUGIN_ROOT </> "commands").
Local Abbreviation prepare := (prepare_agent agents_dir commands_dir).

Hypothesis sources_readable :
  forall item, item ∈ DDD.AGENT_TO_COMMAND ->
               node_at t (agents_dir </> fst item) <> Some Dir.

Lemma planned_agents (items : list (string * string)) :
  items ⊆ DDD.AGENT_TO_COMMAND ->
  planned prepare t items = omap (converted_file t agents_dir commands_dir) items
  /\ map (fun x => line_of "  Created: " (result (prepare x t))) items
     = map (convert_line t agents_dir commands_dir) items.
Proof.
  induction items as [|x items IH]; intros Hsub; [now split|].
  assert (Hx : x ∈ DDD.AGENT_TO_COMMAND) by (apply Hsub; now left).
  destruct IH as [IH1 IH2]; [intros y Hy; apply Hsub; now right|].
  rewrite planned_cons, omap_cons_match. cbn [map]. rewrite IH1, IH2.
  rewrite (prepare_agent_result _ _ _ _ Hx (sources_readable _ Hx)).
  pose proof (sources_readable _ Hx) as Hd.
  unfold converted_file, convert_line.
  destruct (node_at t (agents_dir </> fst x)) as [[source|]|];
    [|congruence|]; split; reflexivity.
Qed.

End Convert.

(** C6, X4. In an applying run over a tree where the agents directory
    exists, every agent file of the table is a file or missing, and the
    commands directory can be made and written to, with the clone and the
    plugin apart: [convert_agents_to_commands] returns, never raising for a
    missing agent file; for each entry whose agent file exists it makes
    exactly one write, of the source after the reference rewrite, the
    banner and the rewrite of the name field to the command file name
    without its .md extension, and that file is in the tree at the end; for
    each entry whose agent file is missing it writes nothing, leaves what
    was at the command path as it was, and prints exactly one warning. One
    line is printed per entry, in the order of the table. *)
Theorem convert_agents_to_commands_maps (PLUGIN_ROOT source_dir : Path)
    (t : Tree) :
  let agents_dir := source_dir </> "agents" in
  let commands_dir := PLUGIN_ROOT </> "commands" in
  apart source_dir PLUGIN_ROOT ->
  is_Some (node_at t agents_dir) ->
  (forall item, item ∈ DDD.AGENT_TO_COMMAND ->
                node_at t (agents_dir </> fst item) <> Some Dir) ->
  (forall q c, q `prefix_of` commands_dir -> node_at t q <> Some (File c)) ->
  (forall item, item ∈ DDD.AGENT_TO_COMMAND ->
                node_at t (commands_dir </> snd item) <> Some Dir) ->
  let o := DDD.convert_agents_to_commands PLUGIN_ROOT source_dir false t in
  let files :=
    omap (converted_file t agents_dir commands_dir) DDD.AGENT_TO_COMMAND in
  result o = Ok (map fst files)
  /\ writes (events o) = files
  /\ printed (events o)
     = map (convert_line t agents_dir commands_dir) DDD.AGENT_TO_COMMAND
  /\ forall item, item ∈ DDD.AGENT_TO_COMMAND ->
       snd item = stem (snd item) +:+ ".md"
       /\ match node_at t (agents_dir </> fst item) with
          | Some (File source) =>
              node_at (tree o) (commands_dir </> snd item)
              = Some (File (command_text source (stem (snd item))))
          | _ =>
              node_at (tree o) (commands_dir </> snd item)
              = node_at t (commands_dir </> snd item)
          end.
Proof.
  intros agents_dir commands_dir Ha [n Hn] Hs Hc Hd. cbv zeta.
  rewrite convert_agents_at. fold agents_dir commands_dir. rewrite Hn.
  set (prepare := prepare_agent agents_dir commands_dir).
  set (tgt := fun item : string * string => commands_dir </> snd item).
  assert (Hin : forall x : string * string, PLUGIN_ROOT `prefix_of` tgt x).
  { intros x. unfold tgt, commands_dir, child. rewrite <- app_assoc.
    now apply prefix_app_r. }
  destruct (planned_agents source_dir PLUGIN_ROOT t Hs DDD.AGENT_TO_COMMAND)
    as [Hp Hl]; [done|]. fold agents_dir commands_dir prepare in Hp, Hl.
  destruct (write_each_returns prepare tgt "  [DRY-RUN] Would create: "
              "  Created: " source_dir PLUGIN_ROOT
              (prepare_agent_readonly source_dir PLUGIN_ROOT)
              (prepare_agent_local source_dir PLUGIN_ROOT)
              (prepare_agent_targets source_dir PLUGIN_ROOT) Hin Ha
              DDD.AGENT_TO_COMMAND [] t t (agree_refl _ _)) as [v Hv].
  { intros x Hx. eexists. apply prepare_agent_result; auto. }
  { intros x Hx. unfold tgt. rewrite parent_child. split; auto. }
  { intros x y _ _ Hxy. apply prefix_same_length; [exact Hxy|].
    unfold tgt, child. now rewrite !length_app. }
  destruct (write_each_apply prepare tgt "  [DRY-RUN] Would create: "
              "  Created: " source_dir PLUGIN_ROOT
              (prepare_agent_readonly source_dir PLUGIN_ROOT)
              (prepare_agent_local source_dir PLUGIN_ROOT)
              (prepare_agent_targets source_dir PLUGIN_ROOT) Hin Ha
              DDD.AGENT_TO_COMMAND [] t t v (agree_refl _ _)
              (command_targets_NoDup commands_dir) Hv)
    as (E1 & E2 & E3 & E4).
  rewrite Hp in E1, E3, E4. rewrite Hl in E2.
  split; [now rewrite Hv, E3|]. split; [exact E1|]. split; [exact E2|].
  intros item Hitem.
  split; [exact (proj1 (proj1 (Forall_forall _ _) command_names item Hitem))|].
  destruct (node_at t (agents_dir </> fst item)) as [[source|]|] eqn:Ns.
  - apply E4. apply list_elem_of_omap. exists item. split; [exact Hitem|].
    unfold converted_file. now rewrite Ns.
  - destruct (Hs item Hitem Ns).
  - apply (write_each_frame_planned prepare tgt "  [DRY-RUN] Would create: "
             "  Created: " source_dir PLUGIN_ROOT
             (prepare_agent_readonly source_dir PLUGIN_ROOT)
             (prepare_agent_local source_dir PLUGIN_ROOT)
             (prepare_agent_targets source_dir PLUGIN_ROOT) Hin Ha
             DDD.AGENT_TO_COMMAND [] t t _ (agree_refl _ _)).
    intros target content. rewrite Hp. intros Hin' Hpre.
    apply list_elem_of_omap in Hin' as (y & Hy & Ey).
    unfold converted_file in Ey.
    destruct (node_at t (agents_dir </> fst y)) as [[source|]|] eqn:Ny;
      try discriminate.
    injection Ey as <- _.
    apply prefix_same_length in Hpre;
      [|unfold child; now rewrite !length_app].
    apply app_inj_tail in Hpre as [_ Hxy].
    apply (command_names_inj _ _ Hitem Hy) in Hxy. subst y. congruence.
Qed.
(** ** The mirror of the context directory *)

Lemma reachable_prefix (t : Tree) (base p : Path) (b : string) (k : Path) :
  reachable t base (p ++ b :: k) = true -> node_at t (base ++ p) = Some Dir.
Proof.
  revert base. induction p as [|a p IH]; intros base H; cbn [app reachable] in H.
  - rewrite app_nil_r. destruct (node_at t base) as [[c|]|]; try discriminate.
    reflexivity.
  - destruct (node_at t base) as [[c|]|]; try discriminate.
    apply IH in H. unfold child in H. now rewrite <- app_assoc in H.
Qed.

Lemma globbed_inv (t : Tree) (base : Path) (suffix : string) (q : Path) :
  globbed t base suffix q = true ->
  exists a rel,
    relative_to q base = Some (a :: rel) /\ q = base ++ a :: rel
    /\ reachable t base (a :: rel) = true.
Proof.
  unfold globbed. destruct (relative_to q base) as [[|a rel]|] eqn:E;
    try discriminate.
  intros H. apply andb_prop in H as [Hr _]. exists a, rel.
  split; [reflexivity|]. split; [now apply relative_to_app | exact Hr].
Qed.

Lemma NoDup_map_inj {A B : Type} (f : A -> B) (l : list A) :
  NoDup l -> (forall x y, x ∈ l -> y ∈ l -> f x = f y -> x = y) ->
  NoDup (map f l).
Proof.
  induction 1 as [|x l Hx Hl IH]; intros Hinj; [constructor|].
  cbn [map]. apply NoDup_cons. split.
  - intros Hin. apply list_elem_of_In, in_map_iff in Hin as (y & Ey & Hy).
    apply list_elem_of_In in Hy.
    assert (y = x) by (apply Hinj; [now right | now left | exact Ey]).
    subst y. contradiction.
  - apply IH. intros y z Hy Hz. apply Hinj; now right.
Qed.

Lemma prepare_md_result (context_dir references_dir q rel : Path) (t : Tree)
    (source : string) :
  relative_to q context_dir = Some rel ->
  node_at t q = Some (File source) ->
  result (prepare_md context_dir references_dir q t)
  = Ok (Ready (references_dir ++ rel) (DDD.inject_credit (ddd_transformed source))).
Proof.
  intros Er Nq. rewrite prepare_md_at. cbn [result].
  now rewrite Er, Nq, ddd_transform_ok.
Qed.

Section Mirror.

Variables source_dir PLUGIN_ROOT : Path.
Variable t : Tree.

Local Abbreviation context_dir := (source_dir </> "context").
Local Abbreviation references_dir :=
  (PLUGIN_ROOT </> "skills" </> "ddd-guide" </> "references").
Local Abbreviation prepare := (prepare_md context_dir references_dir).
Local Abbreviation tgt := (md_target context_dir references_dir).
Local Abbreviation md_files :=
  (filter (fun q => globbed t context_dir ".md" q = true)
     (map fst (map_to_list t))).

Hypothesis found_no_dirs :
  forall q, globbed t context_dir ".md" q = true -> node_at t q <> Some Dir.

Lemma md_files_globbed (q : Path) :
  q ∈ md_files -> globbed t context_dir ".md" q = true.
Proof. intros H. now apply list_elem_of_filter in H as [H _]. Qed.

Lemma md_files_found (q : Path) (source : string) :
  globbed t context_dir ".md" q = true ->
  node_at t q = Some (File source) -> q ∈ md_files.
Proof.
  intros Hg Hn. apply list_elem_of_filter. split; [exact Hg|].
  destruct (globbed_inv _ _ _ _ Hg) as (a & rel & _ & Eq & _).
  assert (Hl : t !! q = Some (File source)).
  { destruct q; [now destruct context_dir | exact Hn]. }
  apply list_elem_of_In, in_map_iff. exists (q, File source).
  split; [reflexivity|]. now apply list_elem_of_In, elem_of_map_to_list.
Qed.

Lemma md_files_file (q : Path) :
  q ∈ md_files -> exists source, node_at t q = Some (File source).
Proof.
  intros Hq. pose proof (md_files_globbed _ Hq) as Hg.
  apply list_elem_of_filter in Hq as [_ Hk].
  apply list_elem_of_In, in_map_iff in Hk as ([q' n] & <- & Hk).
  apply list_elem_of_In, elem_of_map_to_list in Hk. cbn [fst] in *.
  destruct (globbed_inv _ _ _ _ Hg) as (a & rel & _ & Eq & _).
  assert (Hn : node_at t q' = Some n).
  { destruct q'; [now destruct context_dir | exact Hk]. }
  destruct n as [source|]; [now exists source|].
  now destruct (found_no_dirs q' Hg).
Qed.

Lemma md_files_NoDup : NoDup md_files.
Proof. apply NoDup_filter. exact (NoDup_fst_map_to_list t). Qed.

Lemma md_target_globbed (q : Path) :
  globbed t context_dir ".md" q = true ->
  exists rel, q = context_dir ++ rel /\ tgt q = references_dir ++ rel
              /\ relative_to q context_dir = Some rel.
Proof.
  intros Hg. destruct (globbed_inv _ _ _ _ Hg) as (a & rel & Er & Eq & _).
  exists (a :: rel). unfold md_target. now rewrite Er.
Qed.

Lemma md_targets_NoDup : NoDup (map tgt md_files).
Proof.
  apply NoDup_map_inj; [apply md_files_NoDup|].
  intros x y Hx Hy E.
  destruct (md_target_globbed x (md_files_globbed _ Hx)) as (rx & -> & Ex & _).
  destruct (md_target_globbed y (md_files_globbed _ Hy)) as (ry & -> & Ey & _).
  rewrite Ex, Ey in E. apply app_inv_head in E. now subst.
Qed.

Lemma md_targets_unnested : unnested tgt md_files.
Proof.
  intros x y Hx Hy Hp.
  pose proof (md_files_globbed _ Hx) as Gx.
  pose proof (md_files_globbed _ Hy) as Gy.
  destruct (md_target_globbed x Gx) as (rx & Ex & Tx & _).
  destruct (md_target_globbed y Gy) as (ry & Ey & Ty & _).
  rewrite Tx, Ty in *. apply prefix_app_inv in Hp. destruct Hp as [k Ek].
  destruct k as [|b k]; [now rewrite Ek, app_nil_r|]. exfalso.
  destruct (globbed_inv _ _ _ _ Gy) as (a & rel & Er & Eq & Hr).
  assert (ry = a :: rel) by (rewrite Ey in Eq; now apply app_inv_head in Eq).
  rewrite <- H, Ek in Hr. apply reachable_prefix in Hr.
  destruct (md_files_file x Hx) as [source Hs].
  rewrite Ex in Hs. congruence.
Qed.

End Mirror.

(** Where every item is ready, the targets planned are the targets of the
    items, one for one. *)
Lemma planned_ready_targets {X : Type} (prepare : X -> M prepared)
    (tgt : X -> Path) (t : Tree) (items : list X) :
  (forall x, x ∈ items ->
     exists content, result (prepare x t) = Ok (Ready (tgt x) content)) ->
  map fst (planned prepare t items) = map tgt items.
Proof.
  induction items as [|x items IH]; intros H; [reflexivity|].
  destruct (H x ltac:(now left)) as [content R].
  unfold planned in *. cbn [omap list_omap map]. rewrite R. cbn [ready_of map fst].
  f_equal. apply IH. intros y Hy. apply H. now right.
Qed.

(** C8, X5. In an applying run with the clone and the plugin apart, over a
    tree whose context directory exists, where no directory has a
    Markdown name the recursive search finds, and where the place of each
    file found can be written under the references root: the run returns,
    and for every Markdown file found at a relative path below the context
    directory, the file at the same relative path below the references root
    holds, at the end, the source with its references rewritten and the
    banner injected, and nothing else before or around it; these are
    exactly the writes of the run, one per file found: every write is
    the write of such a file, no path is written twice, and the writes are
    as many as the files the search has found. *)
Theorem copy_context_to_skills_mirrors (PLUGIN_ROOT source_dir : Path)
    (t : Tree) :
  let context_dir := source_dir </> "context" in
  let references_dir :=
    PLUGIN_ROOT </> "skills" </> "ddd-guide" </> "references" in
  apart source_dir PLUGIN_ROOT ->
  is_Some (node_at t context_dir) ->
  (forall q, globbed t context_dir ".md" q = true -> node_at t q <> Some Dir) ->
  (forall rel source,
     globbed t context_dir ".md" (context_dir ++ rel) = true ->
     node_at t (context_dir ++ rel) = Some (File source) ->
     (forall q c, q `prefix_of` parent (references_dir ++ rel) ->
                  node_at t q <> Some (File c))
     /\ node_at t (references_dir ++ rel) <> Some Dir) ->
  let o := DDD.copy_context_to_skills PLUGIN_ROOT source_dir false t in
  (exists v, result o = Ok v /\ v = written (events o))
  /\ (forall rel source,
        globbed t context_dir ".md" (context_dir ++ rel) = true ->
        node_at t (context_dir ++ rel) = Some (File source) ->
        node_at (tree o) (references_dir ++ rel)
        = Some (File (DDD.inject_credit (ddd_transformed source)))
        /\ (references_dir ++ rel, DDD.inject_credit (ddd_transformed source))
           ∈ writes (events o))
  /\ (forall target content,
        (target, content) ∈ writes (events o) ->
        exists rel source,
          target = references_dir ++ rel
          /\ globbed t context_dir ".md" (context_dir ++ rel) = true
          /\ node_at t (context_dir ++ rel) = Some (File source)
          /\ content = DDD.inject_credit (ddd_transformed source))
  /\ NoDup (written (events o))
  /\ (exists found,
        result (rglob context_dir ".md" t) = Ok found
        /\ NoDup found
        /\ length (writes (events o)) = length found).
Proof.
  intros context_dir references_dir Ha [n Hn] Hf Hw. cbv zeta.
  rewrite copy_context_at. fold context_dir references_dir. rewrite Hn.
  set (prepare := prepare_md context_dir references_dir).
  set (tgt := md_target context_dir references_dir).
  set (md_files := filter _ _).
  assert (Hin : forall x, PLUGIN_ROOT `prefix_of` tgt x)
    by apply md_target_in_plugin.
  assert (Hres : forall q, q ∈ md_files ->
            exists rel source,
              q = context_dir ++ rel
              /\ globbed t context_dir ".md" (context_dir ++ rel) = true
              /\ node_at t (context_dir ++ rel) = Some (File source)
              /\ tgt q = references_dir ++ rel
              /\ result (prepare q t)
                 = Ok (Ready (references_dir ++ rel)
                         (DDD.inject_credit (ddd_transformed source)))).
  { intros q Hq. pose proof (md_files_globbed _ _ _ Hq) as Hg.
    destruct (md_target_globbed source_dir PLUGIN_ROOT t q Hg)
      as (rel & Eq & Et & Er).
    destruct (md_files_file _ _ Hf q Hq) as [source Hs].
    exists rel, source. subst q.
    split; [reflexivity|]. split; [exact Hg|].
    split; [exact Hs|]. split; [exact Et|].
    now apply prepare_md_result. }
  destruct (write_each_returns prepare tgt "  [DRY-RUN] Would create: "
              "  Created: " source_dir PLUGIN_ROOT
              (prepare_md_readonly source_dir PLUGIN_ROOT)
              (prepare_md_local source_dir PLUGIN_ROOT)
              (prepare_md_targets source_dir PLUGIN_ROOT) Hin Ha
              md_files [] t t (agree_refl _ _)) as [v Hv].
  { intros q Hq. destruct (Hres q Hq) as (rel & source & _ & _ & _ & _ & R).
    eauto. }
  { intros q Hq. destruct (Hres q Hq) as (rel & source & Eq & Hg & Hs & Et & _).
    rewrite Et. now apply (Hw rel source). }
  { now apply md_targets_unnested. }
  destruct (write_each_apply prepare tgt "  [DRY-RUN] Would create: "
              "  Created: " source_dir PLUGIN_ROOT
              (prepare_md_readonly source_dir PLUGIN_ROOT)
              (prepare_md_local source_dir PLUGIN_ROOT)
              (prepare_md_targets source_dir PLUGIN_ROOT) Hin Ha
              md_files [] t t v (agree_refl _ _)
              (md_targets_NoDup source_dir PLUGIN_ROOT t) Hv)
    as (E1 & E2 & E3 & E4).
  assert (Et : map fst (planned prepare t md_files) = map tgt md_files).
  { apply planned_ready_targets. intros q Hq.
    destruct (Hres q Hq) as (rel & source & _ & _ & _ & -> & R). eauto. }
  split; [|split; [|split; [|split]]]; cycle 3.
  - unfold written. rewrite E1, Et.
    exact (md_targets_NoDup source_dir PLUGIN_ROOT t).
  - exists md_files. split; [reflexivity|].
    split; [exact (md_files_NoDup source_dir t)|].
    rewrite E1, <- (length_map fst), Et. apply length_map.
  - exists v. split; [exact Hv|]. unfold written. now rewrite E1, E3.
  - intros rel source Hg Hs.
    assert (Hq : context_dir ++ rel ∈ md_files)
      by (eapply md_files_found; eauto).
    assert (Hp : (references_dir ++ rel,
                  DDD.inject_credit (ddd_transformed source))
                 ∈ planned prepare t md_files).
    { apply list_elem_of_omap. exists (context_dir ++ rel).
      split; [exact Hq|].
      destruct (Hres _ Hq) as (rel' & source' & Eq & _ & Hs' & _ & R).
      apply app_inv_head in Eq. subst rel'.
      rewrite Hs in Hs'. injection Hs' as <-. now rewrite R. }
    split; [now apply E4 | now rewrite E1].
  - intros target content. rewrite E1. intros Hp.
    apply list_elem_of_omap in Hp as (q & Hq & Eq).
    destruct (Hres _ Hq) as (rel & source & _ & Hg & Hs & _ & R).
    rewrite R in Eq. injection Eq as <- <-. now exists rel, source.
Qed.

(** ** Sample runs *)

Lemma ways_down_prefix (q p : Path) : q `prefix_of` p -> In q (ways_down p).
Proof.
  revert q. induction p as [|a p IH]; intros q [k E].
  - destruct q; [now left | discriminate].
  - destruct q as [|b q]; [now left|]. injection E as <- E.
    right. apply in_map, IH. now exists k.
Qed.

Lemma clear_way_spec (t : Tree) (p : Path) :
  clear_way t p = true ->
  forall q c, q `prefix_of` p -> node_at t q <> Some (File c).
Proof.
  intros H q c Hq Hn. unfold clear_way in H.
  rewrite forallb_forall in H. specialize (H q (ways_down_prefix _ _ Hq)).
  rewrite Hn in H. discriminate.
Qed.

Lemma sample_apart_core : apart Sample.core_clone Sample.plugin.
Proof. split; intros [k E]; discriminate. Qed.

Lemma sample_apart_ddd : apart Sample.ddd_clone Sample.plugin.
Proof. split; intros [k E]; discriminate. Qed.

Lemma dry_run_is_faithful_witness :
  apart Sample.ddd_clone Sample.plugin
  /\ dry_run_faithful (fun p => [p])
       (Core.sync_philosophy Sample.plugin Sample.ddd_clone) Sample.ddd_tree
  /\ dry_run_faithful (fun p => [p])
       (Core.sync_module_development Sample.plugin Sample.ddd_clone)
       Sample.ddd_tree
  /\ dry_run_faithful (fun v => v)
       (DDD.convert_agents_to_commands Sample.plugin Sample.ddd_clone)
       Sample.ddd_tree
  /\ dry_run_faithful (fun v => v)
       (DDD.copy_context_to_skills Sample.plugin Sample.ddd_clone)
       Sample.ddd_tree
  /\ dry_run_faithful (fun p => [p]) (DDD.generate_skill_md Sample.plugin)
       Sample.ddd_tree.
Proof.
  split; [exact sample_apart_ddd|].
  exact (dry_run_is_faithful Sample.plugin Sample.ddd_clone Sample.ddd_tree
           sample_apart_ddd).
Defined.

(** On the sample tree the applying run of the batch conversion
    returns, and the dry run reports the path it wrote. *)
Example convert_agents_sample :
  result (DDD.convert_agents_to_commands Sample.plugin Sample.ddd_clone false
            Sample.ddd_tree)
  = Ok [["opt"; "plugin"; "commands"; "ddd-1-plan.md"]]
  /\ reported (events (DDD.convert_agents_to_commands Sample.plugin
                         Sample.ddd_clone true Sample.ddd_tree))
     = ["/opt/plugin/commands/ddd-1-plan.md"]
  /\ tree (DDD.convert_agents_to_commands Sample.plugin Sample.ddd_clone true
             Sample.ddd_tree) = Sample.ddd_tree.
Proof. repeat split; vm_compute; reflexivity. Qed.

Lemma missing_mandatory_source_aborts_witness :
  apart Sample.core_clone Sample.plugin
  /\ node_at Sample.bare_tree
       (Sample.core_clone </> "docs" </> "DESIGN_PHILOSOPHY.md") = None
  /\ node_at Sample.bare_tree (Sample.core_clone </> "docs" </> "contracts")
     = None
  /\ exit_status
       (result (Core.main_after_clone Sample.plugin Sample.core_clone false
                  Sample.bare_tree)) = 1
  /\ tree (Core.main_after_clone Sample.plugin Sample.core_clone false
             Sample.bare_tree) = Sample.bare_tree
  /\ (exists msg,
        Core.sync_module_development Sample.plugin Sample.core_clone false
          Sample.bare_tree
        = mkOutcome (Raise (FileNotFoundError msg)) Sample.bare_tree []).
Proof.
  split; [exact sample_apart_core|].
  split; [reflexivity|]. split; [reflexivity|].
  destruct (missing_mandatory_source_aborts Sample.plugin Sample.core_clone
              false Sample.bare_tree sample_apart_core) as [H1 H2].
  destruct (H1 eq_refl) as (_ & E & T & _).
  destruct (H2 (or_introl eq_refl)) as (M & _).
  split; [exact E|]. split; [exact T | exact M].
Defined.

Lemma missing_optional_fragments_witness :
  is_Some (node_at Sample.core_tree (Sample.core_clone </> "docs" </> "contracts"))
  /\ node_at Sample.core_tree
       (Sample.core_clone </> "docs" </> "contracts" </> "README.md")
     = Some (File Sample.readme_doc)
  /\ omap (warning_of Sample.core_tree) (secondary Sample.core_clone)
     = ["  WARNING: Contract file not found: /tmp/amplifier-core/docs/contracts/PROVIDER_CONTRACT.md";
        "  WARNING: Contract file not found: /tmp/amplifier-core/docs/contracts/ORCHESTRATOR_CONTRACT.md";
        "  WARNING: Contract file not found: /tmp/amplifier-core/docs/contracts/CONTEXT_CONTRACT.md";
        "  WARNING: MODULE_SOURCE_PROTOCOL.md not found"]
  /\ result (Core.sync_module_development Sample.plugin Sample.core_clone
               false Sample.core_tree)
     = Ok (Sample.plugin </> "skills" </> "module-development" </> "SKILL.md")
  /\ writes (events (Core.sync_module_development Sample.plugin
                       Sample.core_clone false Sample.core_tree))
     = [(Sample.plugin </> "skills" </> "module-development" </> "SKILL.md",
         module_development_text Sample.core_tree Sample.core_clone
           Sample.readme_doc)].
Proof.
  assert (H1 : is_Some (node_at Sample.core_tree
                          (Sample.core_clone </> "docs" </> "contracts")))
    by (eexists; reflexivity).
  assert (H2 : node_at Sample.core_tree
                 (Sample.core_clone </> "docs" </> "contracts" </> "README.md")
               = Some (File Sample.readme_doc)) by reflexivity.
  assert (H3 : forall entry, entry ∈ secondary Sample.core_clone ->
                 node_at Sample.core_tree (fst (fst entry)) <> Some Dir).
  { intros entry H. apply list_elem_of_In in H.
    repeat (destruct H as [<- | H]; [vm_compute; discriminate|]).
    destruct H. }
  assert (H4 : false = false ->
               (forall q c,
                  q `prefix_of`
                    parent (Sample.plugin </> "skills" </> "module-development"
                            </> "SKILL.md") ->
                  node_at Sample.core_tree q <> Some (File c))
               /\ node_at Sample.core_tree
                    (Sample.plugin </> "skills" </> "module-development"
                     </> "SKILL.md") <> Some Dir).
  { intros _. split; [apply clear_way_spec; reflexivity|].
    vm_compute. discriminate. }
  destruct (missing_optional_fragments Sample.plugin Sample.core_clone false
              Sample.core_tree Sample.readme_doc H1 H2 H3 H4)
    as (R & _ & _ & W & _).
  split; [exact H1|]. split; [exact H2|]. split; [reflexivity|].
  split; [exact R | exact W].
Defined.

(** The document the sample merge writes: the overview and the two
    contracts present, with the separator between them. *)
Example module_development_sample :
  module_development_text Sample.core_tree Sample.core_clone Sample.readme_doc
  = Core.MODULE_DEV_FRONTMATTER +:+ Core.CREDIT_COMMENT +:+ "# Contracts

See [the philosophy](https://github.com/microsoft/amplifier-core/blob/main/DESIGN_PHILOSOPHY.md).


---

# Tool contract

Back to [overview](https://github.com/microsoft/amplifier-core/blob/main/README.md).


---

# Hook contract
".
Proof. vm_compute. reflexivity. Qed.

Lemma convert_agents_to_commands_maps_witness :
  apart Sample.ddd_clone Sample.plugin
  /\ is_Some (node_at Sample.ddd_tree (Sample.ddd_clone </> "agents"))
  /\ result (DDD.convert_agents_to_commands Sample.plugin Sample.ddd_clone
               false Sample.ddd_tree)
     = Ok [Sample.plugin </> "commands" </> "ddd-1-plan.md"]
  /\ writes (events (DDD.convert_agents_to_commands Sample.plugin
                       Sample.ddd_clone false Sample.ddd_tree))
     = [(Sample.plugin </> "commands" </> "ddd-1-plan.md",
         "---
name: ddd-1-plan
description: Plans with @skills/ddd-guide/references/guide.md
---

" +:+ DDD.CREDIT_COMMENT +:+ "Read @skills/amplifier-philosophy/SKILL.md first.
")]
  /\ printed (events (DDD.convert_agents_to_commands Sample.plugin
                        Sample.ddd_clone false Sample.ddd_tree))
     = ["  Created: /opt/plugin/commands/ddd-1-plan.md";
        "  WARNING: /tmp/ddd/agents/documentation-retroner.md not found, skipping";
        "  WARNING: /tmp/ddd/agents/code-planner.md not found, skipping";
        "  WARNING: /tmp/ddd/agents/implementation-verifier.md not found, skipping";
        "  WARNING: /tmp/ddd/agents/finalization-specialist.md not found, skipping"].
Proof.
  assert (H1 : is_Some (node_at Sample.ddd_tree (Sample.ddd_clone </> "agents")))
    by (eexists; reflexivity).
  assert (H2 : forall item, item ∈ DDD.AGENT_TO_COMMAND ->
                 node_at Sample.ddd_tree
                   (Sample.ddd_clone </> "agents" </> fst item) <> Some Dir).
  { intros item H. apply list_elem_of_In in H.
    repeat (destruct H as [<- | H]; [vm_compute; discriminate|]).
    destruct H. }
  assert (H3 : forall q c, q `prefix_of` Sample.plugin </> "commands" ->
                 node_at Sample.ddd_tree q <> Some (File c))
    by (apply clear_way_spec; reflexivity).
  assert (H4 : forall item, item ∈ DDD.AGENT_TO_COMMAND ->
                 node_at Sample.ddd_tree
                   (Sample.plugin </> "commands" </> snd item) <> Some Dir).
  { intros item H. apply list_elem_of_In in H.
    repeat (destruct H as [<- | H]; [vm_compute; discriminate|]).
    destruct H. }
  destruct (convert_agents_to_commands_maps Sample.plugin Sample.ddd_clone
              Sample.ddd_tree sample_apart_ddd H1 H2 H3 H4)
    as (R & W & P & _).
  split; [exact sample_apart_ddd|]. split; [exact H1|].
  split; [exact R|]. split; [exact W | exact P].
Defined.

Lemma every_entry_spec (P : Path -> node -> bool) (t : Tree) :
  every_entry P t = true ->
  forall q n, t !! q = Some n -> P q n = true.
Proof.
  intros H q n E. unfold every_entry in H. rewrite forallb_forall in H.
  apply (H (q, n)). apply list_elem_of_In, elem_of_map_to_list, E.
Qed.

Lemma copy_context_to_skills_mirrors_witness :
  apart Sample.ddd_clone Sample.plugin
  /\ is_Some (node_at Sample.ddd_tree (Sample.ddd_clone </> "context"))
  /\ globbed Sample.ddd_tree (Sample.ddd_clone </> "context") ".md"
       (Sample.ddd_clone </> "context" ++ ["phases"; "plan.md"]) = true
  /\ node_at
       (tree (DDD.copy_context_to_skills Sample.plugin Sample.ddd_clone false
                Sample.ddd_tree))
       (Sample.plugin </> "skills" </> "ddd-guide" </> "references"
        ++ ["phases"; "plan.md"])
     = Some (File (DDD.inject_credit (ddd_transformed Sample.agent_doc)))
  /\ (exists v,
        result (DDD.copy_context_to_skills Sample.plugin Sample.ddd_clone false
                  Sample.ddd_tree) = Ok v
        /\ v = written (events (DDD.copy_context_to_skills Sample.plugin
                                  Sample.ddd_clone false Sample.ddd_tree)))
  /\ NoDup (written (events (DDD.copy_context_to_skills Sample.plugin
                               Sample.ddd_clone false Sample.ddd_tree)))
  /\ length (writes (events (DDD.copy_context_to_skills Sample.plugin
                               Sample.ddd_clone false Sample.ddd_tree))) = 2.
Proof.
  assert (H1 : is_Some (node_at Sample.ddd_tree (Sample.ddd_clone </> "context")))
    by (eexists; reflexivity).
  assert (H2 : forall q,
             globbed Sample.ddd_tree (Sample.ddd_clone </> "context") ".md" q
             = true ->
             node_at Sample.ddd_tree q <> Some Dir).
  { intros q Hg Hd. destruct q as [|a q]; [discriminate Hg|].
    assert (He : every_entry
                   (no_dir_found Sample.ddd_tree
                      (Sample.ddd_clone </> "context") ".md") Sample.ddd_tree
                 = true) by (vm_compute; reflexivity).
    apply (every_entry_spec _ _ He) in Hd. cbn [no_dir_found] in Hd. rewrite Hg in Hd. discriminate Hd. }
  assert (H3 : forall rel source,
             globbed Sample.ddd_tree (Sample.ddd_clone </> "context") ".md"
               (Sample.ddd_clone </> "context" ++ rel) = true ->
             node_at Sample.ddd_tree (Sample.ddd_clone </> "context" ++ rel)
             = Some (File source) ->
             (forall q c,
                q `prefix_of`
                  parent (Sample.plugin </> "skills" </> "ddd-guide"
                          </> "references" ++ rel) ->
                node_at Sample.ddd_tree q <> Some (File c))
             /\ node_at Sample.ddd_tree
                  (Sample.plugin </> "skills" </> "ddd-guide" </> "references"
                   ++ rel) <> Some Dir).
  { intros rel source _ Hs.
    assert (He : every_entry
                   (room_for Sample.ddd_tree (Sample.ddd_clone </> "context")
                      (Sample.plugin </> "skills" </> "ddd-guide"
                       </> "references")) Sample.ddd_tree
                 = true) by (vm_compute; reflexivity).
    apply (every_entry_spec _ _ He) in Hs. cbn [room_for] in Hs. rewrite relative_to_app_eq in Hs.
    apply andb_true_iff in Hs as [Hw Hn].
    split; [exact (clear_way_spec _ _ Hw)|].
    intros Hd. rewrite Hd in Hn. discriminate Hn. }
  destruct (copy_context_to_skills_mirrors Sample.plugin Sample.ddd_clone
              Sample.ddd_tree sample_apart_ddd H1 H2 H3)
    as (R & F & _ & N & found & Rf & _ & L).
  assert (G : globbed Sample.ddd_tree (Sample.ddd_clone </> "context") ".md"
                (Sample.ddd_clone </> "context" ++ ["phases"; "plan.md"])
              = true) by reflexivity.
  split; [exact sample_apart_ddd|]. split; [exact H1|]. split; [exact G|].
  split; [exact (proj1 (F ["phases"; "plan.md"] Sample.agent_doc G eq_refl))|].
  split; [exact R|]. split; [exact N|].
  rewrite L. vm_compute in Rf. injection Rf as <-. reflexivity.
Defined.

(** ** The rule tables, rule by rule *)

Lemma match_here_literal (text : string) (bol : bool) (s : string) :
  Re.match_here (literal text) Re.any_rest bol s
  = if Py.startswith s text
    then Some ([], Py.drop (String.length text) s)
    else None.
Proof.
  revert bol s. induction text as [|a text IH]; intros bol s.
  - destruct s; reflexivity.
  - destruct s as [|c s]; [reflexivity|].
    cbn [literal Re.match_here Re.cmatch Py.startswith String.length Py.drop].
    destruct (Ascii.eqb a c); [|reflexivity].
    rewrite IH. cbn [andb]. destruct (Py.startswith s text); reflexivity.
Qed.

Lemma expand_verbatim (text whole : string) (gs : list string) :
  Re.expand (verbatim text) whole gs = text.
Proof. induction text as [|c text IH]; simpl; [reflexivity | now rewrite IH]. Qed.

Lemma expand_verbatim_app (text : string) (tpl : list Re.piece)
    (whole : string) (gs : list string) :
  Re.expand (verbatim text ++ tpl) whole gs = text +:+ Re.expand tpl whole gs.
Proof.
  induction text as [|c text IH]; [reflexivity|].
  cbn [verbatim app Re.expand]. now rewrite IH.
Qed.

Lemma has_char_app (a : ascii) (u s : string) :
  has_char a (u +:+ s) = has_char a u || has_char a s.
Proof.
  induction u as [|c u IH]; [reflexivity|]. sapp.
  cbn [has_char]. now rewrite IH, orb_assoc.
Qed.

Lemma bol_after_app (bol : bool) (u v : string) :
  bol_after bol (u +:+ v) = bol_after (bol_after bol u) v.
Proof.
  revert bol. induction u as [|c u IH]; intros bol; [reflexivity|].
  sapp. cbn [bol_after]. apply IH.
Qed.

(** A pattern that starts with a given character matches nowhere in a
    text without it. *)
Lemma sub_scan_without (a : ascii) (captured : bool) (re : Re.regex)
    (tpl : list Re.piece) (bol : bool) (s : string) :
  has_char a s = false ->
  Re.sub_scan (Re.Atom (Re.CChar a) Re.One captured :: re) tpl 0 bol s = s.
Proof.
  revert bol. induction s as [|c s IH]; intros bol H; [reflexivity|].
  cbn [has_char] in H. apply orb_false_iff in H as [Hc Hs].
  cbn [Re.sub_scan Re.match_here Re.cmatch]. rewrite Hc.
  now rewrite IH.
Qed.

Lemma sub_scan_app_without (a : ascii) (captured : bool) (re : Re.regex)
    (tpl : list Re.piece) (bol : bool) (u s : string) :
  has_char a u = false ->
  Re.sub_scan (Re.Atom (Re.CChar a) Re.One captured :: re) tpl 0 bol (u +:+ s)
  = u +:+ Re.sub_scan (Re.Atom (Re.CChar a) Re.One captured :: re) tpl 0
            (bol_after bol u) s.
Proof.
  revert bol. induction u as [|c u IH]; intros bol H; [reflexivity|].
  cbn [has_char] in H. apply orb_false_iff in H as [Hc Hs]. sapp.
  cbn [Re.sub_scan Re.match_here Re.cmatch bol_after]. rewrite Hc.
  now rewrite IH.
Qed.

Lemma sub_scan_skip (re : Re.regex) (tpl : list Re.piece) (bol : bool)
    (u s : string) :
  Re.sub_scan re tpl (String.length u) bol (u +:+ s)
  = Re.sub_scan re tpl 0 (bol_after bol u) s.
Proof.
  revert bol. induction u as [|c u IH]; intros bol.
  - sapp. reflexivity.
  - sapp. cbn [String.length Re.sub_scan bol_after]. apply IH.
Qed.

Lemma take_app (u s : string) : Re.take (String.length u) (u +:+ s) = u.
Proof.
  induction u as [|c u IH]; sapp; [now destruct s|].
  cbn [String.length Re.take]. now rewrite IH.
Qed.

(** The scan at a match that is not empty. *)
Lemma sub_scan_hit (re : Re.regex) (tpl : list Re.piece) (bol : bool)
    (c : ascii) (m rest : string) (gs : list string) :
  Re.match_here re Re.any_rest bol (String c m +:+ rest) = Some (gs, rest) ->
  Re.sub_scan re tpl 0 bol (String c m +:+ rest)
  = Re.expand tpl (String c m) gs
    +:+ Re.sub_scan re tpl 0 (bol_after bol (String c m)) rest.
Proof.
  intros H. rewrite <- (take_app (String c m) rest) at 2. revert H. sapp.
  intros H. cbn [Re.sub_scan]. rewrite H.
  cbn [String.length]. rewrite length_append.
  replace (S (String.length m + String.length rest) - String.length rest)
    with (S (String.length m)) by lia.
  now rewrite sub_scan_skip.
Qed.

Lemma match_literal_app (l : string) (re : Re.regex) (accept : string -> bool)
    (bol : bool) (s : string) :
  Re.match_here (literal l ++ re) accept bol (l +:+ s)
  = Re.match_here re accept (bol_after bol l) s.
Proof.
  revert bol. induction l as [|a l IH]; intros bol; [reflexivity|]. sapp.
  cbn [literal app Re.match_here Re.cmatch bol_after].
  rewrite Ascii.eqb_refl, IH.
  now destruct (Re.match_here re accept _ s) as [[gs after]|].
Qed.

Lemma match_literal_miss (l : string) (re : Re.regex) (accept : string -> bool)
    (bol : bool) (s : string) :
  Py.startswith s l = false ->
  Re.match_here (literal l ++ re) accept bol s = None.
Proof.
  revert bol s. induction l as [|a l IH]; intros bol s H; [discriminate|].
  destruct s as [|c s]; [reflexivity|].
  cbn [literal app Re.match_here Re.cmatch]. cbn [Py.startswith] in H.
  destruct (Ascii.eqb a c); [|reflexivity].
  cbn [andb] in H. now rewrite (IH _ _ H).
Qed.

(** A greedy repetition before a continuation that wants a character
    outside the class: the repetition runs as far as the class goes, and
    nothing shorter is tried with success. *)
Lemma greedy_runs (cl : Re.cclass)
    (k : bool -> string -> string -> option Re.found)
    (bol : bool) (taken u s : string) :
  (forall b tk c s', Re.cmatch cl c = true -> k b tk (String c s') = None) ->
  all_chars (Re.cmatch cl) u = true ->
  head_is (Re.cmatch cl) s = false ->
  Re.greedy cl k bol taken (u +:+ s) = k (bol_after bol u) (taken +:+ u) s.
Proof.
  intros Hk. revert bol taken.
  induction u as [|c u IH]; intros bol taken Hu Hs.
  - sapp. rewrite append_nil_r. cbn [bol_after].
    destruct s as [|c s]; [reflexivity|].
    cbn [Re.greedy]. cbn [head_is] in Hs. now rewrite Hs.
  - sapp. cbn [all_chars] in Hu. apply andb_true_iff in Hu as [Hc Hu].
    cbn [Re.greedy bol_after]. rewrite Hc, (IH _ _ Hu Hs).
    replace ((taken +:+ String c "") +:+ u) with (taken +:+ String c u)
      by (now rewrite append_assoc).
    destruct (k _ _ s); [reflexivity|]. now apply Hk.
Qed.

(** The longest repetition is the one taken when the continuation
    accepts it. *)
Lemma greedy_longest (cl : Re.cclass)
    (k : bool -> string -> string -> option Re.found)
    (bol : bool) (taken u s : string) (r : Re.found) :
  all_chars (Re.cmatch cl) u = true ->
  head_is (Re.cmatch cl) s = false ->
  k (bol_after bol u) (taken +:+ u) s = Some r ->
  Re.greedy cl k bol taken (u +:+ s) = Some r.
Proof.
  revert bol taken.
  induction u as [|c u IH]; intros bol taken Hu Hs Hr.
  - revert Hr. sapp. rewrite append_nil_r. cbn [bol_after]. intros Hr.
    destruct s as [|c s]; [exact Hr|].
    cbn [Re.greedy]. cbn [head_is] in Hs. now rewrite Hs.
  - sapp. cbn [all_chars] in Hu. apply andb_true_iff in Hu as [Hc Hu].
    cbn [Re.greedy]. rewrite Hc, (IH _ (taken +:+ String c "") Hu Hs);
      [reflexivity|].
    now rewrite append_assoc.
Qed.

Lemma without_all_not (x : ascii) (u : string) :
  has_char x u = false -> all_chars (Re.cmatch (Re.CNot [x])) u = true.
Proof.
  induction u as [|c u IH]; [reflexivity|]. cbn [has_char all_chars].
  intros H. apply orb_false_iff in H as [Hc Hu].
  rewrite (IH Hu), andb_true_r. cbn [Re.cmatch existsb].
  now rewrite Ascii.eqb_sym, Hc.
Qed.

(** One or more characters other than [x], and then [x]. *)
Lemma match_up_to (x : ascii) (captured : bool) (re : Re.regex)
    (accept : string -> bool) (bol : bool) (u s : string) :
  u <> EmptyString -> has_char x u = false ->
  Re.match_here
    (Re.Atom (Re.CNot [x]) Re.Plus captured
     :: Re.Atom (Re.CChar x) Re.One false :: re)
    accept bol (u +:+ String x s)
  = match Re.match_here re accept (Re.is_nl x) s with
    | Some (gs, after) => Some (if captured then u :: gs else gs, after)
    | None => None
    end.
Proof.
  intros Hne Hu. destruct u as [|c u]; [congruence|]. sapp.
  pose proof (without_all_not _ _ Hu) as Ha.
  cbn [all_chars] in Ha. apply andb_true_iff in Ha as [Hc Ha].
  cbn [Re.match_here]. rewrite Hc.
  rewrite greedy_runs.
  - cbn [Re.cmatch]. rewrite Ascii.eqb_refl. sapp.
    now destruct (Re.match_here re accept (Re.is_nl x) s) as [[gs after]|].
  - intros b tk c' s' Hc'. cbn [Re.cmatch].
    destruct (Ascii.eqb_spec x c') as [<-|]; [|reflexivity].
    cbn [Re.cmatch existsb] in Hc'. now rewrite Ascii.eqb_refl in Hc'.
  - exact Ha.
  - cbn [head_is Re.cmatch existsb]. now rewrite Ascii.eqb_refl.
Qed.

Lemma match_char (a : ascii) (re : Re.regex) (accept : string -> bool)
    (bol : bool) (s : string) :
  Re.match_here (Re.Atom (Re.CChar a) Re.One false :: re) accept bol
    (String a s)
  = Re.match_here re accept (Re.is_nl a) s.
Proof.
  cbn [Re.match_here Re.cmatch]. rewrite Ascii.eqb_refl.
  now destruct (Re.match_here re accept (Re.is_nl a) s) as [[gs after]|].
Qed.

Lemma match_link (tail : Re.regex) (accept : string -> bool) (bol : bool)
    (text s : string) :
  text <> EmptyString -> has_char "]" text = false ->
  Re.match_here (link_pattern tail) accept bol
    (String "[" (text +:+ String "]" s))
  = match Re.match_here tail accept false s with
    | Some (gs, after) => Some (text :: gs, after)
    | None => None
    end.
Proof.
  intros Hne Ht. unfold link_pattern.
  rewrite match_char.
  now rewrite (match_up_to "]" true tail accept (Re.is_nl "[") text s Hne Ht).
Qed.

Lemma sub_compiled (pattern repl : string) (re : Re.regex)
    (tpl : list Re.piece) (s : string) :
  Re.compile false pattern = Some re ->
  Re.parse_template (Re.groups re) repl = Some tpl ->
  Re.sub false pattern repl s = Ok (Re.sub_scan re tpl 0 true s).
Proof. intros Hc Ht. unfold Re.sub. now rewrite Hc, Ht. Qed.

(** The one link of a text is what the pattern matches. *)
Lemma link_scan_hit (tail : Re.regex) (tpl : list Re.piece) (bol : bool)
    (before text x after : string) (gs : list string) :
  has_char "[" before = false -> has_char "[" after = false ->
  text <> EmptyString -> has_char "]" text = false ->
  Re.match_here tail Re.any_rest false (x +:+ after) = Some (gs, after) ->
  Re.sub_scan (link_pattern tail) tpl 0 bol
    (before +:+ String "[" (text +:+ String "]" (x +:+ after)))
  = before
    +:+ Re.expand tpl (String "[" (text +:+ String "]" x)) (text :: gs)
    +:+ after.
Proof.
  intros Hb Ha Hne Ht Hm. unfold link_pattern at 1.
  rewrite sub_scan_app_without by exact Hb. fold (link_pattern tail).
  f_equal.
  replace (String "[" (text +:+ String "]" (x +:+ after)))
    with (String "[" (text +:+ String "]" x) +:+ after)
    by (sapp; now rewrite append_assoc).
  rewrite (sub_scan_hit _ _ _ _ _ _ (text :: gs)).
  - f_equal. unfold link_pattern. now apply sub_scan_without.
  - sapp. rewrite append_assoc. sapp.
    rewrite (match_link _ _ _ _ _ Hne Ht), Hm. reflexivity.
Qed.

(** The pattern passes over a link whose target it does not match. *)
Lemma link_scan_miss (tail : Re.regex) (tpl : list Re.piece) (bol : bool)
    (before text s : string) :
  has_char "[" before = false -> has_char "[" s = false ->
  text <> EmptyString -> has_char "[" text = false ->
  has_char "]" text = false ->
  Re.match_here tail Re.any_rest false s = None ->
  Re.sub_scan (link_pattern tail) tpl 0 bol
    (before +:+ String "[" (text +:+ String "]" s))
  = before +:+ String "[" (text +:+ String "]" s).
Proof.
  intros Hb Hs Hne Ht Ht' Hm. unfold link_pattern at 1.
  rewrite sub_scan_app_without by exact Hb. fold (link_pattern tail).
  f_equal. cbn [Re.sub_scan].
  rewrite (match_link _ _ _ _ _ Hne Ht'), Hm. f_equal.
  unfold link_pattern. apply sub_scan_without.
  rewrite has_char_app, Ht. cbn [has_char orb]. exact Hs.
Qed.

Lemma match_to_file (name : string) (bol : bool) (after : string) :
  Re.match_here (to_file name) Re.any_rest bol
    (("(" +:+ name +:+ ")") +:+ after)
  = Some ([], after).
Proof.
  unfold to_file. now rewrite match_here_literal, startswith_append, drop_append.
Qed.

Lemma match_below (dir : string) (bol : bool) (path after : string) :
  path <> EmptyString -> has_char ")" path = false ->
  Re.match_here (below dir) Re.any_rest bol
    (("(" +:+ dir +:+ path +:+ ")") +:+ after)
  = Some ([path], after).
Proof.
  intros Hne Hp. unfold below.
  replace (("(" +:+ dir +:+ path +:+ ")") +:+ after)
    with (("(" +:+ dir) +:+ path +:+ String ")" after)
    by (now rewrite !append_assoc).
  rewrite match_literal_app, (match_up_to ")" true [] _ _ path after Hne Hp).
  reflexivity.
Qed.

Lemma length_drop_startswith (s p : string) :
  Py.startswith s p = true ->
  String.length s - String.length (Py.drop (String.length p) s)
  = String.length p.
Proof.
  intros H. rewrite (startswith_inv _ _ H) at 1.
  rewrite length_append. lia.
Qed.

Lemma sub_scan_literal (old new : string) (skip : nat) (bol : bool)
    (s : string) :
  old <> EmptyString ->
  Re.sub_scan (literal old) (verbatim new) skip bol s
  = Py.replace_from old new skip s.
Proof.
  intros Hne. revert skip bol.
  induction s as [|c s IH]; intros skip bol.
  - cbn [Re.sub_scan Py.replace_from]. rewrite match_here_literal.
    destruct old; [congruence | reflexivity].
  - cbn [Re.sub_scan Py.replace_from]. destruct skip as [|k]; [|apply IH].
    rewrite match_here_literal.
    destruct (Py.startswith (String c s) old) eqn:E.
    + rewrite (length_drop_startswith _ _ E).
      destruct old as [|a old]; [congruence|].
      cbn [String.length]. rewrite expand_verbatim, IH.
      now replace (S (String.length old) - 1) with (String.length old) by lia.
    + now rewrite IH.
Qed.

Lemma sub_literal (pattern repl old new s : string) :
  old <> EmptyString ->
  Re.compile false pattern = Some (literal old) ->
  Re.parse_template 0 repl = Some (verbatim new) ->
  Re.sub false pattern repl s = Ok (Py.replace old new s).
Proof.
  intros Hne Hc Ht. unfold Re.sub. rewrite Hc.
  assert (G : Re.groups (literal old) = 0)
    by (clear; induction old; [reflexivity | assumption]).
  rewrite G, Ht, (sub_scan_literal _ _ _ _ _ Hne).
  destruct old; [congruence | reflexivity].
Qed.

Lemma sub_each_literal (rules plain : list (string * string))
    (content : string) :
  Forall2 reads_as rules plain ->
  Re.sub_each rules content = Ok (replace_each plain content).
Proof.
  intros H. revert content.
  induction H as [|[pattern repl] [old new] rules plain (Hne & Hc & Ht) _ IH];
    intros content; [reflexivity|].
  cbn [Re.sub_each]. cbn [fst snd] in Hne, Hc, Ht.
  rewrite (sub_literal _ _ _ _ _ Hne Hc Ht). apply IH.
Qed.

(** X6. The five patterns of sync_ddd.py hold no operator of [re] but
    the escaped dot, so each rule is a plain replacement: for every
    content, [transform_references] returns what five calls of
    [str.replace] give, with the texts of DDD_PLAIN_RULES, in the order of
    the table. *)
Theorem ddd_transform_references_replaces (content : string) :
  DDD.transform_references content
  = Ok (replace_each DDD_PLAIN_RULES content).
Proof.
  apply sub_each_literal.
  repeat (constructor;
          [split; [discriminate | split; vm_compute; reflexivity]|]).
  constructor.
Qed.

Ltac snorm :=
  repeat progress rewrite ?append_cons, ?append_nil_l, ?append_assoc.

Lemma link_apart (before text target after : string) :
  before +:+ link text target +:+ after
  = before +:+ String "[" (text +:+ String "]"
                             (("(" +:+ target +:+ ")") +:+ after)).
Proof. unfold link. now snorm. Qed.

(** A rule of the table at the one link of a text. *)
Lemma link_rule_hit (pattern repl : string) (tail : Re.regex)
    (tpl : list Re.piece) (before text target after : string)
    (gs : list string) :
  Re.compile false pattern = Some (link_pattern tail) ->
  Re.parse_template (Re.groups (link_pattern tail)) repl = Some tpl ->
  has_char "[" before = false -> has_char "[" after = false ->
  text <> EmptyString -> has_char "]" text = false ->
  Re.match_here tail Re.any_rest false (("(" +:+ target +:+ ")") +:+ after)
  = Some (gs, after) ->
  Re.sub false pattern repl (before +:+ link text target +:+ after)
  = Ok (before
        +:+ Re.expand tpl (String "[" (text +:+ String "]"
                                         ("(" +:+ target +:+ ")")))
              (text :: gs)
        +:+ after).
Proof.
  intros Hc Hp Hb Ha Hne Ht Hm.
  rewrite (sub_compiled _ _ _ _ _ Hc Hp), link_apart.
  now rewrite (link_scan_hit _ _ _ _ _ _ _ _ Hb Ha Hne Ht Hm).
Qed.

Lemma link_rule_miss (pattern repl : string) (tail : Re.regex)
    (tpl : list Re.piece) (before text target after : string) :
  Re.compile false pattern = Some (link_pattern tail) ->
  Re.parse_template (Re.groups (link_pattern tail)) repl = Some tpl ->
  has_char "[" before = false -> has_char "[" after = false ->
  text <> EmptyString -> has_char "[" text = false ->
  has_char "]" text = false -> has_char "[" target = false ->
  Re.match_here tail Re.any_rest false (("(" +:+ target +:+ ")") +:+ after)
  = None ->
  Re.sub false pattern repl (before +:+ link text target +:+ after)
  = Ok (before +:+ link text target +:+ after).
Proof.
  intros Hc Hp Hb Ha Hne Ht Ht' Hg Hm.
  rewrite (sub_compiled _ _ _ _ _ Hc Hp), link_apart.
  rewrite link_scan_miss; try assumption; [reflexivity|].
  rewrite !has_char_app, Hg, Ha. reflexivity.
Qed.

Lemma to_file_miss (name : string) (bol : bool) (s : string) :
  Py.startswith s ("(" +:+ name +:+ ")") = false ->
  Re.match_here (to_file name) Re.any_rest bol s = None.
Proof. intros H. unfold to_file. now rewrite match_here_literal, H. Qed.

Lemma below_miss (dir : string) (bol : bool) (s : string) :
  Py.startswith s ("(" +:+ dir) = false ->
  Re.match_here (below dir) Re.any_rest bol s = None.
Proof. intros H. unfold below. now apply match_literal_miss. Qed.

Section CoreRules.

Variables before text path after : string.
Hypothesis before_plain : has_char "[" before = false.
Hypothesis after_plain : has_char "[" after = false.
Hypothesis text_there : text <> EmptyString.
Hypothesis text_open : has_char "[" text = false.
Hypothesis text_closed : has_char "]" text = false.
Hypothesis path_there : path <> EmptyString.
Hypothesis path_open : has_char "[" path = false.
Hypothesis path_closed : has_char ")" path = false.

Local Ltac rule_facts :=
  first [ exact before_plain | exact after_plain | exact text_there
        | exact text_open | exact text_closed
        | reflexivity
        | rewrite has_char_app, path_open; reflexivity ].

Local Ltac hits tail matched :=
  erewrite (link_rule_hit _ _ tail);
  [ | vm_compute; reflexivity | vm_compute; reflexivity | rule_facts..
    | matched ];
  cbn [Re.expand nth]; unfold link; now snorm.

Local Ltac misses tail missed :=
  erewrite (link_rule_miss _ _ tail);
  [ | vm_compute; reflexivity | vm_compute; reflexivity | rule_facts..
    | missed; reflexivity ].

Lemma to_design_philosophy :
  Core.transform_references
    (before +:+ link text "DESIGN_PHILOSOPHY.md" +:+ after)
  = Ok (before +:+ link text "@skills/amplifier-philosophy/SKILL.md"
        +:+ after).
Proof.
  unfold Core.transform_references, Core.REFERENCE_PATTERNS.
  cbn [Re.sub_each].
  replace (Re.sub false _ _ (before +:+ link text "DESIGN_PHILOSOPHY.md" +:+ after))
    with (@Ok string (before +:+ link text "@skills/amplifier-philosophy/SKILL.md"
              +:+ after))
    by (symmetry; hits (to_file "DESIGN_PHILOSOPHY.md") ltac:(apply match_to_file)).
  misses (below "contracts/") ltac:(apply below_miss).
  misses (to_file "MODULE_SOURCE_PROTOCOL.md") ltac:(apply to_file_miss).
  misses (below "../") ltac:(apply below_miss).
  reflexivity.
Qed.

Lemma to_contract :
  Core.transform_references
    (before +:+ link text ("contracts/" +:+ path) +:+ after)
  = Ok (before +:+ link text "@skills/module-development/SKILL.md" +:+ after).
Proof.
  unfold Core.transform_references, Core.REFERENCE_PATTERNS.
  cbn [Re.sub_each].
  misses (to_file "DESIGN_PHILOSOPHY.md") ltac:(apply to_file_miss).
  replace (Re.sub false _ _ (before +:+ link text ("contracts/" +:+ path) +:+ after))
    with (@Ok string (before +:+ link text "@skills/module-development/SKILL.md"
              +:+ after))
    by (symmetry; hits (below "contracts/")
          ltac:(apply (match_below "contracts/");
                [exact path_there | exact path_closed])).
  misses (to_file "MODULE_SOURCE_PROTOCOL.md") ltac:(apply to_file_miss).
  misses (below "../") ltac:(apply below_miss).
  reflexivity.
Qed.

Lemma to_module_source_protocol :
  Core.transform_references
    (before +:+ link text "MODULE_SOURCE_PROTOCOL.md" +:+ after)
  = Ok (before +:+ link text "@skills/module-development/SKILL.md" +:+ after).
Proof.
  unfold Core.transform_references, Core.REFERENCE_PATTERNS.
  cbn [Re.sub_each].
  misses (to_file "DESIGN_PHILOSOPHY.md") ltac:(apply to_file_miss).
  misses (below "contracts/") ltac:(apply below_miss).
  replace (Re.sub false _ _ (before +:+ link text "MODULE_SOURCE_PROTOCOL.md" +:+ after))
    with (@Ok string (before +:+ link text "@skills/module-development/SKILL.md"
              +:+ after))
    by (symmetry; hits (to_file "MODULE_SOURCE_PROTOCOL.md")
          ltac:(apply match_to_file)).
  misses (below "../") ltac:(apply below_miss).
  reflexivity.
Qed.

Lemma to_parent_directory :
  Core.transform_references (before +:+ link text ("../" +:+ path) +:+ after)
  = Ok (before
        +:+ link text
              ("https://github.com/microsoft/amplifier-core/blob/main/"
               +:+ path)
        +:+ after).
Proof.
  unfold Core.transform_references, Core.REFERENCE_PATTERNS.
  cbn [Re.sub_each].
  misses (to_file "DESIGN_PHILOSOPHY.md") ltac:(apply to_file_miss).
  misses (below "contracts/") ltac:(apply below_miss).
  misses (to_file "MODULE_SOURCE_PROTOCOL.md") ltac:(apply to_file_miss).
  hits (below "../")
    ltac:(apply (match_below "../"); [exact path_there | exact path_closed]).
Qed.

End CoreRules.

(** X7. What the four rules of sync_amplifier_core.py do to a Markdown
    link, in a text with no other square bracket, for a link text without
    brackets and a path without an opening bracket or a closing
    parenthesis. A link to DESIGN_PHILOSOPHY.md goes to the philosophy
    skill; a link below contracts/ goes to the module-development skill,
    whatever file it named; so does a link to MODULE_SOURCE_PROTOCOL.md; and
    a link into the parent directory becomes the URL of that path in the
    upstream repository. The link text and the text around the link
    stay. *)
Theorem core_links_rewritten (before text path after : string) :
  has_char "[" before = false -> has_char "[" after = false ->
  text <> EmptyString ->
  has_char "[" text = false -> has_char "]" text = false ->
  path <> EmptyString ->
  has_char "[" path = false -> has_char ")" path = false ->
  Core.transform_references
    (before +:+ link text "DESIGN_PHILOSOPHY.md" +:+ after)
  = Ok (before +:+ link text "@skills/amplifier-philosophy/SKILL.md"
        +:+ after)
  /\ Core.transform_references
       (before +:+ link text ("contracts/" +:+ path) +:+ after)
     = Ok (before +:+ link text "@skills/module-development/SKILL.md"
           +:+ after)
  /\ Core.transform_references
       (before +:+ link text "MODULE_SOURCE_PROTOCOL.md" +:+ after)
     = Ok (before +:+ link text "@skills/module-development/SKILL.md"
           +:+ after)
  /\ Core.transform_references
       (before +:+ link text ("../" +:+ path) +:+ after)
     = Ok (before
           +:+ link text
                 ("https://github.com/microsoft/amplifier-core/blob/main/"
                  +:+ path)
           +:+ after).
Proof.
  intros Hb Ha Hn Ho Hc Pn Po Pc.
  split; [now apply to_design_philosophy|].
  split; [now apply to_contract|].
  split; [now apply to_module_source_protocol | now apply to_parent_directory].
Qed.

Lemma core_links_rewritten_witness :
  Core.transform_references "See [the tool contract](contracts/TOOL_CONTRACT.md#calls) first.
"
  = Ok "See [the tool contract](@skills/module-development/SKILL.md) first.
"
  /\ Core.transform_references "See [the tool contract](../README.md#calls) first.
"
     = Ok "See [the tool contract](https://github.com/microsoft/amplifier-core/blob/main/README.md#calls) first.
".
Proof.
  assert (H := core_links_rewritten "See " "the tool contract"
                 "TOOL_CONTRACT.md#calls" " first.
"
                 eq_refl eq_refl ltac:(discriminate) eq_refl eq_refl
                 ltac:(discriminate) eq_refl eq_refl).
  destruct H as (_ & H2 & _ & _).
  assert (H' := core_links_rewritten "See " "the tool contract"
                 "README.md#calls" " first.
"
                 eq_refl eq_refl ltac:(discriminate) eq_refl eq_refl
                 ltac:(discriminate) eq_refl eq_refl).
  destruct H' as (_ & _ & _ & H4).
  split; [exact H2 | exact H4].
Defined.

Lemma sub_each_without (a : ascii) (rules : list (string * string))
    (s : string) :
  Forall (starts_with_char a) rules -> has_char a s = false ->
  Re.sub_each rules s = Ok s.
Proof.
  intros H Hs. induction H as [|[pattern repl] rules (re & tpl & Hc & Ht) _ IH];
    [reflexivity|].
  cbn [Re.sub_each]. cbn [fst snd] in Hc, Ht.
  now rewrite (sub_compiled _ _ _ _ _ Hc Ht), sub_scan_without.
Qed.

(** X8. A content without an opening square bracket comes out of the
    [transform_references] of sync_amplifier_core.py as it went in, and a
    content without an at sign out of the one of sync_ddd.py: every pattern
    of the one table starts with the bracket, every pattern of the other
    with the at sign. *)
Theorem plain_text_passes_unchanged (content : string) :
  (has_char "[" content = false ->
   Core.transform_references content = Ok content)
  /\ (has_char "@" content = false ->
      DDD.transform_references content = Ok content).
Proof.
  split; intros H.
  - unfold Core.transform_references.
    apply (sub_each_without "["); [|exact H].
    repeat (constructor; [eexists; eexists; split; vm_compute; reflexivity|]).
    constructor.
  - unfold DDD.transform_references.
    apply (sub_each_without "@"); [|exact H].
    repeat (constructor; [eexists; eexists; split; vm_compute; reflexivity|]).
    constructor.
Qed.

Lemma plain_text_passes_unchanged_witness :
  Core.transform_references Sample.plain_doc = Ok Sample.plain_doc
  /\ DDD.transform_references Sample.readme_doc = Ok Sample.readme_doc.
Proof.
  split.
  - exact (proj1 (plain_text_passes_unchanged Sample.plain_doc) eq_refl).
  - exact (proj2 (plain_text_passes_unchanged Sample.readme_doc) eq_refl).
Defined.

(** ** The name field *)

Lemma match_name_line_miss (accept : string -> bool) (bol : bool) (s : string) :
  bol && Py.startswith s "name:" = false ->
  Re.match_here name_line accept bol s = None.
Proof.
  intros H. unfold name_line. cbn [Re.match_here].
  destruct bol; [|reflexivity]. cbn [andb] in H.
  now apply match_literal_miss.
Qed.

Lemma without_nl_all_any (v : string) :
  has_char Py.nl v = false -> all_chars (Re.cmatch Re.CAny) v = true.
Proof.
  induction v as [|c v IH]; [reflexivity|]. cbn [has_char all_chars].
  intros H. apply orb_false_iff in H as [Hc Hv].
  rewrite (IH Hv), andb_true_r. cbn [Re.cmatch].
  now rewrite Ascii.eqb_sym, Hc.
Qed.

(** The match at a name line: the white space after the colon, line
    feeds included, and then the rest of the line it ends in. *)
Lemma match_name_line (ws v tail : string) :
  all_chars Py.is_space ws = true ->
  has_char Py.nl v = false ->
  head_is Py.is_space (v +:+ tail) = false ->
  Re.at_line_end tail = true ->
  Re.match_here name_line Re.any_rest true ("name:" +:+ ws +:+ v +:+ tail)
  = Some ([], tail).
Proof.
  intros Hws Hv Hh Ht. unfold name_line.
  change (Re.match_here (Re.LineStart :: ?re) ?a true ?s)
    with (Re.match_here re a true s).
  rewrite match_literal_app. cbn [Re.match_here].
  rewrite (greedy_longest Re.CSpace _ _ "" ws (v +:+ tail) ([], tail) Hws Hh);
    [reflexivity|].
  cbn [Re.match_here].
  rewrite (greedy_longest Re.CAny _ _ "" v tail ([], tail));
    [reflexivity | now apply without_nl_all_any | |].
  - destruct tail as [|c tail]; [reflexivity|].
    cbn [Re.at_line_end] in Ht. cbn [head_is Re.cmatch]. now rewrite Ht.
  - cbn [Re.match_here]. now rewrite Ht.
Qed.

Lemma scan_without_name_line (tpl : list Re.piece) (bol : bool) (s : string) :
  no_name_line bol s = true ->
  Re.sub_scan name_line tpl 0 bol s = s.
Proof.
  revert bol. induction s as [|c s IH]; intros bol H.
  - cbn [Re.sub_scan]. now rewrite match_name_line_miss by apply andb_false_r.
  - cbn [no_name_line] in H. apply andb_true_iff in H as [Hc Hs].
    apply negb_true_iff in Hc.
    cbn [Re.sub_scan]. rewrite (match_name_line_miss _ _ _ Hc).
    now rewrite (IH _ Hs).
Qed.

(** A text that ends a line cannot stop inside a word put after it. *)
Lemma startswith_app_false (p a x : string) (b : bool) :
  has_char Py.nl p = false -> bol_after b a = true -> a <> EmptyString ->
  Py.startswith a p = false -> Py.startswith (a +:+ x) p = false.
Proof.
  revert a b. induction p as [|y p IH]; intros a b Hp Ha Hne H;
    [discriminate|].
  destruct a as [|c a]; [congruence|]. sapp.
  cbn [Py.startswith] in H |- *. cbn [has_char] in Hp.
  apply orb_false_iff in Hp as [Hy Hp].
  destruct (Ascii.eqb_spec y c) as [->|]; [|reflexivity].
  cbn [andb] in H |- *. cbn [bol_after] in Ha.
  assert (Hc : Re.is_nl c = false).
  { unfold Re.is_nl. now rewrite Ascii.eqb_sym. }
  rewrite Hc in Ha.
  apply (IH a false Hp Ha); [|exact H].
  intros ->. discriminate Ha.
Qed.

Lemma scan_before_name_line (tpl : list Re.piece) (bol : bool)
    (head x : string) :
  no_name_line bol head = true -> bol_after bol head = true ->
  Re.sub_scan name_line tpl 0 bol (head +:+ x)
  = head +:+ Re.sub_scan name_line tpl 0 true x.
Proof.
  revert bol. induction head as [|c head IH]; intros bol H Hb.
  - cbn [bol_after] in Hb. now subst bol.
  - cbn [no_name_line] in H. apply andb_true_iff in H as [Hc Hs].
    apply negb_true_iff in Hc. sapp. cbn [Re.sub_scan].
    rewrite match_name_line_miss.
    + cbn [bol_after] in Hb. now rewrite (IH _ Hs Hb).
    + destruct bol; [|reflexivity]. cbn [andb] in Hc |- *.
      change (String c (head +:+ x)) with (String c head +:+ x).
      now apply (startswith_app_false _ _ _ true).
Qed.

Lemma read_template_verbatim (fuel ngroups : nat) (repl : string) :
  has_char "\" repl = false -> String.length repl <= fuel ->
  Re.read_template fuel ngroups repl = Some (verbatim repl).
Proof.
  revert fuel. induction repl as [|c repl IH]; intros fuel H Hf.
  - now destruct fuel.
  - destruct fuel as [|fuel]; [cbn in Hf; lia|].
    cbn [has_char] in H. apply orb_false_iff in H as [Hc Hr].
    cbn [Re.read_template]. rewrite Ascii.eqb_sym, Hc. cbn [negb].
    rewrite (IH fuel Hr) by (cbn in Hf; lia). reflexivity.
Qed.

Lemma sub_name_line (new_name fm : string) :
  has_char "\" new_name = false ->
  Re.sub true "^name:\s*.*$" ("name: " +:+ new_name) fm
  = Ok (Re.sub_scan name_line (verbatim ("name: " +:+ new_name)) 0 true fm).
Proof.
  intros H. unfold Re.sub.
  change (Re.compile true "^name:\s*.*$") with (Some name_line).
  change (Re.groups name_line) with 0.
  unfold Re.parse_template. now rewrite read_template_verbatim.
Qed.

Lemma update_frontmatter_name_block (content fm body new_name : string) :
  frontmatter_of content fm body ->
  DDD.update_frontmatter_name content new_name
  = match Re.sub true "^name:\s*.*$" ("name: " +:+ new_name) fm with
    | Raise e => Raise e
    | Ok fm' => Ok ("---" +:+ fm' +:+ "---" +:+ body)
    end.
Proof.
  intros H. destruct (find_of_frontmatter _ _ _ H) as [S F].
  unfold DDD.update_frontmatter_name. rewrite S, (split_dashes _ S), F.
  reflexivity.
Qed.

(** X9. With a new name that holds no backslash,
    [update_frontmatter_name] does not raise on a content with a
    frontmatter block: it returns the content with its frontmatter
    rewritten and everything from the closing delimiter on as it was; and
    a frontmatter none of whose lines starts with [name:] is not changed
    either. *)
Theorem update_frontmatter_name_keeps_the_rest
    (content fm body new_name : string) :
  has_char "\" new_name = false ->
  frontmatter_of content fm body ->
  exists fm',
    DDD.update_frontmatter_name content new_name
    = Ok ("---" +:+ fm' +:+ "---" +:+ body)
    /\ (no_name_line true fm = true -> fm' = fm).
Proof.
  intros Hn Hf. rewrite (update_frontmatter_name_block _ _ _ _ Hf).
  rewrite (sub_name_line _ _ Hn). eexists. split; [reflexivity|].
  apply scan_without_name_line.
Qed.

(** X10. The rewrite of the one name line of a frontmatter. The line
    starts with [name:]; [ws] is the white space after the colon, [v] what
    follows on the line where that white space ends, [tail] the lines after
    it. The result has [name: ] and the new name in place of [name:], [ws]
    and [v], and nothing else is changed. [\s*] takes line feeds too: when
    the value of the field is empty, [ws] holds the end of the line and [v]
    is the next line, which is lost. *)
Theorem update_frontmatter_name_sets_name
    (content head ws v tail body new_name : string) :
  has_char "\" new_name = false ->
  frontmatter_of content (head +:+ "name:" +:+ ws +:+ v +:+ tail) body ->
  no_name_line true head = true -> bol_after true head = true ->
  all_chars Py.is_space ws = true ->
  has_char Py.nl v = false ->
  head_is Py.is_space (v +:+ tail) = false ->
  Re.at_line_end tail = true ->
  no_name_line true tail = true ->
  DDD.update_frontmatter_name content new_name
  = Ok ("---" +:+ head +:+ "name: " +:+ new_name +:+ tail +:+ "---" +:+ body).
Proof.
  intros Hn Hf Hh Hb Hws Hv Hs He Ht.
  rewrite (update_frontmatter_name_block _ _ _ _ Hf), (sub_name_line _ _ Hn).
  rewrite (scan_before_name_line _ _ _ _ Hh Hb).
  pose proof (match_name_line ws v tail Hws Hv Hs He) as Hm.
  replace ("name:" +:+ ws +:+ v +:+ tail)
    with (String "n" ("ame:" +:+ ws +:+ v) +:+ tail) in Hm |- *
    by (now snorm).
  rewrite (sub_scan_hit _ _ _ _ _ _ _ Hm), expand_verbatim.
  assert (Ht' : forall b, no_name_line b tail = true).
  { intros [|]; [exact Ht|]. destruct tail as [|c tail]; [reflexivity|].
    cbn [no_name_line] in Ht |- *.
    apply andb_true_iff in Ht as [_ Ht]. now rewrite Ht. }
  rewrite (scan_without_name_line _ _ _ (Ht' _)).
  now snorm.
Qed.

Lemma update_frontmatter_name_keeps_the_rest_witness :
  has_char "\" "ddd-1-plan" = false
  /\ DDD.update_frontmatter_name Sample.untitled_doc "ddd-1-plan"
     = Ok Sample.untitled_doc.
Proof.
  split; [reflexivity|].
  destruct (update_frontmatter_name_keeps_the_rest Sample.untitled_doc
              "
title: Notes
" "
Body
" "ddd-1-plan" eq_refl
              (frontmatter_of_find Sample.untitled_doc _ _ eq_refl eq_refl))
    as (fm' & E & Hk).
  rewrite (Hk eq_refl) in E. exact E.
Defined.

Lemma update_frontmatter_name_sets_name_witness :
  DDD.update_frontmatter_name Sample.agent_doc "ddd-1-plan"
  = Ok "---
name: ddd-1-plan
description: Plans with @ddd:context/guide.md
---

Read @foundation:IMPLEMENTATION_PHILOSOPHY.md first.
"
  /\ DDD.update_frontmatter_name Sample.unnamed_doc "ddd-1-plan"
     = Ok "---
name: ddd-1-plan
---
Body
".
Proof.
  split.
  - exact (update_frontmatter_name_sets_name Sample.agent_doc "
" " " "planning-architect" "
description: Plans with @ddd:context/guide.md
" "

Read @foundation:IMPLEMENTATION_PHILOSOPHY.md first.
" "ddd-1-plan" eq_refl (frontmatter_of_find Sample.agent_doc _ _ eq_refl eq_refl)
             eq_refl eq_refl eq_refl eq_refl eq_refl eq_refl eq_refl).
  - exact (update_frontmatter_name_sets_name Sample.unnamed_doc "
" "
" "description: Plans" "
" "
Body
" "ddd-1-plan" eq_refl (frontmatter_of_find Sample.unnamed_doc _ _ eq_refl eq_refl)
             eq_refl eq_refl eq_refl eq_refl eq_refl eq_refl eq_refl).
Defined.

Lemma startswith_long (p u b : string) :
  String.length p <= String.length u ->
  Py.startswith (u +:+ b) p = Py.startswith u p.
Proof.
  revert u. induction p as [|y p IH]; intros u H; [reflexivity|].
  destruct u as [|c u]; [cbn in H; lia|]. sapp. cbn [Py.startswith].
  rewrite IH by (cbn in H; lia). reflexivity.
Qed.

(** Where the first delimiter is does not depend on what follows it. *)
Lemma find_split_body (sep a b b' : string) :
  Py.find_split sep (a +:+ sep +:+ b) = Some (a, b) ->
  Py.find_split sep (a +:+ sep +:+ b') = Some (a, b').
Proof.
  induction a as [|c a IH]; sapp.
  - intros _. destruct sep as [|y sep].
    + now destruct b'.
    + change (Py.find_split (String y sep) (String y sep +:+ b'))
        with (if Py.startswith (String y sep +:+ b') (String y sep)
              then Some (EmptyString,
                         Py.drop (String.length (String y sep))
                           (String y sep +:+ b'))
              else match Py.find_split (String y sep) (sep +:+ b') with
                   | Some (before, after) => Some (String y before, after)
                   | None => None
                   end).
      now rewrite startswith_append, drop_append.
  - cbn [Py.find_split].
    rewrite <- !append_cons, <- !append_assoc.
    rewrite !(startswith_long sep (String c a +:+ sep))
      by (rewrite length_append; cbn; lia).
    rewrite !append_assoc, !append_cons.
    destruct (Py.startswith (String c (a +:+ sep)) sep); [discriminate|].
    destruct (Py.find_split sep (a +:+ sep +:+ b)) as [[x y]|] eqn:E;
      [|discriminate].
    intros [= -> ->]. now rewrite (IH eq_refl).
Qed.

Lemma frontmatter_of_body (content fm body body' : string) :
  frontmatter_of content fm body ->
  frontmatter_of ("---" +:+ fm +:+ "---" +:+ body') fm body'.
Proof.
  intros H. destruct (find_of_frontmatter _ _ _ H) as [S F].
  destruct H as [E _]. subst content.
  apply frontmatter_of_find; [reflexivity|].
  change (Py.drop 3 ("---" +:+ ?x)) with x in F |- *.
  now apply (find_split_body _ _ body).
Qed.

(** X11. The two steps of the batch conversion in a row. On a content
    with a frontmatter block, the name is set in the block that
    [inject_credit] left in place: the frontmatter is rewritten as it is
    without the banner, the banner stays below the block and the body
    below the banner. On a content without a block, the banner comes first
    and no name is set. *)
Theorem credit_then_name (content new_name : string) :
  (forall fm body,
     frontmatter_of content fm body ->
     has_char "\" new_name = false ->
     exists fm',
       DDD.update_frontmatter_name content new_name
       = Ok ("---" +:+ fm' +:+ "---" +:+ body)
       /\ DDD.update_frontmatter_name (DDD.inject_credit content) new_name
          = Ok ("---" +:+ fm' +:+ "---" +:+ blank_line
                +:+ DDD.CREDIT_COMMENT +:+ Py.lstrip body))
  /\ (~ has_frontmatter content ->
      DDD.update_frontmatter_name (DDD.inject_credit content) new_name
      = Ok (DDD.CREDIT_COMMENT +:+ content)).
Proof.
  split.
  - intros fm body Hf Hn.
    rewrite (ddd_inject_credit_block _ _ _ Hf).
    rewrite (update_frontmatter_name_block _ _ _ _ Hf).
    rewrite (update_frontmatter_name_block _ fm
               (blank_line +:+ DDD.CREDIT_COMMENT +:+ Py.lstrip body))
      by (apply (frontmatter_of_body content _ body), Hf).
    rewrite (sub_name_line _ _ Hn). eexists. split; reflexivity.
  - intros N. rewrite (ddd_inject_credit_plain _ N). reflexivity.
Qed.

Lemma credit_then_name_witness :
  (exists fm',
     DDD.update_frontmatter_name Sample.agent_doc "ddd-1-plan"
     = Ok ("---" +:+ fm' +:+ "---" +:+ "

Read @foundation:IMPLEMENTATION_PHILOSOPHY.md first.
")
     /\ DDD.update_frontmatter_name (DDD.inject_credit Sample.agent_doc)
          "ddd-1-plan"
        = Ok ("---" +:+ fm' +:+ "---" +:+ blank_line +:+ DDD.CREDIT_COMMENT
              +:+ "Read @foundation:IMPLEMENTATION_PHILOSOPHY.md first.
"))
  /\ DDD.update_frontmatter_name (DDD.inject_credit Sample.plain_doc)
       "ddd-1-plan"
     = Ok (DDD.CREDIT_COMMENT +:+ Sample.plain_doc).
Proof.
  destruct (credit_then_name Sample.agent_doc "ddd-1-plan") as [H1 _].
  destruct (credit_then_name Sample.plain_doc "ddd-1-plan") as [_ H2].
  split.
  - exact (H1 _ _ (frontmatter_of_find Sample.agent_doc _ _ eq_refl eq_refl)
             eq_refl).
  - apply H2. intros (fm & body & E). unfold Sample.plain_doc in E. sapp.
    discriminate E.
Defined.

(** ** What the assemblers of one file write *)

Lemma writer_ret_apply (would done : string) (target : Path)
    (content : string) (t : Tree) :
  (forall q c, q `prefix_of` parent target -> node_at t q <> Some (File c)) ->
  node_at t target <> Some Dir ->
  let o := (writer would done false target content;; mret target) t in
  result o = Ok target
  /\ node_at (tree o) target = Some (File content)
  /\ writes (events o) = [(target, content)]
  /\ printed (events o) = [done +:+ path_str target]
  /\ (forall q, ~ q `prefix_of` target -> node_at (tree o) q = node_at t q).
Proof.
  intros Hf Hd. cbv zeta. rewrite bind_at.
  pose proof (writer_frame would done target content t) as Fr.
  destruct (writer_apply would done target content t)
    as (t1 & ev1 & G & [Ep Ew] & [(Ro & Nr & Et & Ev) | (e & Ro & _)] & Hr);
    [|rewrite (Hr Hf Hd) in Ro; discriminate Ro].
  rewrite Ro. unfold mret, M_ret, ret. cbn [prepend result tree events].
  rewrite app_nil_r, Ev, writes_app, printed_app, Ew, Ep.
  split; [reflexivity|]. split; [|split; [reflexivity|split; [reflexivity|]]].
  - rewrite Et, node_at_insert by exact Nr. now rewrite decide_True.
  - exact Fr.
Qed.

(** X12. [sync_philosophy], applying, from a tree that holds
    DESIGN_PHILOSOPHY.md as a file and lets the target be written: it
    returns the target; the file there holds the fixed frontmatter, the
    banner and the source with its links rewritten, in this order (a
    frontmatter of the source itself is not looked for); this is the one
    write, reported by one line; and nothing off the way to the target has
    changed. *)
Theorem sync_philosophy_writes (PLUGIN_ROOT source_dir : Path) (t : Tree)
    (source : string) :
  let target :=
    PLUGIN_ROOT </> "skills" </> "amplifier-philosophy" </> "SKILL.md" in
  let content :=
    Core.PHILOSOPHY_FRONTMATTER +:+ Core.CREDIT_COMMENT
    +:+ core_transformed source in
  node_at t (source_dir </> "docs" </> "DESIGN_PHILOSOPHY.md")
  = Some (File source) ->
  (forall q c, q `prefix_of` parent target -> node_at t q <> Some (File c)) ->
  node_at t target <> Some Dir ->
  let o := Core.sync_philosophy PLUGIN_ROOT source_dir false t in
  result o = Ok target
  /\ node_at (tree o) target = Some (File content)
  /\ writes (events o) = [(target, content)]
  /\ printed (events o) = ["  Updated: " +:+ path_str target]
  /\ (forall q, ~ q `prefix_of` target -> node_at (tree o) q = node_at t q).
Proof.
  intros target content Hs Hf Hd. cbv zeta.
  rewrite sync_philosophy_split, bind_at, gather_philosophy_at, Hs,
    core_transform_ok.
  cbn [result tree events]. rewrite prepend_nil.
  exact (writer_ret_apply _ _ _ _ _ Hf Hd).
Qed.

(** X13. [generate_skill_md], applying, where its target can be
    written: the file holds the template as it is, with no banner and no
    rewriting, in place of what was there; this is the one write, reported
    by one line; and nothing off the way to the target has changed. *)
Theorem generate_skill_md_writes (PLUGIN_ROOT : Path) (t : Tree) :
  let skill_path := PLUGIN_ROOT </> "skills" </> "ddd-guide" </> "SKILL.md" in
  (forall q c, q `prefix_of` parent skill_path ->
               node_at t q <> Some (File c)) ->
  node_at t skill_path <> Some Dir ->
  let o := DDD.generate_skill_md PLUGIN_ROOT false t in
  result o = Ok skill_path
  /\ node_at (tree o) skill_path = Some (File DDD.SKILL_MD_TEMPLATE)
  /\ writes (events o) = [(skill_path, DDD.SKILL_MD_TEMPLATE)]
  /\ printed (events o) = ["  Created: " +:+ path_str skill_path]
  /\ (forall q, ~ q `prefix_of` skill_path ->
                node_at (tree o) q = node_at t q).
Proof.
  intros skill_path Hf Hd.
  exact (writer_ret_apply "  [DRY-RUN] Would create: " "  Created: "
           skill_path DDD.SKILL_MD_TEMPLATE t Hf Hd).
Qed.

Lemma sync_philosophy_writes_witness :
  node_at Sample.core_tree
    (Sample.core_clone </> "docs" </> "DESIGN_PHILOSOPHY.md")
  = Some (File Sample.plain_doc)
  /\ result (Core.sync_philosophy Sample.plugin Sample.core_clone false
               Sample.core_tree)
     = Ok (Sample.plugin </> "skills" </> "amplifier-philosophy" </> "SKILL.md")
  /\ node_at
       (tree (Core.sync_philosophy Sample.plugin Sample.core_clone false
                Sample.core_tree))
       (Sample.plugin </> "skills" </> "amplifier-philosophy" </> "SKILL.md")
     = Some (File (Core.PHILOSOPHY_FRONTMATTER +:+ Core.CREDIT_COMMENT
                   +:+ core_transformed Sample.plain_doc)).
Proof.
  assert (H1 : node_at Sample.core_tree
                 (Sample.core_clone </> "docs" </> "DESIGN_PHILOSOPHY.md")
               = Some (File Sample.plain_doc)) by reflexivity.
  assert (H2 : forall q c,
             q `prefix_of`
               parent (Sample.plugin </> "skills" </> "amplifier-philosophy"
                       </> "SKILL.md") ->
             node_at Sample.core_tree q <> Some (File c))
    by (apply clear_way_spec; reflexivity).
  assert (H3 : node_at Sample.core_tree
                 (Sample.plugin </> "skills" </> "amplifier-philosophy"
                  </> "SKILL.md") <> Some Dir)
    by (vm_compute; discriminate).
  destruct (sync_philosophy_writes Sample.plugin Sample.core_clone
              Sample.core_tree Sample.plain_doc H1 H2 H3) as (R & N & _).
  split; [exact H1|]. split; [exact R | exact N].
Defined.

Lemma generate_skill_md_writes_witness :
  result (DDD.generate_skill_md Sample.plugin false Sample.bare_tree)
  = Ok (Sample.plugin </> "skills" </> "ddd-guide" </> "SKILL.md")
  /\ node_at (tree (DDD.generate_skill_md Sample.plugin false Sample.bare_tree))
       (Sample.plugin </> "skills" </> "ddd-guide" </> "SKILL.md")
     = Some (File DDD.SKILL_MD_TEMPLATE).
Proof.
  assert (H2 : forall q c,
             q `prefix_of`
               parent (Sample.plugin </> "skills" </> "ddd-guide"
                       </> "SKILL.md") ->
             node_at Sample.bare_tree q <> Some (File c))
    by (apply clear_way_spec; reflexivity).
  assert (H3 : node_at Sample.bare_tree
                 (Sample.plugin </> "skills" </> "ddd-guide" </> "SKILL.md")
               <> Some Dir)
    by (vm_compute; discriminate).
  destruct (generate_skill_md_writes Sample.plugin Sample.bare_tree H2 H3)
    as (R & N & _).
  split; [exact R | exact N].
Defined.

(** ** A second run *)

(** After the Writer has written, its target is a file in a directory. *)
Lemma writer_leaves (would done : string) (target : Path) (content : string)
    (t : Tree) :
  let o := writer would done false target content t in
  result o = Ok tt ->
  target <> []
  /\ node_at (tree o) (parent target) = Some Dir
  /\ node_at (tree o) target = Some (File content).
Proof.
  cbv zeta. unfold writer, mkdir. rewrite bind_at.
  destruct (mkdir_parents_spec (length (parent target)) (parent target) t)
    as (_ & _ & D & _).
  set (o1 := mkdir_parents (length (parent target)) (parent target) t) in *.
  destruct (result o1) as [[]|e] eqn:R1; [|discriminate].
  specialize (D eq_refl). rewrite bind_at, write_text_at, D.
  destruct (node_at (tree o1) target) as [[c|]|] eqn:Nt;
    cbn [result tree events prepend print]; [|discriminate|]; intros _.
  all: assert (Hneq : target <> parent target)
      by (intros Eq; rewrite <- Eq in D; congruence).
  all: assert (Nr : target <> []) by (intros ->; now apply Hneq).
  all: split; [exact Nr|].
  all: rewrite !node_at_insert by exact Nr.
  all: destruct (decide (target = parent target)); [contradiction|].
  all: destruct (decide (target = target)); [|contradiction].
  all: now split.
Qed.

(** Writing again what is there changes nothing. *)
Lemma writer_again (would done : string) (target : Path) (content : string)
    (t : Tree) :
  target <> [] ->
  node_at t (parent target) = Some Dir ->
  node_at t target = Some (File content) ->
  writer would done false target content t
  = mkOutcome (Ok tt) t
      [Wrote target content; Printed (done +:+ path_str target)].
Proof.
  intros Nr Hp Ht. unfold writer, mkdir.
  rewrite bind_at, mkdir_parents_at, Hp. cbn [result tree events].
  rewrite prepend_nil, bind_at, write_text_at, Ht, Hp.
  rewrite insert_id by (destruct target; [congruence | exact Ht]).
  reflexivity.
Qed.

Lemma read_then_write_settles (pre : M string) (would done : string)
    (target : Path) (f : M Path) (t : Tree) :
  (forall t', f t' = (pre ≫= fun content =>
                        writer would done false target content;;
                        mret target) t') ->
  (forall t', tree (pre t') = t' /\ quiet (events (pre t'))) ->
  (forall content,
     result (pre (tree (writer would done false target content t)))
     = result (pre t)) ->
  settles f t.
Proof.
  intros Hf Hq Hl v Hv. cbv zeta.
  assert (E1 : exists content,
             result (pre t) = Ok content
             /\ result (writer would done false target content t) = Ok tt
             /\ tree (f t) = tree (writer would done false target content t)
             /\ writes (events (f t)) = [(target, content)]
             /\ v = target).
  { revert Hv. rewrite Hf, bind_at.
    destruct (Hq t) as [Et (_ & Qw & _)].
    destruct (result (pre t)) as [content|e] eqn:Rp; [|discriminate].
    rewrite Et, bind_at. cbn [prepend result tree events].
    destruct (writer_apply would done target content t)
      as (t1 & ev1 & _ & [Ep Ew] & [(Ro & _ & _ & Ev) | (e & Ro & _)] & _);
      rewrite Ro; [|discriminate].
    unfold mret, M_ret, ret. cbn [prepend result tree events].
    intros [= <-]. exists content.
    rewrite !writes_app, Qw, Ev, writes_app, Ew. now repeat split. }
  destruct E1 as (content & Rp & Ro & Et & Ew & ->).
  destruct (writer_leaves would done target content t Ro) as (Nr & Hp & Ht).
  rewrite Ew, Et. specialize (Hl content).
  set (t2 := tree (writer would done false target content t)) in *.
  destruct (Hq t2) as [Et2 (Qm2 & Qw2 & _)].
  rewrite Hf, bind_at, Hl, Rp, Et2, bind_at, (writer_again _ _ _ _ _ Nr Hp Ht).
  unfold mret, M_ret, ret. cbn [prepend result tree events].
  rewrite !made_dirs_app, !writes_app, Qm2, Qw2.
  repeat split.
Qed.

Lemma merge_contracts_local (S contracts_dir : Path) (files sections : list string)
    (t t' : Tree) :
  S `prefix_of` contracts_dir -> agree S t t' ->
  result (Core.merge_contracts contracts_dir files sections t')
  = result (Core.merge_contracts contracts_dir files sections t).
Proof.
  intros Hs Hag. revert sections.
  induction files as [|file files IH]; intros sections; [reflexivity|].
  cbn [Core.merge_contracts]. rewrite !exists_bind.
  rewrite (Hag (contracts_dir </> file))
    by (unfold child; now apply prefix_app_r).
  destruct (node_at t (contracts_dir </> file)) as [[source|]|] eqn:N.
  - assert (N' : node_at t' (contracts_dir </> file) = Some (File source))
      by (rewrite Hag; [exact N | unfold child; now apply prefix_app_r]).
    rewrite (read_bind_file _ _ _ _ N), (read_bind_file _ _ _ _ N').
    destruct (Core.transform_references source) as [text|e];
      [rewrite !lift_bind; apply IH | reflexivity].
  - assert (N' : node_at t' (contracts_dir </> file) = Some Dir)
      by (rewrite Hag; [exact N | unfold child; now apply prefix_app_r]).
    now rewrite (read_bind_dir _ _ _ N), (read_bind_dir _ _ _ N').
  - rewrite !print_bind. cbn [prepend result]. apply IH.
Qed.

Lemma gather_philosophy_local (source_dir : Path) (t t' : Tree) :
  agree source_dir t t' ->
  result (gather_philosophy source_dir t')
  = result (gather_philosophy source_dir t).
Proof.
  intros Hag. rewrite !gather_philosophy_at. cbn [result].
  rewrite Hag; [reflexivity|].
  unfold child. rewrite <- !app_assoc. now apply prefix_app_r.
Qed.

Lemma gather_module_development_local (source_dir : Path) (t t' : Tree) :
  agree source_dir t t' ->
  result (gather_module_development source_dir t')
  = result (gather_module_development source_dir t).
Proof.
  intros Hag.
  assert (Hin : forall rel, node_at t' (source_dir ++ rel)
                            = node_at t (source_dir ++ rel))
    by (intros rel; apply Hag; now apply prefix_app_r).
  unfold gather_module_development. rewrite !exists_bind.
  pose proof (Hin ["docs"; "contracts"]) as H1.
  pose proof (Hin ["docs"; "contracts"; "README.md"]) as H2.
  pose proof (Hin ["docs"; "MODULE_SOURCE_PROTOCOL.md"]) as H3.
  unfold child. rewrite <- !app_assoc. cbn [app].
  rewrite H1.
  destruct (node_at t (source_dir ++ ["docs"; "contracts"])); [|reflexivity].
  cbn [negb]. rewrite !exists_bind, H2.
  destruct (node_at t (source_dir ++ ["docs"; "contracts"; "README.md"]))
    as [[readme|]|] eqn:Nr; cbn [negb]; [| |reflexivity].
  - rewrite (read_bind_file _ _ _ _ Nr), (read_bind_file _ _ _ _ H2).
    destruct (Core.transform_references readme) as [text|e]; [|reflexivity].
    rewrite !lift_bind, !bind_at.
    rewrite (merge_contracts_local source_dir _ _ _ t t')
      by (try exact Hag; now apply prefix_app_r).
    destruct (merge_contracts_quiet (source_dir ++ ["docs"; "contracts"])
                Core.CONTRACT_FILES [text] t) as [Et _].
    destruct (merge_contracts_quiet (source_dir ++ ["docs"; "contracts"])
                Core.CONTRACT_FILES [text] t') as [Et' _].
    destruct (result (Core.merge_contracts _ _ _ t)) as [sections|e];
      [|reflexivity].
    rewrite Et, Et'. cbn [prepend result]. rewrite !exists_bind, H3.
    destruct (node_at t (source_dir ++ ["docs"; "MODULE_SOURCE_PROTOCOL.md"]))
      as [[msp|]|] eqn:Nm.
    + rewrite !bind_assoc_at, (read_bind_file _ _ _ _ Nm),
        (read_bind_file _ _ _ _ H3), !bind_assoc_at.
      destruct (Core.transform_references msp) as [text'|e]; reflexivity.
    + now rewrite !bind_assoc_at, (read_bind_dir _ _ _ Nm),
        (read_bind_dir _ _ _ H3).
    + rewrite !bind_assoc_at, !print_bind. reflexivity.
  - now rewrite (read_bind_dir _ _ _ Nr), (read_bind_dir _ _ _ H2).
Qed.

(** X14. The three assemblers that write one file can be run again:
    when an applying run returns, a second applying run from the tree it
    left returns the same path and writes the same content to it, makes no
    directory and leaves the tree as it found it. The clone and the plugin
    lie apart. *)
Theorem single_file_syncs_settle (PLUGIN_ROOT source_dir : Path) (t : Tree) :
  apart source_dir PLUGIN_ROOT ->
  settles (Core.sync_philosophy PLUGIN_ROOT source_dir false) t
  /\ settles (Core.sync_module_development PLUGIN_ROOT source_dir false) t
  /\ settles (DDD.generate_skill_md PLUGIN_ROOT false) t.
Proof.
  intros Ha.
  assert (Hag : forall would done rest content,
            agree source_dir t
              (tree (writer would done false (PLUGIN_ROOT ++ rest) content t))).
  { intros would done rest content.
    apply (writer_agree _ _ source_dir PLUGIN_ROOT); [exact Ha | | apply agree_refl].
    now apply prefix_app_r. }
  split; [|split].
  - apply (read_then_write_settles (gather_philosophy source_dir)
             "  [DRY-RUN] Would update: " "  Updated: "
             (PLUGIN_ROOT </> "skills" </> "amplifier-philosophy" </> "SKILL.md")).
    + intros t'. apply sync_philosophy_split.
    + intros t'. rewrite gather_philosophy_at. split; [reflexivity | apply quiet_nil].
    + intros content. apply gather_philosophy_local.
      unfold child. rewrite <- !app_assoc. apply Hag.
  - apply (read_then_write_settles (gather_module_development source_dir)
             "  [DRY-RUN] Would update: " "  Updated: "
             (PLUGIN_ROOT </> "skills" </> "module-development" </> "SKILL.md")).
    + intros t'. apply sync_module_development_split.
    + intros t'. apply gather_module_development_quiet.
    + intros content. apply gather_module_development_local.
      unfold child. rewrite <- !app_assoc. apply Hag.
  - apply (read_then_write_settles (mret DDD.SKILL_MD_TEMPLATE)
             "  [DRY-RUN] Would create: " "  Created: "
             (PLUGIN_ROOT </> "skills" </> "ddd-guide" </> "SKILL.md")).
    + intros t'. now rewrite ret_bind.
    + intros t'. split; [reflexivity | apply quiet_nil].
    + reflexivity.
Qed.

Lemma single_file_syncs_settle_witness :
  apart Sample.core_clone Sample.plugin
  /\ result (Core.sync_philosophy Sample.plugin Sample.core_clone false
               Sample.core_tree)
     = Ok (Sample.plugin </> "skills" </> "amplifier-philosophy" </> "SKILL.md")
  /\ settles (Core.sync_philosophy Sample.plugin Sample.core_clone false)
       Sample.core_tree
  /\ settles (Core.sync_module_development Sample.plugin Sample.core_clone false)
       Sample.core_tree
  /\ settles (DDD.generate_skill_md Sample.plugin false) Sample.core_tree.
Proof.
  split; [exact sample_apart_core|]. split; [vm_compute; reflexivity|].
  exact (single_file_syncs_settle Sample.plugin Sample.core_clone
           Sample.core_tree sample_apart_core).
Defined.

(** ** The runs of [main] *)

Lemma convert_agents_agree (PLUGIN_ROOT source_dir : Path) (dry_run : bool)
    (t : Tree) :
  apart source_dir PLUGIN_ROOT ->
  agree source_dir t
    (tree (DDD.convert_agents_to_commands PLUGIN_ROOT source_dir dry_run t)).
Proof.
  intros Ha q Hq. rewrite convert_agents_at.
  destruct (node_at t (source_dir </> "agents")); [|reflexivity].
  destruct dry_run.
  - now rewrite (proj1 (write_each_dry _ _ _
                          (prepare_agent_readonly source_dir PLUGIN_ROOT)
                          _ _ t)).
  - apply (write_each_frame _ _ _ _
             (prepare_agent_readonly source_dir PLUGIN_ROOT)
             (prepare_agent_targets source_dir PLUGIN_ROOT)).
    intros x _ Hp. apply (apart_prefix _ _ _ _ Ha Hq Hp).
    unfold child. rewrite <- !app_assoc. now apply prefix_app_r.
Qed.

(** X15. [main] of sync_ddd.py without one of the two directories of
    the clone. Without agents/, it ends at the first step with
    FileNotFoundError and exit status 1, from a tree it has not touched.
    Without context/, it ends with exit status 1; when the conversion of
    the agents has returned, the run raises FileNotFoundError for context/
    at the second step, the commands the first step wrote stay and are its
    only writes, and SKILL.md is not generated. *)
Theorem ddd_missing_directory_aborts (PLUGIN_ROOT source_dir : Path)
    (dry_run : bool) (t : Tree) :
  apart source_dir PLUGIN_ROOT ->
  let run := DDD.main_after_clone PLUGIN_ROOT source_dir dry_run t in
  let converted :=
    DDD.convert_agents_to_commands PLUGIN_ROOT source_dir dry_run t in
  (node_at t (source_dir </> "agents") = None ->
   result run
   = Raise (FileNotFoundError
              ("agents directory not found: "
               +:+ path_str (source_dir </> "agents")))
   /\ exit_status (result run) = 1
   /\ tree run = t
   /\ writes (events run) = [])
  /\ (node_at t (source_dir </> "context") = None ->
      exit_status (result run) = 1
      /\ forall v, result converted = Ok v ->
           result run
           = Raise (FileNotFoundError
                      ("context directory not found: "
                       +:+ path_str (source_dir </> "context")))
           /\ tree run = tree converted
           /\ writes (events run) = writes (events converted)).
Proof.
  intros Ha. cbv zeta. unfold DDD.main_after_clone. rewrite print_bind.
  split.
  - intros N. rewrite bind_at, convert_agents_at, N. now repeat split.
  - intros N. rewrite bind_at.
    pose proof (convert_agents_agree PLUGIN_ROOT source_dir dry_run t Ha
                  (source_dir </> "context")) as Hag.
    set (o1 := DDD.convert_agents_to_commands PLUGIN_ROOT source_dir dry_run t)
      in *.
    destruct (result o1) as [v1|e] eqn:R1; cbn [prepend result tree events];
      [|split; [reflexivity | discriminate]].
    rewrite print_bind, bind_at, copy_context_at, Hag, N
      by (unfold child; now apply prefix_app_r).
    cbn [prepend result tree events]. split; [reflexivity|].
    intros v _. split; [reflexivity|]. split; [reflexivity|].
    rewrite app_nil_r.
    change (?a :: events o1 ++ [?b]) with ([a] ++ events o1 ++ [b]).
    now rewrite !writes_app, app_nil_r.
Qed.

Lemma ddd_missing_directory_aborts_witness :
  apart Sample.ddd_clone Sample.plugin
  /\ node_at Sample.bare_tree (Sample.ddd_clone </> "agents") = None
  /\ exit_status
       (result (DDD.main_after_clone Sample.plugin Sample.ddd_clone false
                  Sample.bare_tree)) = 1
  /\ tree (DDD.main_after_clone Sample.plugin Sample.ddd_clone false
             Sample.bare_tree) = Sample.bare_tree
  /\ node_at Sample.agents_tree (Sample.ddd_clone </> "context") = None
  /\ result (DDD.main_after_clone Sample.plugin Sample.ddd_clone false
               Sample.agents_tree)
     = Raise (FileNotFoundError
                "context directory not found: /tmp/ddd/context")
  /\ written (events (DDD.main_after_clone Sample.plugin Sample.ddd_clone
                        false Sample.agents_tree))
     = [Sample.plugin </> "commands" </> "ddd-1-plan.md"].
Proof.
  split; [exact sample_apart_ddd|]. split; [reflexivity|].
  destruct (ddd_missing_directory_aborts Sample.plugin Sample.ddd_clone false
              Sample.bare_tree sample_apart_ddd) as [H _].
  destruct (H eq_refl) as (_ & E & T & _).
  split; [exact E|]. split; [exact T|]. split; [reflexivity|].
  destruct (ddd_missing_directory_aborts Sample.plugin Sample.ddd_clone false
              Sample.agents_tree sample_apart_ddd) as [_ H2].
  destruct (H2 eq_refl) as [_ F].
  assert (Rc : result (DDD.convert_agents_to_commands Sample.plugin
                         Sample.ddd_clone false Sample.agents_tree)
               = Ok [Sample.plugin </> "commands" </> "ddd-1-plan.md"])
    by (vm_compute; reflexivity).
  destruct (F _ Rc) as (R & _ & W).
  split; [exact R|]. unfold written. rewrite W. vm_compute. reflexivity.
Defined.

Lemma bind_unchanged {A B : Type} (m : M A) (k : A -> M B) (t : Tree) :
  unchanged (m t) t -> (forall a, unchanged (k a t) t) ->
  unchanged ((m ≫= k) t) t.
Proof.
  intros (Et & Em & Ew) Hk. rewrite bind_at.
  destruct (result (m t)) as [a|e]; [|now repeat split].
  destruct (Hk a) as (Et' & Em' & Ew'). rewrite Et.
  unfold unchanged. cbn [prepend tree events].
  now rewrite made_dirs_app, writes_app, Em, Ew, Em', Ew'.
Qed.

Lemma print_unchanged (line : string) (t : Tree) : unchanged (print line t) t.
Proof. now repeat split. Qed.

Lemma faithful_unchanged {A : Type} (paths : A -> list Path) (f : bool -> M A)
    (t : Tree) :
  dry_run_faithful paths f t -> unchanged (f true t) t.
Proof. intros (H1 & H2 & H3 & _). now repeat split. Qed.

Lemma convert_agents_dry (PLUGIN_ROOT source_dir : Path) (t : Tree) :
  unchanged (DDD.convert_agents_to_commands PLUGIN_ROOT source_dir true t) t.
Proof.
  rewrite convert_agents_at.
  destruct (node_at t (source_dir </> "agents")); [|now repeat split].
  apply (write_each_dry _ _ _ (prepare_agent_readonly source_dir PLUGIN_ROOT)).
Qed.

Lemma copy_context_dry (PLUGIN_ROOT source_dir : Path) (t : Tree) :
  unchanged (DDD.copy_context_to_skills PLUGIN_ROOT source_dir true t) t.
Proof.
  rewrite copy_context_at.
  destruct (node_at t (source_dir </> "context")); [|now repeat split].
  apply (write_each_dry _ _ _ (prepare_md_readonly source_dir PLUGIN_ROOT)).
Qed.

Lemma bind_ends_with {A B : Type} (tail : list string) (m : M A)
    (k : A -> M B) (t : Tree) :
  (forall a t', ends_with tail (k a t')) -> ends_with tail ((m ≫= k) t).
Proof.
  intros Hk v. rewrite bind_at.
  destruct (result (m t)) as [a|e]; [|discriminate].
  cbn [prepend result events]. intros R.
  destruct (Hk a _ v R) as [lines E].
  exists (printed (events (m t)) ++ lines).
  now rewrite printed_app, E, app_assoc.
Qed.

Lemma closing_lines (dry_run : bool) (t : Tree) :
  ends_with
    [if dry_run
     then "DRY-RUN complete. No files were modified."
     else "Sync complete!"; Core.rule60]
    ((print ("
" +:+ Core.rule60);;
      (if dry_run
       then print "DRY-RUN complete. No files were modified."
       else print "Sync complete!");;
      print Core.rule60) t).
Proof.
  intros v _. exists ["
" +:+ Core.rule60]. now destruct dry_run.
Qed.

Ltac unchanged_step tac := apply bind_unchanged; [tac | intros ?].

(** X16. Under dry-run, [main] of either script leaves the tree as it
    is, makes no directory and writes no file, from every tree and whether
    it returns or raises; when it returns, the last lines it prints are the
    dry-run notice and the closing rule. *)
Theorem main_dry_run_changes_nothing (PLUGIN_ROOT source_dir : Path)
    (t : Tree) :
  let core := Core.main_after_clone PLUGIN_ROOT source_dir true t in
  let ddd := DDD.main_after_clone PLUGIN_ROOT source_dir true t in
  unchanged core t
  /\ unchanged ddd t
  /\ ends_with ["DRY-RUN complete. No files were modified."; Core.rule60] core
  /\ ends_with ["DRY-RUN complete. No files were modified."; Core.rule60] ddd.
Proof.
  cbv zeta. split; [|split; [|split]].
  - unfold Core.main_after_clone.
    unchanged_step ltac:(apply print_unchanged).
    unchanged_step ltac:(apply (faithful_unchanged _ _ _
               (sync_philosophy_faithful PLUGIN_ROOT source_dir t))).
    unchanged_step ltac:(apply print_unchanged).
    unchanged_step ltac:(apply (faithful_unchanged _ _ _
               (sync_module_development_faithful PLUGIN_ROOT source_dir t))).
    unchanged_step ltac:(apply print_unchanged).
    unchanged_step ltac:(apply print_unchanged).
    apply print_unchanged.
  - unfold DDD.main_after_clone.
    unchanged_step ltac:(apply print_unchanged).
    unchanged_step ltac:(apply convert_agents_dry).
    unchanged_step ltac:(apply print_unchanged).
    unchanged_step ltac:(apply copy_context_dry).
    unchanged_step ltac:(apply print_unchanged).
    unchanged_step ltac:(apply (faithful_unchanged _ _ _
               (generate_skill_md_faithful PLUGIN_ROOT t))).
    unchanged_step ltac:(apply print_unchanged).
    unchanged_step ltac:(apply print_unchanged).
    apply print_unchanged.
  - unfold Core.main_after_clone.
    do 4 (apply bind_ends_with; intros ? ?).
    apply (closing_lines true).
  - unfold DDD.main_after_clone.
    do 6 (apply bind_ends_with; intros ? ?).
    apply (closing_lines true).
Qed.

(** ** A directory where a document is expected *)

Lemma merge_contracts_directory (contracts_dir : Path) (files sections : list string)
    (t : Tree) (file : string) :
  file ∈ files -> node_at t (contracts_dir </> file) = Some Dir ->
  exists p,
    result (Core.merge_contracts contracts_dir files sections t)
    = Raise (IsADirectoryError p)
    /\ p ∈ map (child contracts_dir) files
    /\ node_at t p = Some Dir.
Proof.
  intros Hin Hd. revert sections.
  induction files as [|f files IH]; intros sections;
    [now apply elem_of_nil in Hin|].
  cbn [Core.merge_contracts]. rewrite exists_bind.
  destruct (node_at t (contracts_dir </> f)) as [[source|]|] eqn:N.
  - assert (Hin' : file ∈ files).
    { apply elem_of_cons in Hin as [->|]; [congruence | assumption]. }
    rewrite (read_bind_file _ _ _ _ N), core_transform_ok, lift_bind.
    destruct (IH Hin' (sections ++ ["
---

" +:+ core_transformed source])) as (p & R & Hp & Np).
    exists p. split; [exact R|]. split; [|exact Np].
    cbn [map]. now apply elem_of_cons; right.
  - rewrite (read_bind_dir _ _ _ N). exists (contracts_dir </> f).
    split; [reflexivity|]. split; [|exact N]. cbn [map]. apply elem_of_cons; now left.
  - assert (Hin' : file ∈ files).
    { apply elem_of_cons in Hin as [->|]; [congruence | assumption]. }
    rewrite print_bind. cbn [prepend result].
    destruct (IH Hin' sections) as (p & R & Hp & Np).
    exists p. split; [exact R|]. split; [|exact Np].
    cbn [map]. now apply elem_of_cons; right.
Qed.

(** X17. A directory where a document is expected is not a missing
    document: [exists()] holds for it, and the read then raises. With a
    directory at DESIGN_PHILOSOPHY.md, [sync_philosophy] raises
    IsADirectoryError from a tree it has not touched. With the overview in
    place and a directory at one of the contract paths,
    [sync_module_development] raises IsADirectoryError for such a path
    instead of printing a warning, and changes and writes nothing. *)
Theorem directory_in_place_of_document (PLUGIN_ROOT source_dir : Path)
    (dry_run : bool) (t : Tree) :
  let contracts_dir := source_dir </> "docs" </> "contracts" in
  (node_at t (source_dir </> "docs" </> "DESIGN_PHILOSOPHY.md") = Some Dir ->
   Core.sync_philosophy PLUGIN_ROOT source_dir dry_run t
   = mkOutcome
       (Raise (IsADirectoryError
                 (source_dir </> "docs" </> "DESIGN_PHILOSOPHY.md")))
       t [])
  /\ (forall readme file,
        is_Some (node_at t contracts_dir) ->
        node_at t (contracts_dir </> "README.md") = Some (File readme) ->
        file ∈ Core.CONTRACT_FILES ->
        node_at t (contracts_dir </> file) = Some Dir ->
        let o :=
          Core.sync_module_development PLUGIN_ROOT source_dir dry_run t in
        (exists p,
           result o = Raise (IsADirectoryError p)
           /\ p ∈ map (child contracts_dir) Core.CONTRACT_FILES
           /\ node_at t p = Some Dir)
        /\ tree o = t
        /\ made_dirs (events o) = []
        /\ writes (events o) = []).
Proof.
  cbv zeta. split.
  - intros N. rewrite sync_philosophy_split, bind_at, gather_philosophy_at, N.
    reflexivity.
  - intros readme file [n Nc] Nr Hin Nd.
    rewrite sync_module_development_split, bind_at.
    destruct (gather_module_development_quiet source_dir t)
      as [Et (Qm & Qw & _)].
    assert (R : exists p,
               result (gather_module_development source_dir t)
               = Raise (IsADirectoryError p)
               /\ p ∈ map (child (source_dir </> "docs" </> "contracts"))
                      Core.CONTRACT_FILES
               /\ node_at t p = Some Dir).
    { unfold gather_module_development.
      rewrite exists_bind, Nc. cbn [negb]. rewrite exists_bind, Nr.
      cbn [negb]. rewrite (read_bind_file _ _ _ _ Nr), core_transform_ok,
        lift_bind, bind_at.
      destruct (merge_contracts_directory
                  (source_dir </> "docs" </> "contracts") Core.CONTRACT_FILES
                  [core_transformed readme] t file Hin Nd) as (p & Rm & Hp).
      exists p. rewrite Rm. split; [reflexivity | exact Hp]. }
    destruct R as (p & R & Hp). rewrite R. cbn [result tree events].
    split; [exists p; split; [reflexivity | exact Hp]|].
    now repeat split.
Qed.

Lemma directory_in_place_of_document_witness :
  Core.sync_philosophy Sample.plugin Sample.core_clone false Sample.odd_tree
  = mkOutcome
      (Raise (IsADirectoryError
                (Sample.core_clone </> "docs" </> "DESIGN_PHILOSOPHY.md")))
      Sample.odd_tree []
  /\ (exists p,
        result (Core.sync_module_development Sample.plugin Sample.core_clone
                  false Sample.odd_tree)
        = Raise (IsADirectoryError p)
        /\ node_at Sample.odd_tree p = Some Dir)
  /\ tree (Core.sync_module_development Sample.plugin Sample.core_clone false
             Sample.odd_tree) = Sample.odd_tree.
Proof.
  destruct (directory_in_place_of_document Sample.plugin Sample.core_clone
              false Sample.odd_tree) as [H1 H2].
  split; [exact (H1 eq_refl)|].
  assert (Hin : "HOOK_CONTRACT.md" ∈ Core.CONTRACT_FILES)
    by (apply list_elem_of_In; vm_compute; tauto).
  destruct (H2 Sample.readme_doc "HOOK_CONTRACT.md"
              ltac:(eexists; reflexivity) eq_refl Hin eq_refl)
    as ((p & R & _ & N) & T & _).
  split; [exists p; split; [exact R | exact N] | exact T].
Defined.

(** ** The whole run of sync_amplifier_core.py *)

(** What is no file before the Writer writes is no file after it, its
    target apart. *)
Lemma writer_keeps_way (would done : string) (target : Path)
    (content : string) (t : Tree) (q : Path) :
  q <> target ->
  (forall c, node_at t q <> Some (File c)) ->
  forall c,
    node_at (tree (writer would done false target content t)) q
    <> Some (File c).
Proof.
  intros Hq Hn c.
  destruct (writer_apply would done target content t)
    as (t1 & ev1 & G & _ & [(_ & Nr & Et & _) | (e & _ & Et & _)] & _);
    rewrite Et.
  - rewrite node_at_insert by exact Nr.
    rewrite decide_False by congruence.
    destruct (G q) as [-> | (_ & -> & _)]; [apply Hn | discriminate].
  - destruct (G q) as [-> | (_ & -> & _)]; [apply Hn | discriminate].
Qed.

Lemma omap_agree {A B : Type} (f g : A -> option B) (l : list A) :
  (forall x, x ∈ l -> f x = g x) -> omap f l = omap g l.
Proof.
  induction l as [|x l IH]; intros H; [reflexivity|].
  rewrite !omap_cons_match, (H x) by (apply elem_of_cons; now left).
  rewrite IH; [reflexivity|].
  intros y Hy. apply H, elem_of_cons. now right.
Qed.

Lemma secondary_in_clone (source_dir : Path) (entry : Path * string * string) :
  entry ∈ secondary source_dir -> source_dir `prefix_of` fst (fst entry).
Proof.
  intros H. apply list_elem_of_In in H.
  unfold secondary, contract_entry, Core.CONTRACT_FILES in H. cbn [map app] in H.
  repeat (destruct H as [<- | H];
          [cbn [fst]; unfold child; rewrite <- !app_assoc;
           now apply prefix_app_r|]).
  destruct H.
Qed.

Lemma module_development_agree (source_dir : Path) (t t' : Tree)
    (readme : string) :
  agree source_dir t t' ->
  module_development_text t' source_dir readme
  = module_development_text t source_dir readme
  /\ omap (warning_of t') (secondary source_dir)
     = omap (warning_of t) (secondary source_dir).
Proof.
  intros Hag. unfold module_development_text.
  split; [do 4 f_equal|]; apply omap_agree; intros entry Hin;
    unfold fragment_of, warning_of;
    now rewrite (Hag _ (secondary_in_clone _ _ Hin)).
Qed.

Lemma writes_printed (line : string) (evs : list event) :
  writes (Printed line :: evs) = writes evs.
Proof. reflexivity. Qed.

Lemma printed_printed (line : string) (evs : list event) :
  printed (Printed line :: evs) = line :: printed evs.
Proof. reflexivity. Qed.

(** An assembler made of a reading part that returns and the Writer,
    where the target can be written. *)
Lemma read_then_write_applies (pre : M string) (would done : string)
    (target : Path) (f : M Path) (t : Tree) (content : string)
    (evs : list event) :
  f t = (pre ≫= fun c => writer would done false target c;; mret target) t ->
  pre t = mkOutcome (Ok content) t evs ->
  (forall q c, q `prefix_of` parent target -> node_at t q <> Some (File c)) ->
  node_at t target <> Some Dir ->
  let w := writer would done false target content t in
  result (f t) = Ok target
  /\ tree (f t) = tree w
  /\ events (f t) = evs ++ events w
  /\ node_at (tree w) target = Some (File content)
  /\ writes (events w) = [(target, content)]
  /\ printed (events w) = [done +:+ path_str target].
Proof.
  intros Hf Hp Hw Hd. cbv zeta. rewrite Hf, bind_at, Hp.
  cbn [result tree events].
  destruct (writer_ret_apply would done target content t Hw Hd)
    as (R & N & W & P & _).
  revert R N W P. rewrite bind_at.
  destruct (result (writer would done false target content t)) as [[]|e];
    [|discriminate].
  unfold mret, M_ret, ret. cbn [prepend result tree events].
  rewrite !app_nil_r. intros _ N W P. now repeat split.
Qed.

(** X18. [main] of sync_amplifier_core.py, applying, from a tree that
    holds DESIGN_PHILOSOPHY.md, the contracts directory and its README.md,
    with every secondary file a file or missing, and where the two targets
    can be written: it returns, with exit status 0; it writes the two
    SKILL.md files and nothing else, the philosophy first; the first write
    does not disturb the second, whose content is the one the merge gives
    from the tree as it was; both files are there at the end; the lines
    printed are the two step lines, the report of each write, the warnings
    of the merge and the closing lines with the notice of completion; and
    nothing off the way to the two targets has changed. *)
Theorem core_main_syncs (PLUGIN_ROOT source_dir : Path) (t : Tree)
    (source readme : string) :
  let philosophy_md :=
    PLUGIN_ROOT </> "skills" </> "amplifier-philosophy" </> "SKILL.md" in
  let module_md :=
    PLUGIN_ROOT </> "skills" </> "module-development" </> "SKILL.md" in
  let philosophy_text :=
    Core.PHILOSOPHY_FRONTMATTER +:+ Core.CREDIT_COMMENT
    +:+ core_transformed source in
  let module_text := module_development_text t source_dir readme in
  apart source_dir PLUGIN_ROOT ->
  node_at t (source_dir </> "docs" </> "DESIGN_PHILOSOPHY.md")
  = Some (File source) ->
  is_Some (node_at t (source_dir </> "docs" </> "contracts")) ->
  node_at t (source_dir </> "docs" </> "contracts" </> "README.md")
  = Some (File readme) ->
  (forall entry, entry ∈ secondary source_dir ->
                 node_at t (fst (fst entry)) <> Some Dir) ->
  (forall q c, q `prefix_of` parent philosophy_md \/ q `prefix_of` parent module_md ->
               node_at t q <> Some (File c)) ->
  node_at t philosophy_md <> Some Dir ->
  node_at t module_md <> Some Dir ->
  let run := Core.main_after_clone PLUGIN_ROOT source_dir false t in
  result run = Ok tt
  /\ exit_status (result run) = 0
  /\ writes (events run)
     = [(philosophy_md, philosophy_text); (module_md, module_text)]
  /\ printed (events run)
     = ["
[1/2] Syncing amplifier-philosophy...";
        "  Updated: " +:+ path_str philosophy_md;
        "
[2/2] Syncing module-development..."]
       ++ omap (warning_of t) (secondary source_dir)
       ++ ["  Updated: " +:+ path_str module_md;
           "
" +:+ Core.rule60; "Sync complete!"; Core.rule60]
  /\ node_at (tree run) philosophy_md = Some (File philosophy_text)
  /\ node_at (tree run) module_md = Some (File module_text)
  /\ (forall q, ~ q `prefix_of` philosophy_md -> ~ q `prefix_of` module_md ->
                node_at (tree run) q = node_at t q).
Proof.
  intros philosophy_md module_md philosophy_text module_text
    Ha Hs Hc Hr He Hw Hd1 Hd2. cbv zeta.
  (* the first artifact *)
  destruct (read_then_write_applies (gather_philosophy source_dir)
              "  [DRY-RUN] Would update: " "  Updated: " philosophy_md
              (Core.sync_philosophy PLUGIN_ROOT source_dir false) t
              philosophy_text []
              (sync_philosophy_split _ _ _ _)) as (R1 & T1 & E1 & N1 & W1 & P1).
  { rewrite gather_philosophy_at, Hs, core_transform_ok. reflexivity. }
  { intros q c H. apply Hw. now left. }
  { exact Hd1. }
  set (w1 := writer "  [DRY-RUN] Would update: " "  Updated: " false
               philosophy_md philosophy_text t) in *.
  set (t1 := tree w1) in *.
  pose proof (writer_frame "  [DRY-RUN] Would update: " "  Updated: "
                philosophy_md philosophy_text t) as F1.
  pose proof (fun q => writer_keeps_way "  [DRY-RUN] Would update: "
                "  Updated: " philosophy_md philosophy_text t q) as Kw.
  fold w1 t1 in F1, Kw.
  (* the clone is as it was *)
  assert (Hag : agree source_dir t t1).
  { intros q Hq. apply F1. intros Hp.
    apply (apart_prefix _ _ _ _ Ha Hq Hp).
    unfold philosophy_md, child. rewrite <- !app_assoc.
    now apply prefix_app_r. }
  assert (Hin : forall rel, node_at t1 (source_dir ++ rel)
                            = node_at t (source_dir ++ rel))
    by (intros rel; apply Hag; now apply prefix_app_r).
  assert (Hc1 : is_Some (node_at t1 (source_dir </> "docs" </> "contracts"))).
  { unfold child. rewrite <- !app_assoc, Hin. unfold child in Hc.
    now rewrite <- !app_assoc in Hc. }
  assert (Hr1 : node_at t1 (source_dir </> "docs" </> "contracts" </> "README.md")
                = Some (File readme)).
  { unfold child. rewrite <- !app_assoc, Hin. unfold child in Hr.
    now rewrite <- !app_assoc in Hr. }
  assert (He1 : forall entry, entry ∈ secondary source_dir ->
                  node_at t1 (fst (fst entry)) <> Some Dir).
  { intros entry Hi. rewrite (Hag _ (secondary_in_clone _ _ Hi)).
    now apply He. }
  destruct (module_development_agree source_dir t t1 readme Hag) as [Em Ew].
  (* the second artifact *)
  assert (Hw2 : forall q c, q `prefix_of` parent module_md ->
                  node_at t1 q <> Some (File c)).
  { intros q c Hq. apply Kw.
    - unfold module_md in Hq. rewrite parent_child in Hq.
      intros ->. apply prefix_length in Hq. unfold philosophy_md, child in Hq.
      rewrite !length_app in Hq. cbn in Hq. lia.
    - intros c'. apply Hw. now right. }
  assert (Np : ~ module_md `prefix_of` philosophy_md).
  { intros Hp. apply prefix_same_length in Hp.
    - unfold module_md, philosophy_md, child in Hp.
      rewrite <- !app_assoc in Hp. apply app_inv_head in Hp. discriminate.
    - unfold module_md, philosophy_md, child. now rewrite !length_app. }
  assert (Hd2' : node_at t1 module_md <> Some Dir)
    by (rewrite (F1 _ Np); exact Hd2).
  destruct (read_then_write_applies (gather_module_development source_dir)
              "  [DRY-RUN] Would update: " "  Updated: " module_md
              (Core.sync_module_development PLUGIN_ROOT source_dir false) t1
              module_text
              (map Printed (omap (warning_of t) (secondary source_dir)))
              (sync_module_development_split _ _ _ _))
    as (R2 & T2 & E2 & N2 & W2 & P2).
  { rewrite (gather_module_development_at _ _ _ Hc1 Hr1 He1), Em, Ew.
    reflexivity. }
  { exact Hw2. }
  { exact Hd2'. }
  set (w2 := writer "  [DRY-RUN] Would update: " "  Updated: " false
               module_md module_text t1) in *.
  pose proof (writer_frame "  [DRY-RUN] Would update: " "  Updated: "
                module_md module_text t1) as F2.
  pose proof (writer_keeps "  [DRY-RUN] Would update: " "  Updated: "
                module_md module_text t1 philosophy_md) as K2.
  fold w2 in F2, K2.
  (* the run *)
  unfold Core.main_after_clone.
  rewrite print_bind, bind_at, R1, T1, E1. cbn [prepend result tree events].
  fold t1. rewrite print_bind, bind_at, R2, T2, E2.
  cbn [prepend result tree events]. rewrite !print_bind. unfold print.
  cbn [prepend result tree events app].
  split; [reflexivity|]. split; [reflexivity|].
  pose proof (printed_lines (omap (warning_of t) (secondary source_dir))) as Pl.
  pose proof (writes_lines (omap (warning_of t) (secondary source_dir))) as Wl.
  split; [|split; [|split; [|split]]].
  - repeat rewrite ?writes_app, ?writes_printed.
    rewrite W1, W2, Wl. reflexivity.
  - repeat rewrite ?printed_app, ?printed_printed.
    rewrite P1, P2, Pl. cbn [printed omap app].
    now rewrite <- !app_assoc.
  - apply K2; [|exact N1]. intros E. apply Np. now rewrite E.
  - exact N2.
  - intros q H1 H2. now rewrite F2, F1.
Qed.

Lemma core_main_syncs_witness :
  apart Sample.core_clone Sample.plugin
  /\ result (Core.main_after_clone Sample.plugin Sample.core_clone false
               Sample.core_tree) = Ok tt
  /\ written (events (Core.main_after_clone Sample.plugin Sample.core_clone
                        false Sample.core_tree))
     = [Sample.plugin </> "skills" </> "amplifier-philosophy" </> "SKILL.md";
        Sample.plugin </> "skills" </> "module-development" </> "SKILL.md"]
  /\ node_at
       (tree (Core.main_after_clone Sample.plugin Sample.core_clone false
                Sample.core_tree))
       (Sample.plugin </> "skills" </> "module-development" </> "SKILL.md")
     = Some (File (module_development_text Sample.core_tree Sample.core_clone
                     Sample.readme_doc)).
Proof.
  assert (H1 : node_at Sample.core_tree
                 (Sample.core_clone </> "docs" </> "DESIGN_PHILOSOPHY.md")
               = Some (File Sample.plain_doc)) by reflexivity.
  assert (H2 : is_Some (node_at Sample.core_tree
                          (Sample.core_clone </> "docs" </> "contracts")))
    by (eexists; reflexivity).
  assert (H3 : node_at Sample.core_tree
                 (Sample.core_clone </> "docs" </> "contracts" </> "README.md")
               = Some (File Sample.readme_doc)) by reflexivity.
  assert (H4 : forall entry, entry ∈ secondary Sample.core_clone ->
                 node_at Sample.core_tree (fst (fst entry)) <> Some Dir).
  { intros entry H. apply list_elem_of_In in H.
    repeat (destruct H as [<- | H]; [vm_compute; discriminate|]).
    destruct H. }
  assert (H5 : forall q c,
             q `prefix_of`
               parent (Sample.plugin </> "skills" </> "amplifier-philosophy"
                       </> "SKILL.md")
             \/ q `prefix_of`
                  parent (Sample.plugin </> "skills" </> "module-development"
                          </> "SKILL.md") ->
             node_at Sample.core_tree q <> Some (File c)).
  { intros q c [H|H]; revert q c H; apply clear_way_spec; reflexivity. }
  assert (H6 : node_at Sample.core_tree
                 (Sample.plugin </> "skills" </> "amplifier-philosophy"
                  </> "SKILL.md") <> Some Dir) by (vm_compute; discriminate).
  assert (H7 : node_at Sample.core_tree
                 (Sample.plugin </> "skills" </> "module-development"
                  </> "SKILL.md") <> Some Dir) by (vm_compute; discriminate).
  destruct (core_main_syncs Sample.plugin Sample.core_clone Sample.core_tree
              Sample.plain_doc Sample.readme_doc sample_apart_core
              H1 H2 H3 H4 H5 H6 H7) as (R & _ & W & _ & _ & N & _).
  split; [exact sample_apart_core|]. split; [exact R|].
  split; [unfold written; rewrite W; reflexivity | exact N].
Defined.

(** ** A second run of the loops *)

(** The Writer leaves the directories in place. *)
Lemma writer_keeps_dir (would done : string) (target : Path)
    (content : string) (t : Tree) (q : Path) :
  result (writer would done false target content t) = Ok tt ->
  node_at t q = Some Dir ->
  node_at (tree (writer would done false target content t)) q = Some Dir.
Proof.
  unfold writer, mkdir. rewrite bind_at.
  destruct (mkdir_parents_spec (length (parent target)) (parent target) t)
    as (G & _ & D & _).
  set (o1 := mkdir_parents (length (parent target)) (parent target) t) in *.
  destruct (result o1) as [[]|e] eqn:R1; [|discriminate].
  specialize (D eq_refl). rewrite bind_at, write_text_at, D. intros Ro Hq.
  assert (H1 : node_at (tree o1) q = Some Dir).
  { destruct (G q) as [-> | (Hn & _)]; [exact Hq | congruence]. }
  destruct (node_at (tree o1) target) as [[c|]|] eqn:Nt;
    cbn [result tree events prepend print] in Ro |- *; [|discriminate|].
  all: assert (Nr : target <> []) by (intros ->; cbn in Nt; discriminate).
  all: rewrite node_at_insert by exact Nr.
  all: destruct (decide (target = q)) as [<-|]; [congruence | exact H1].
Qed.

Section WriteEachAgain.

Context {X : Type}.
Variable prepare : X -> M prepared.
Variable tgt : X -> Path.
Variables would done : string.
Variables S R : Path.

Hypothesis prepare_readonly : readonly prepare.
Hypothesis prepare_local : source_local S prepare.
Hypothesis prepare_targets : targets_by tgt prepare.
Hypothesis targets_in_plugin : forall x, R `prefix_of` tgt x.
Hypothesis trees_apart : apart S R.

Lemma write_each_keeps_dir (items : list X) (acc : list Path) (t : Tree)
    (v : list Path) (q : Path) :
  result (write_each prepare would done false items acc t) = Ok v ->
  node_at t q = Some Dir ->
  node_at (tree (write_each prepare would done false items acc t)) q
  = Some Dir.
Proof.
  revert acc t. induction items as [|x items IH]; intros acc t Hv Hq;
    [exact Hq|].
  revert Hv. rewrite (write_each_cons _ _ _ prepare_readonly).
  destruct (result (prepare x t)) as [[warning|target content]|e];
    [| |discriminate].
  - cbn [prepend result tree]. intros Hv. now apply IH.
  - cbv zeta.
    pose proof (writer_keeps_dir would done target content t q) as K.
    destruct (result (writer would done false target content t)) as [[]|e];
      [|discriminate].
    cbn [prepend result tree]. intros Hv. apply IH; [exact Hv|].
    now apply K.
Qed.

Lemma write_each_agree (items : list X) (acc : list Path) (t0 t : Tree) :
  agree S t0 t ->
  agree S t0 (tree (write_each prepare would done false items acc t)).
Proof.
  intros Hag q Hq.
  rewrite (write_each_frame _ tgt _ _ prepare_readonly prepare_targets);
    [now apply Hag|].
  intros x _ Hp. exact (apart_prefix _ _ _ _ trees_apart Hq Hp
                          (targets_in_plugin x)).
Qed.

(** When the loop returns, every item was prepared, and the target of
    each one that was ready is a file in a directory. *)
Lemma write_each_leaves (items : list X) (acc : list Path) (t0 t : Tree)
    (v : list Path) :
  agree S t0 t ->
  result (write_each prepare would done false items acc t) = Ok v ->
  forall x, x ∈ items ->
    match result (prepare x t0) with
    | Ok (Ready target content) =>
        target <> []
        /\ node_at (tree (write_each prepare would done false items acc t))
             (parent target) = Some Dir
    | Ok (Skipped _) => True
    | Raise _ => False
    end.
Proof.
  revert acc t. induction items as [|x items IH]; intros acc t Hag Hv y Hy;
    [now apply elem_of_nil in Hy|].
  revert Hv. rewrite (write_each_cons _ _ _ prepare_readonly).
  rewrite (prepare_local x t0 t Hag).
  destruct (result (prepare x t0)) as [[warning|target content]|e] eqn:Rp;
    [| |discriminate].
  - cbn [prepend result tree]. intros Hv.
    apply elem_of_cons in Hy as [->|Hy]; [now rewrite Rp|].
    now apply (IH acc t Hag Hv).
  - cbv zeta. pose proof (prepare_targets _ _ _ _ Rp) as ->.
    pose proof (writer_leaves would done (tgt x) content t) as L.
    destruct (result (writer would done false (tgt x) content t))
      as [[]|e] eqn:Ro; [|discriminate].
    cbn [prepend result tree]. intros Hv.
    assert (Hag' : agree S t0
              (tree (writer would done false (tgt x) content t)))
      by (eapply writer_agree; eauto).
    apply elem_of_cons in Hy as [->|Hy]; [|now apply (IH _ _ Hag' Hv)].
    rewrite Rp. destruct (L Ro) as (Nr & Hp & _).
    split; [exact Nr|]. now apply (write_each_keeps_dir _ _ _ v).
Qed.

Lemma planned_elem (t : Tree) (items : list X) (x : X) (target : Path)
    (content : string) :
  x ∈ items -> result (prepare x t) = Ok (Ready target content) ->
  (target, content) ∈ planned prepare t items.
Proof.
  intros Hx Rp. unfold planned. apply list_elem_of_omap.
  exists x. split; [exact Hx|]. now rewrite Rp.
Qed.

(** After the loop has returned, from the tree it left, everything is in
    place for each of its items. *)
Lemma write_each_in_place (items : list X) (acc : list Path) (t : Tree)
    (v : list Path) :
  NoDup (map tgt items) ->
  result (write_each prepare would done false items acc t) = Ok v ->
  let t2 := tree (write_each prepare would done false items acc t) in
  agree S t t2
  /\ forall x, x ∈ items -> in_place t2 (result (prepare x t2)).
Proof.
  intros Hnd Hv. cbv zeta.
  pose proof (write_each_agree items acc t t (agree_refl S t)) as Hag.
  split; [exact Hag|]. intros x Hx.
  rewrite (prepare_local x t _ Hag).
  pose proof (write_each_leaves items acc t t v (agree_refl S t) Hv x Hx) as L.
  destruct (write_each_apply _ tgt _ _ S R prepare_readonly prepare_local
              prepare_targets targets_in_plugin trees_apart items acc t t v
              (agree_refl S t) Hnd Hv) as (_ & _ & _ & F).
  destruct (result (prepare x t)) as [[warning|target content]|e] eqn:Rp;
    [exact I | | exact L].
  destruct L as [Nr Hp]. split; [exact Nr|]. split; [exact Hp|].
  apply F. now apply (planned_elem t items x).
Qed.

(** The loop from a tree where everything is in place. *)
Lemma write_each_again (items : list X) (acc : list Path) (t : Tree) :
  (forall x, x ∈ items -> in_place t (result (prepare x t))) ->
  let o := write_each prepare would done false items acc t in
  result o = Ok (acc ++ map fst (planned prepare t items))
  /\ tree o = t
  /\ made_dirs (events o) = []
  /\ writes (events o) = planned prepare t items.
Proof.
  cbv zeta. revert acc. induction items as [|x items IH]; intros acc Hp.
  - cbn. now rewrite app_nil_r.
  - rewrite (write_each_cons _ _ _ prepare_readonly), planned_cons.
    pose proof (Hp x ltac:(now left)) as Hx.
    assert (Hp' : forall y, y ∈ items -> in_place t (result (prepare y t)))
      by (intros y Hy; apply Hp; now right).
    destruct (result (prepare x t)) as [[warning|target content]|e];
      [| |destruct Hx]; cbn [ready_of].
    + cbn [prepend result tree events].
      destruct (IH acc Hp') as (E1 & E2 & E3 & E4).
      rewrite made_dirs_app, writes_app, E1, E2, E3, E4. now repeat split.
    + cbv zeta. destruct Hx as (Nr & Hd & Hf).
      rewrite (writer_again _ _ _ _ _ Nr Hd Hf).
      cbn [prepend result tree events map fst].
      destruct (IH (acc ++ [target]) Hp') as (E1 & E2 & E3 & E4).
      rewrite made_dirs_app, writes_app, E1, E2, E3, E4, <- app_assoc.
      now repeat split.
Qed.

End WriteEachAgain.

Lemma planned_agree {X : Type} (prepare : X -> M prepared) (S : Path)
    (t t' : Tree) (items : list X) :
  source_local S prepare -> agree S t t' ->
  planned prepare t' items = planned prepare t items.
Proof.
  intros Hl Hag. unfold planned. apply omap_agree. intros x _.
  now rewrite (Hl x t t' Hag).
Qed.

Lemma reachable_agree (t t' : Tree) (base rel : Path) :
  agree base t t' -> reachable t' base rel = reachable t base rel.
Proof.
  revert base. induction rel as [|a rel IH]; intros base Hag; [reflexivity|].
  cbn [reachable]. rewrite (Hag base) by reflexivity.
  destruct (node_at t base) as [[c|]|]; try reflexivity.
  apply IH. intros q Hq. apply Hag.
  transitivity (base </> a); [now apply prefix_app_r | exact Hq].
Qed.

Lemma globbed_agree (t t' : Tree) (base : Path) (suffix : string) (q : Path) :
  agree base t t' -> globbed t' base suffix q = globbed t base suffix q.
Proof.
  intros Hag. unfold globbed.
  destruct (relative_to q base) as [[|a rel]|]; try reflexivity.
  now rewrite (reachable_agree _ _ _ _ Hag).
Qed.

Lemma listed_is_there (t : Tree) (q : Path) :
  q ∈ map fst (map_to_list t) <-> is_Some (t !! q).
Proof.
  split.
  - intros H. apply list_elem_of_In, in_map_iff in H as ([q' n] & <- & H).
    apply list_elem_of_In, elem_of_map_to_list in H. now exists n.
  - intros [n H]. apply list_elem_of_In, in_map_iff. exists (q, n).
    split; [reflexivity|]. now apply list_elem_of_In, elem_of_map_to_list.
Qed.

(** The search finds the same files in two trees that agree below the
    directory searched. *)
Lemma rglob_agree (t t' : Tree) (base : Path) (suffix : string) (q : Path) :
  agree base t t' ->
  q ∈ filter (fun q => globbed t' base suffix q = true)
        (map fst (map_to_list t'))
  <-> q ∈ filter (fun q => globbed t base suffix q = true)
            (map fst (map_to_list t)).
Proof.
  intros Hag. rewrite !list_elem_of_filter, !listed_is_there.
  rewrite (globbed_agree _ _ _ _ _ Hag).
  split; intros [Hg Hs]; (split; [exact Hg|]);
    destruct (globbed_inv _ _ _ _ Hg) as (a & rel & _ & Eq & _);
    assert (Hq : base `prefix_of` q) by (rewrite Eq; now apply prefix_app_r);
    pose proof (Hag q Hq) as E;
    (destruct q; [now destruct base|]); cbn [node_at] in E; congruence.
Qed.

(** X19. The two loops of sync_ddd.py can be run again, the clone and
    the plugin lying apart. When an applying run of
    [convert_agents_to_commands] returns, a second one from the tree it
    left returns the same paths, writes the same contents, makes no
    directory and leaves the tree as it found it. The same holds of
    [copy_context_to_skills], up to the order in which the search gives the
    files: the second run returns, leaves the tree as it found it, makes no
    directory, and its writes are those of the first run. *)
Theorem ddd_loops_settle (PLUGIN_ROOT source_dir : Path) (t : Tree) :
  apart source_dir PLUGIN_ROOT ->
  settles (DDD.convert_agents_to_commands PLUGIN_ROOT source_dir false) t
  /\ settles_in_any_order
       (DDD.copy_context_to_skills PLUGIN_ROOT source_dir false) t.
Proof.
  intros Ha. split.
  - intros v Hv. cbv zeta.
    pose proof (convert_agents_agree PLUGIN_ROOT source_dir false t Ha) as Hag.
    revert Hv Hag. rewrite (convert_agents_at _ _ _ t).
    destruct (node_at t (source_dir </> "agents")) as [n|] eqn:Na;
      [|discriminate].
    set (prepare := prepare_agent (source_dir </> "agents")
                      (PLUGIN_ROOT </> "commands")).
    set (tgt := fun item : string * string =>
                  PLUGIN_ROOT </> "commands" </> snd item).
    assert (Hin : forall x, PLUGIN_ROOT `prefix_of` tgt x).
    { intros x. unfold tgt, child. rewrite <- !app_assoc.
      now apply prefix_app_r. }
    intros Hv Hag.
    destruct (write_each_in_place prepare tgt "  [DRY-RUN] Would create: "
                "  Created: " source_dir PLUGIN_ROOT
                (prepare_agent_readonly _ _) (prepare_agent_local _ _)
                (prepare_agent_targets _ _) Hin Ha DDD.AGENT_TO_COMMAND [] t v
                (command_targets_NoDup _) Hv) as [_ Hp].
    destruct (write_each_apply prepare tgt "  [DRY-RUN] Would create: "
                "  Created: " source_dir PLUGIN_ROOT
                (prepare_agent_readonly _ _) (prepare_agent_local _ _)
                (prepare_agent_targets _ _) Hin Ha DDD.AGENT_TO_COMMAND [] t t
                v (agree_refl _ _) (command_targets_NoDup _) Hv)
      as (W1 & _ & V1 & _).
    set (t2 := tree (write_each prepare _ _ false DDD.AGENT_TO_COMMAND [] t))
      in *.
    rewrite convert_agents_at, (Hag (source_dir </> "agents")), Na
      by (unfold child; now apply prefix_app_r).
    fold prepare.
    destruct (write_each_again prepare "  [DRY-RUN] Would create: "
                "  Created: " (prepare_agent_readonly _ _)
                DDD.AGENT_TO_COMMAND [] t2 Hp) as (R2 & T2 & M2 & W2).
    rewrite (planned_agree prepare source_dir t t2 _
               (prepare_agent_local _ _) Hag) in R2, W2.
    rewrite R2, T2, M2, W2, W1, V1. now repeat split.
  - intros v Hv. cbv zeta.
    set (prepare := prepare_md (source_dir </> "context")
                      (PLUGIN_ROOT </> "skills" </> "ddd-guide"
                       </> "references")).
    set (tgt := md_target (source_dir </> "context")
                  (PLUGIN_ROOT </> "skills" </> "ddd-guide" </> "references")).
    revert Hv. rewrite (copy_context_at _ _ _ t).
    destruct (node_at t (source_dir </> "context")) as [n|] eqn:Nc;
      [|discriminate].
    fold prepare. set (items := filter _ (map fst (map_to_list t))).
    intros Hv.
    destruct (write_each_in_place prepare tgt "  [DRY-RUN] Would create: "
                "  Created: " source_dir PLUGIN_ROOT
                (prepare_md_readonly _ _) (prepare_md_local _ _)
                (prepare_md_targets _ _) (md_target_in_plugin _ _) Ha
                items [] t v (md_targets_NoDup _ _ _) Hv) as [Hag Hp].
    destruct (write_each_apply prepare tgt "  [DRY-RUN] Would create: "
                "  Created: " source_dir PLUGIN_ROOT
                (prepare_md_readonly _ _) (prepare_md_local _ _)
                (prepare_md_targets _ _) (md_target_in_plugin _ _) Ha
                items [] t t v (agree_refl _ _) (md_targets_NoDup _ _ _) Hv)
      as (W1 & _ & _ & _).
    set (t2 := tree (write_each prepare _ _ false items [] t)) in *.
    assert (Hag' : agree (source_dir </> "context") t t2).
    { intros q Hq. apply Hag. etransitivity; [|exact Hq].
      unfold child. now apply prefix_app_r. }
    rewrite copy_context_at, (Hag (source_dir </> "context")), Nc
      by (unfold child; now apply prefix_app_r).
    fold prepare. set (items2 := filter _ (map fst (map_to_list t2))).
    assert (Hi : forall x, x ∈ items2 <-> x ∈ items)
      by (intros x; apply rglob_agree, Hag').
    destruct (write_each_again prepare "  [DRY-RUN] Would create: "
                "  Created: " (prepare_md_readonly _ _) items2 [] t2)
      as (R2 & T2 & M2 & W2).
    { intros x Hx. apply Hp. now apply Hi. }
    rewrite R2, T2, M2, W2, W1.
    split; [eexists; reflexivity|]. split; [reflexivity|].
    split; [reflexivity|].
    intros w. unfold planned. rewrite !list_elem_of_omap.
    split; intros (x & Hx & E); exists x; (split; [now apply Hi|]);
      pose proof (prepare_md_local source_dir PLUGIN_ROOT x t t2 Hag) as L;
      fold prepare in L; [rewrite <- L | rewrite L]; exact E.
Qed.

Lemma ddd_loops_settle_witness :
  apart Sample.ddd_clone Sample.plugin
  /\ result (DDD.convert_agents_to_commands Sample.plugin Sample.ddd_clone
               false Sample.ddd_tree)
     = Ok [Sample.plugin </> "commands" </> "ddd-1-plan.md"]
  /\ is_Some (node_at
                (tree (DDD.copy_context_to_skills Sample.plugin
                         Sample.ddd_clone false Sample.ddd_tree))
                (Sample.plugin </> "skills" </> "ddd-guide" </> "references"
                 </> "guide.md"))
  /\ settles (DDD.convert_agents_to_commands Sample.plugin Sample.ddd_clone
                false) Sample.ddd_tree
  /\ settles_in_any_order
       (DDD.copy_context_to_skills Sample.plugin Sample.ddd_clone false)
       Sample.ddd_tree.
Proof.
  split; [exact sample_apart_ddd|]. split; [vm_compute; reflexivity|].
  split; [eexists; vm_compute; reflexivity|].
  exact (ddd_loops_settle Sample.plugin Sample.ddd_clone Sample.ddd_tree
           sample_apart_ddd).
Defined.

(** ** Where the loops write *)

Lemma writer_written (would done : string) (dry_run : bool) (target : Path)
    (content : string) (t : Tree) (p : Path) :
  p ∈ written (events (writer would done dry_run target content t)) ->
  p = target.
Proof.
  destruct dry_run; [rewrite writer_dry; cbn; intros H; inversion H|].
  destruct (writer_apply would done target content t)
    as (t1 & ev1 & _ & [Ep Ew] & [(_ & _ & _ & Ev) | (e & _ & _ & Ev)] & _);
    rewrite Ev; unfold written.
  - rewrite writes_app, Ew. cbn. intros H.
    apply list_elem_of_singleton in H. exact H.
  - rewrite Ew. intros H. inversion H.
Qed.

Section WriteEachWritten.

Context {X : Type}.
Variable prepare : X -> M prepared.
Variable tgt : X -> Path.
Variables would done : string.

Hypothesis prepare_readonly : readonly prepare.
Hypothesis prepare_targets : targets_by tgt prepare.

(** Whether the loop returns or raises, what it has written are targets
    of its items. *)
Lemma write_each_written (dry_run : bool) (items : list X) (acc : list Path)
    (t : Tree) (p : Path) :
  p ∈ written (events (write_each prepare would done dry_run items acc t)) ->
  exists x, x ∈ items /\ p = tgt x.
Proof.
  revert acc t. induction items as [|x items IH]; intros acc t;
    [cbn; intros H; inversion H|].
  rewrite (write_each_cons _ _ _ prepare_readonly).
  destruct (result (prepare x t)) as [[warning|target content]|e] eqn:Rp.
  - cbn [prepend events]. rewrite written_app. intros H.
    apply elem_of_app in H as [H|H]; [inversion H|].
    destruct (IH _ _ H) as (y & Hy & E). exists y. split; [now right | exact E].
  - cbv zeta. pose proof (prepare_targets _ _ _ _ Rp) as ->.
    pose proof (writer_written would done dry_run (tgt x) content t p) as Hw.
    destruct (result (writer would done dry_run (tgt x) content t)).
    + cbn [prepend events]. rewrite written_app. intros H.
      apply elem_of_app in H as [H|H].
      * exists x. split; [now left | now apply Hw].
      * destruct (IH _ _ H) as (y & Hy & E). exists y.
        split; [now right | exact E].
    + cbn [events]. intros H. exists x. split; [now left | now apply Hw].
  - cbn. intros H. inversion H.
Qed.

Lemma write_each_stays (dry_run : bool) (items : list X) (acc : list Path)
    (t : Tree) (q : Path) :
  (forall x, x ∈ items -> ~ q `prefix_of` tgt x) ->
  node_at (tree (write_each prepare would done dry_run items acc t)) q
  = node_at t q.
Proof.
  destruct dry_run.
  - intros _. now rewrite (proj1 (write_each_dry _ _ _ prepare_readonly _ _ t)).
  - apply (write_each_frame _ _ _ _ prepare_readonly prepare_targets).
Qed.

End WriteEachWritten.

(** X20. The two loops of sync_ddd.py stay in their place, from every
    tree, under dry-run or not, and whether they return or raise.
    [convert_agents_to_commands] leaves every path that is not on the way
    to a command file of the table as it was, and what it writes are
    command files of the table. [copy_context_to_skills] leaves every path
    that is neither on the way to the references directory nor below it as
    it was, and what it writes lies below the references directory. *)
Theorem ddd_loops_stay_in_place (PLUGIN_ROOT source_dir : Path)
    (dry_run : bool) (t : Tree) :
  let commands_dir := PLUGIN_ROOT </> "commands" in
  let references_dir :=
    PLUGIN_ROOT </> "skills" </> "ddd-guide" </> "references" in
  let converted :=
    DDD.convert_agents_to_commands PLUGIN_ROOT source_dir dry_run t in
  let copied := DDD.copy_context_to_skills PLUGIN_ROOT source_dir dry_run t in
  (forall q,
     (forall item, item ∈ DDD.AGENT_TO_COMMAND ->
                   ~ q `prefix_of` commands_dir </> snd item) ->
     node_at (tree converted) q = node_at t q)
  /\ (forall p, p ∈ written (events converted) ->
        exists item, item ∈ DDD.AGENT_TO_COMMAND
                     /\ p = commands_dir </> snd item)
  /\ (forall q,
        ~ q `prefix_of` references_dir -> ~ references_dir `prefix_of` q ->
        node_at (tree copied) q = node_at t q)
  /\ (forall p, p ∈ written (events copied) ->
        exists a rel, p = references_dir ++ a :: rel).
Proof.
  cbv zeta. split; [|split; [|split]].
  - intros q Hq. rewrite convert_agents_at.
    destruct (node_at t (source_dir </> "agents")); [|reflexivity].
    now apply (write_each_stays _ _ _ _ (prepare_agent_readonly _ _)
                 (prepare_agent_targets _ _)).
  - intros p. rewrite convert_agents_at.
    destruct (node_at t (source_dir </> "agents"));
      [|cbn; intros H; inversion H].
    apply (write_each_written _ _ _ _ (prepare_agent_readonly _ _)
             (prepare_agent_targets _ _)).
  - intros q H1 H2. rewrite copy_context_at.
    destruct (node_at t (source_dir </> "context")); [|reflexivity].
    apply (write_each_stays _ _ _ _ (prepare_md_readonly _ _)
             (prepare_md_targets _ _)).
    intros x _ Hp. unfold md_target in Hp.
    destruct (prefix_weak_total _ _ _ Hp (prefix_app_r _ _ _ (reflexivity _)))
      as [H|H]; tauto.
  - intros p. rewrite copy_context_at.
    destruct (node_at t (source_dir </> "context"));
      [|cbn; intros H; inversion H].
    intros H.
    destruct (write_each_written _ _ _ _ (prepare_md_readonly _ _)
                (prepare_md_targets _ _) _ _ _ _ _ H) as (x & Hx & ->).
    pose proof (md_files_globbed _ _ _ Hx) as Hg.
    destruct (globbed_inv _ _ _ _ Hg) as (a & rel & Er & _).
    exists a, rel. unfold md_target. now rewrite Er.
Qed.

(** ** The whole run of sync_ddd.py *)

Section WriteEachWay.

Context {X : Type}.
Variable prepare : X -> M prepared.
Variable tgt : X -> Path.
Variables would done : string.

Hypothesis prepare_readonly : readonly prepare.
Hypothesis prepare_targets : targets_by tgt prepare.

(** What is no file before the loop is no file after it, its targets
    apart. *)
Lemma write_each_keeps_way (items : list X) (acc : list Path) (t : Tree)
    (q : Path) :
  (forall x, x ∈ items -> q <> tgt x) ->
  (forall c, node_at t q <> Some (File c)) ->
  forall c,
    node_at (tree (write_each prepare would done false items acc t)) q
    <> Some (File c).
Proof.
  revert acc t. induction items as [|x items IH]; intros acc t Hq Hn;
    [exact Hn|].
  rewrite (write_each_cons _ _ _ prepare_readonly).
  assert (Hq' : forall y, y ∈ items -> q <> tgt y)
    by (intros y Hy; apply Hq; now right).
  destruct (result (prepare x t)) as [[warning|target content]|e] eqn:Rp.
  - cbn [prepend tree]. now apply IH.
  - cbv zeta. pose proof (prepare_targets _ _ _ _ Rp) as ->.
    pose proof (writer_keeps_way would done (tgt x) content t q
                  (Hq x ltac:(now left)) Hn) as Hk.
    destruct (result (writer would done false (tgt x) content t));
      [|exact Hk].
    cbn [prepend tree]. now apply IH.
  - exact Hn.
Qed.

End WriteEachWay.

(** Two paths that part below [p]. *)
Lemma branches_apart (p l l' : Path) (a b : string) :
  a <> b -> ~ (p ++ a :: l) `prefix_of` (p ++ b :: l').
Proof.
  intros Hab Hp. apply prefix_app_inv in Hp. destruct Hp as [k E].
  injection E as E _. congruence.
Qed.

Lemma branches_differ (p l l' : Path) (a b : string) :
  a <> b -> p ++ a :: l <> p ++ b :: l'.
Proof. intros Hab E. apply app_inv_head in E. congruence. Qed.

Section DDDRun.

Variables source_dir PLUGIN_ROOT : Path.
Hypothesis trees_apart : apart source_dir PLUGIN_ROOT.

Local Abbreviation agents_dir := (source_dir </> "agents").
Local Abbreviation commands_dir := (PLUGIN_ROOT </> "commands").
Local Abbreviation context_dir := (source_dir </> "context").
Local Abbreviation references_dir :=
  (PLUGIN_ROOT </> "skills" </> "ddd-guide" </> "references").
Local Abbreviation skill_path :=
  (PLUGIN_ROOT </> "skills" </> "ddd-guide" </> "SKILL.md").

Lemma command_in_plugin (item : string * string) :
  PLUGIN_ROOT `prefix_of` commands_dir </> snd item.
Proof. unfold child. rewrite <- !app_assoc. now apply prefix_app_r. Qed.

(** The conversion of the agents where it can be done. *)
Lemma convert_agents_applies (t : Tree) :
  is_Some (node_at t agents_dir) ->
  (forall item, item ∈ DDD.AGENT_TO_COMMAND ->
                node_at t (agents_dir </> fst item) <> Some Dir) ->
  (forall q c, q `prefix_of` commands_dir -> node_at t q <> Some (File c)) ->
  (forall item, item ∈ DDD.AGENT_TO_COMMAND ->
                node_at t (commands_dir </> snd item) <> Some Dir) ->
  let o := DDD.convert_agents_to_commands PLUGIN_ROOT source_dir false t in
  let files :=
    omap (converted_file t agents_dir commands_dir) DDD.AGENT_TO_COMMAND in
  result o = Ok (map fst files)
  /\ writes (events o) = files
  /\ forall target content,
       (target, content) ∈ files ->
       node_at (tree o) target = Some (File content).
Proof.
  intros [n Hn] Hs Hc Hd. cbv zeta. rewrite convert_agents_at, Hn.
  set (prepare := prepare_agent agents_dir commands_dir).
  set (tgt := fun item : string * string => commands_dir </> snd item).
  destruct (planned_agents source_dir PLUGIN_ROOT t Hs DDD.AGENT_TO_COMMAND)
    as [Hp _]; [done|]. fold prepare in Hp.
  destruct (write_each_returns prepare tgt "  [DRY-RUN] Would create: "
              "  Created: " source_dir PLUGIN_ROOT
              (prepare_agent_readonly source_dir PLUGIN_ROOT)
              (prepare_agent_local source_dir PLUGIN_ROOT)
              (prepare_agent_targets source_dir PLUGIN_ROOT)
              command_in_plugin trees_apart
              DDD.AGENT_TO_COMMAND [] t t (agree_refl _ _)) as [v Hv].
  { intros x Hx. eexists. apply prepare_agent_result; auto. }
  { intros x Hx. unfold tgt. rewrite parent_child. split; auto. }
  { intros x y _ _ Hxy. apply prefix_same_length; [exact Hxy|].
    unfold tgt, child. now rewrite !length_app. }
  destruct (write_each_apply prepare tgt "  [DRY-RUN] Would create: "
              "  Created: " source_dir PLUGIN_ROOT
              (prepare_agent_readonly source_dir PLUGIN_ROOT)
              (prepare_agent_local source_dir PLUGIN_ROOT)
              (prepare_agent_targets source_dir PLUGIN_ROOT)
              command_in_plugin trees_apart
              DDD.AGENT_TO_COMMAND [] t t v (agree_refl _ _)
              (command_targets_NoDup commands_dir) Hv)
    as (E1 & _ & E3 & E4).
  rewrite Hp in E1, E3, E4.
  split; [now rewrite Hv, E3|]. split; [exact E1 | exact E4].
Qed.

(** The mirror of the context directory where it can be done. *)
Lemma copy_context_applies (t : Tree) :
  is_Some (node_at t context_dir) ->
  (forall q, globbed t context_dir ".md" q = true -> node_at t q <> Some Dir) ->
  (forall rel source,
     globbed t context_dir ".md" (context_dir ++ rel) = true ->
     node_at t (context_dir ++ rel) = Some (File source) ->
     (forall q c, q `prefix_of` parent (references_dir ++ rel) ->
                  node_at t q <> Some (File c))
     /\ node_at t (references_dir ++ rel) <> Some Dir) ->
  let o := DDD.copy_context_to_skills PLUGIN_ROOT source_dir false t in
  (exists v, result o = Ok v)
  /\ (forall rel source,
        globbed t context_dir ".md" (context_dir ++ rel) = true ->
        node_at t (context_dir ++ rel) = Some (File source) ->
        node_at (tree o) (references_dir ++ rel)
        = Some (File (DDD.inject_credit (ddd_transformed source))))
  /\ (forall target content,
        (target, content) ∈ writes (events o) ->
        exists rel source,
          target = references_dir ++ rel
          /\ globbed t context_dir ".md" (context_dir ++ rel) = true
          /\ node_at t (context_dir ++ rel) = Some (File source)
          /\ content = DDD.inject_credit (ddd_transformed source)).
Proof.
  intros [n Hn] Hf Hw. cbv zeta. rewrite copy_context_at, Hn.
  set (prepare := prepare_md context_dir references_dir).
  set (tgt := md_target context_dir references_dir).
  set (md_files := filter _ _).
  assert (Hres : forall q, q ∈ md_files ->
            exists rel source,
              q = context_dir ++ rel
              /\ globbed t context_dir ".md" (context_dir ++ rel) = true
              /\ node_at t (context_dir ++ rel) = Some (File source)
              /\ tgt q = references_dir ++ rel
              /\ result (prepare q t)
                 = Ok (Ready (references_dir ++ rel)
                         (DDD.inject_credit (ddd_transformed source)))).
  { intros q Hq. pose proof (md_files_globbed _ _ _ Hq) as Hg.
    destruct (md_target_globbed source_dir PLUGIN_ROOT t q Hg)
      as (rel & Eq & Et & Er).
    destruct (md_files_file _ _ Hf q Hq) as [source Hs].
    exists rel, source. subst q.
    split; [reflexivity|]. split; [exact Hg|].
    split; [exact Hs|]. split; [exact Et|].
    now apply prepare_md_result. }
  destruct (write_each_returns prepare tgt "  [DRY-RUN] Would create: "
              "  Created: " source_dir PLUGIN_ROOT
              (prepare_md_readonly source_dir PLUGIN_ROOT)
              (prepare_md_local source_dir PLUGIN_ROOT)
              (prepare_md_targets source_dir PLUGIN_ROOT)
              (md_target_in_plugin source_dir PLUGIN_ROOT) trees_apart
              md_files [] t t (agree_refl _ _)) as [v Hv].
  { intros q Hq. destruct (Hres q Hq) as (rel & source & _ & _ & _ & _ & R).
    eauto. }
  { intros q Hq. destruct (Hres q Hq) as (rel & source & Eq & Hg & Hs & Et & _).
    rewrite Et. now apply (Hw rel source). }
  { now apply md_targets_unnested. }
  destruct (write_each_apply prepare tgt "  [DRY-RUN] Would create: "
              "  Created: " source_dir PLUGIN_ROOT
              (prepare_md_readonly source_dir PLUGIN_ROOT)
              (prepare_md_local source_dir PLUGIN_ROOT)
              (prepare_md_targets source_dir PLUGIN_ROOT)
              (md_target_in_plugin source_dir PLUGIN_ROOT) trees_apart
              md_files [] t t v (agree_refl _ _)
              (md_targets_NoDup source_dir PLUGIN_ROOT t) Hv)
    as (E1 & _ & _ & E4).
  split; [now exists v|]. split.
  - intros rel source Hg Hs.
    assert (Hq : context_dir ++ rel ∈ md_files)
      by (eapply md_files_found; eauto).
    apply E4. apply list_elem_of_omap. exists (context_dir ++ rel).
    split; [exact Hq|].
    destruct (Hres _ Hq) as (rel' & source' & Eq & _ & Hs' & _ & R).
    apply app_inv_head in Eq. subst rel'.
    rewrite Hs in Hs'. injection Hs' as <-. now rewrite R.
  - intros target content. rewrite E1. intros Hp.
    apply list_elem_of_omap in Hp as (q & Hq & Eq).
    destruct (Hres _ Hq) as (rel & source & _ & Hg & Hs & _ & R).
    rewrite R in Eq. injection Eq as <- <-. now exists rel, source.
Qed.

Lemma convert_agents_frame (t : Tree) (q : Path) :
  (forall item, item ∈ DDD.AGENT_TO_COMMAND ->
                ~ q `prefix_of` commands_dir </> snd item) ->
  node_at (tree (DDD.convert_agents_to_commands PLUGIN_ROOT source_dir false t))
    q
  = node_at t q.
Proof.
  intros Hq. rewrite convert_agents_at.
  destruct (node_at t agents_dir); [|reflexivity].
  now apply (write_each_frame _ _ _ _ (prepare_agent_readonly _ _)
               (prepare_agent_targets _ _)).
Qed.

Lemma convert_agents_way (t : Tree) (q : Path) :
  (forall item, item ∈ DDD.AGENT_TO_COMMAND -> q <> commands_dir </> snd item) ->
  (forall c, node_at t q <> Some (File c)) ->
  forall c,
    node_at
      (tree (DDD.convert_agents_to_commands PLUGIN_ROOT source_dir false t)) q
    <> Some (File c).
Proof.
  intros Hq Hn. rewrite convert_agents_at.
  destruct (node_at t agents_dir); [|exact Hn].
  now apply (write_each_keeps_way _ _ _ _ (prepare_agent_readonly _ _)
               (prepare_agent_targets _ _)).
Qed.

Lemma copy_context_frame (t : Tree) (q : Path) :
  ~ q `prefix_of` references_dir -> ~ references_dir `prefix_of` q ->
  node_at (tree (DDD.copy_context_to_skills PLUGIN_ROOT source_dir false t)) q
  = node_at t q.
Proof.
  intros H1 H2. rewrite copy_context_at.
  destruct (node_at t context_dir); [|reflexivity].
  apply (write_each_frame _ _ _ _ (prepare_md_readonly _ _)
           (prepare_md_targets _ _)).
  intros x _ Hp. unfold md_target in Hp.
  destruct (prefix_weak_total _ _ _ Hp (prefix_app_r _ _ _ (reflexivity _)))
    as [H|H]; tauto.
Qed.

Lemma copy_context_way (t : Tree) (q : Path) :
  q `prefix_of` references_dir ->
  (forall c, node_at t q <> Some (File c)) ->
  forall c,
    node_at (tree (DDD.copy_context_to_skills PLUGIN_ROOT source_dir false t)) q
    <> Some (File c).
Proof.
  intros Hq Hn. rewrite copy_context_at.
  destruct (node_at t context_dir); [|exact Hn].
  apply (write_each_keeps_way _ _ _ _ (prepare_md_readonly _ _)
           (prepare_md_targets _ _)); [|exact Hn].
  intros x Hx E. pose proof (md_files_globbed _ _ _ Hx) as Hg.
  destruct (md_target_globbed source_dir PLUGIN_ROOT t x Hg)
    as (rel & _ & Et & Er).
  destruct (globbed_inv _ _ _ _ Hg) as (a & rel' & Er' & _).
  rewrite Er in Er'. injection Er' as ->.
  rewrite E, Et in Hq. apply prefix_length in Hq.
  rewrite length_app in Hq. cbn in Hq. lia.
Qed.

End DDDRun.

Ltac apart_paths :=
  let H := fresh in
  intros H; unfold child in H; rewrite <- ?app_assoc in H;
  apply prefix_app_inv in H; destruct H as [? H]; cbn [app] in H;
  discriminate H.

(** X21. [main] of sync_ddd.py, applying, from a tree that holds the
    agents and the context directories, with no directory in the place of
    an agent file or under a Markdown name below context/, and where the
    command files, the references and SKILL.md can be written: it returns,
    with exit status 0; at the end the command file of every agent file
    found holds its converted text, the references directory holds the
    copy of every Markdown file found below context/ at the same relative
    path, and SKILL.md holds the template. No step disturbs what another
    reads or has written; the last lines printed are the notice of
    completion and the closing rule. *)
Theorem ddd_main_syncs (PLUGIN_ROOT source_dir : Path) (t : Tree) :
  let agents_dir := source_dir </> "agents" in
  let commands_dir := PLUGIN_ROOT </> "commands" in
  let context_dir := source_dir </> "context" in
  let references_dir :=
    PLUGIN_ROOT </> "skills" </> "ddd-guide" </> "references" in
  let skill_path := PLUGIN_ROOT </> "skills" </> "ddd-guide" </> "SKILL.md" in
  apart source_dir PLUGIN_ROOT ->
  is_Some (node_at t agents_dir) ->
  (forall item, item ∈ DDD.AGENT_TO_COMMAND ->
                node_at t (agents_dir </> fst item) <> Some Dir) ->
  is_Some (node_at t context_dir) ->
  (forall q, globbed t context_dir ".md" q = true -> node_at t q <> Some Dir) ->
  (forall q c, q `prefix_of` commands_dir -> node_at t q <> Some (File c)) ->
  (forall item, item ∈ DDD.AGENT_TO_COMMAND ->
                node_at t (commands_dir </> snd item) <> Some Dir) ->
  (forall rel source,
     globbed t context_dir ".md" (context_dir ++ rel) = true ->
     node_at t (context_dir ++ rel) = Some (File source) ->
     (forall q c, q `prefix_of` parent (references_dir ++ rel) ->
                  node_at t q <> Some (File c))
     /\ node_at t (references_dir ++ rel) <> Some Dir) ->
  (forall q c, q `prefix_of` parent skill_path -> node_at t q <> Some (File c)) ->
  node_at t skill_path <> Some Dir ->
  let run := DDD.main_after_clone PLUGIN_ROOT source_dir false t in
  result run = Ok tt
  /\ exit_status (result run) = 0
  /\ (forall item source,
        item ∈ DDD.AGENT_TO_COMMAND ->
        node_at t (agents_dir </> fst item) = Some (File source) ->
        node_at (tree run) (commands_dir </> snd item)
        = Some (File (command_text source (stem (snd item)))))
  /\ (forall rel source,
        globbed t context_dir ".md" (context_dir ++ rel) = true ->
        node_at t (context_dir ++ rel) = Some (File source) ->
        node_at (tree run) (references_dir ++ rel)
        = Some (File (DDD.inject_credit (ddd_transformed source))))
  /\ node_at (tree run) skill_path = Some (File DDD.SKILL_MD_TEMPLATE)
  /\ ends_with ["Sync complete!"; Core.rule60] run.
Proof.
  intros agents_dir commands_dir context_dir references_dir skill_path
    Ha Hag Hsr Hcx Hnd Hcw Hcd Hrw Hsw Hsd. cbv zeta.
  (* the commands *)
  destruct (convert_agents_applies source_dir PLUGIN_ROOT Ha t Hag Hsr Hcw Hcd)
    as (R1 & _ & N1).
  pose proof (convert_agents_agree PLUGIN_ROOT source_dir false t Ha) as A1.
  pose proof (convert_agents_frame source_dir PLUGIN_ROOT t) as F1.
  pose proof (convert_agents_way source_dir PLUGIN_ROOT t) as K1.
  set (o1 := DDD.convert_agents_to_commands PLUGIN_ROOT source_dir false t)
    in *.
  set (t1 := tree o1) in *.
  assert (A1' : agree context_dir t t1).
  { intros q Hq. apply A1. etransitivity; [|exact Hq].
    unfold context_dir, child. now apply prefix_app_r. }
  assert (Hg1 : forall q, globbed t1 context_dir ".md" q
                          = globbed t context_dir ".md" q)
    by (intros q; now apply globbed_agree).
  (* the references *)
  assert (Hcx1 : is_Some (node_at t1 context_dir)).
  { rewrite (A1 context_dir); [exact Hcx|].
    unfold context_dir, child. now apply prefix_app_r. }
  assert (Hnd1 : forall q, globbed t1 context_dir ".md" q = true ->
                   node_at t1 q <> Some Dir).
  { intros q Hg. rewrite Hg1 in Hg.
    destruct (globbed_inv _ _ _ _ Hg) as (a & rel & _ & Eq & _).
    rewrite (A1' q) by (rewrite Eq; now apply prefix_app_r).
    now apply Hnd. }
  assert (Hin1 : forall rel, node_at t1 (context_dir ++ rel)
                             = node_at t (context_dir ++ rel))
    by (intros rel; apply A1'; now apply prefix_app_r).
  assert (Hrw1 : forall rel source,
             globbed t1 context_dir ".md" (context_dir ++ rel) = true ->
             node_at t1 (context_dir ++ rel) = Some (File source) ->
             (forall q c, q `prefix_of` parent (references_dir ++ rel) ->
                          node_at t1 q <> Some (File c))
             /\ node_at t1 (references_dir ++ rel) <> Some Dir).
  { intros rel source Hg Hs. rewrite Hg1 in Hg. rewrite Hin1 in Hs.
    destruct (Hrw rel source Hg Hs) as [Hw Hd]. split.
    - intros q c Hq. apply K1; [|intros c'; now apply Hw].
      intros item _ ->.
      assert (Hp : commands_dir </> snd item `prefix_of` references_dir ++ rel)
        by (etransitivity; [exact Hq | apply parent_prefix]).
      revert Hp. unfold commands_dir, references_dir. apart_paths.
    - rewrite F1; [exact Hd|]. intros item _.
      unfold commands_dir, references_dir. apart_paths. }
  destruct (copy_context_applies source_dir PLUGIN_ROOT Ha t1 Hcx1 Hnd1 Hrw1)
    as ([v2 R2] & N2 & _).
  pose proof (copy_context_frame source_dir PLUGIN_ROOT t1) as F2.
  pose proof (copy_context_way source_dir PLUGIN_ROOT t1) as K2.
  set (o2 := DDD.copy_context_to_skills PLUGIN_ROOT source_dir false t1) in *.
  set (t2 := tree o2) in *.
  (* SKILL.md *)
  assert (Hsw2 : forall q c, q `prefix_of` parent skill_path ->
                   node_at t2 q <> Some (File c)).
  { intros q c Hq. apply K2.
    - etransitivity; [exact Hq|]. unfold skill_path, references_dir.
      rewrite parent_child. unfold child. now apply prefix_app_r.
    - apply K1; [|intros c'; now apply Hsw].
      intros item _ ->.
      assert (Hp : commands_dir </> snd item `prefix_of` skill_path)
        by (etransitivity; [exact Hq | apply parent_prefix]).
      revert Hp. unfold commands_dir, skill_path. apart_paths. }
  assert (Hsd2 : node_at t2 skill_path <> Some Dir).
  { rewrite F2, F1; [exact Hsd | | |].
    - intros item _. unfold commands_dir, skill_path. apart_paths.
    - unfold skill_path, references_dir. apart_paths.
    - unfold skill_path, references_dir. apart_paths. }
  destruct (writer_ret_apply "  [DRY-RUN] Would create: " "  Created: "
              skill_path DDD.SKILL_MD_TEMPLATE t2 Hsw2 Hsd2)
    as (R3 & N3 & _ & _ & F3).
  change ((writer "  [DRY-RUN] Would create: " "  Created: " false skill_path
             DDD.SKILL_MD_TEMPLATE;; mret skill_path) t2)
    with (DDD.generate_skill_md PLUGIN_ROOT false t2) in R3, N3, F3.
  set (o3 := DDD.generate_skill_md PLUGIN_ROOT false t2) in *.
  (* the run *)
  assert (E : result (DDD.main_after_clone PLUGIN_ROOT source_dir false t)
              = Ok tt
              /\ tree (DDD.main_after_clone PLUGIN_ROOT source_dir false t)
                 = tree o3).
  { unfold DDD.main_after_clone.
    rewrite print_bind, bind_at. fold o1. rewrite R1.
    cbn [prepend result tree events]. fold t1.
    rewrite print_bind, bind_at. fold o2. rewrite R2.
    cbn [prepend result tree events]. fold t2.
    rewrite print_bind, bind_at. fold o3. rewrite R3.
    cbn [prepend result tree events]. rewrite !print_bind. unfold print.
    cbn [prepend result tree events]. now split. }
  destruct E as [Er Et]. rewrite Er, Et.
  split; [reflexivity|]. split; [reflexivity|].
  split; [|split; [|split]].
  - intros item source Hi Hs.
    rewrite F3, F2.
    + apply N1. apply list_elem_of_omap. exists item. split; [exact Hi|].
      unfold converted_file. fold agents_dir. now rewrite Hs.
    + unfold commands_dir, references_dir. apart_paths.
    + unfold commands_dir, references_dir. apart_paths.
    + unfold commands_dir, skill_path. apart_paths.
  - intros rel source Hg Hs. rewrite F3.
    + apply N2; [now rewrite Hg1 | now rewrite Hin1].
    + unfold references_dir, skill_path. apart_paths.
  - exact N3.
  - unfold DDD.main_after_clone.
    do 6 (apply bind_ends_with; intros ? ?).
    apply (closing_lines false).
Qed.

Lemma ddd_main_syncs_witness :
  apart Sample.ddd_clone Sample.plugin
  /\ result (DDD.main_after_clone Sample.plugin Sample.ddd_clone false
               Sample.ddd_tree) = Ok tt
  /\ node_at
       (tree (DDD.main_after_clone Sample.plugin Sample.ddd_clone false
                Sample.ddd_tree))
       (Sample.plugin </> "commands" </> "ddd-1-plan.md")
     = Some (File (command_text Sample.agent_doc (stem "ddd-1-plan.md")))
  /\ node_at
       (tree (DDD.main_after_clone Sample.plugin Sample.ddd_clone false
                Sample.ddd_tree))
       (Sample.plugin </> "skills" </> "ddd-guide" </> "references"
        ++ ["phases"; "plan.md"])
     = Some (File (DDD.inject_credit (ddd_transformed Sample.agent_doc)))
  /\ node_at
       (tree (DDD.main_after_clone Sample.plugin Sample.ddd_clone false
                Sample.ddd_tree))
       (Sample.plugin </> "skills" </> "ddd-guide" </> "SKILL.md")
     = Some (File DDD.SKILL_MD_TEMPLATE).
Proof.
  assert (H1 : is_Some (node_at Sample.ddd_tree (Sample.ddd_clone </> "agents")))
    by (eexists; reflexivity).
  assert (H2 : forall item, item ∈ DDD.AGENT_TO_COMMAND ->
                 node_at Sample.ddd_tree
                   (Sample.ddd_clone </> "agents" </> fst item) <> Some Dir).
  { intros item H. apply list_elem_of_In in H.
    repeat (destruct H as [<- | H]; [vm_compute; discriminate|]).
    destruct H. }
  assert (H3 : is_Some (node_at Sample.ddd_tree
                          (Sample.ddd_clone </> "context")))
    by (eexists; reflexivity).
  assert (H4 : forall q,
             globbed Sample.ddd_tree (Sample.ddd_clone </> "context") ".md" q
             = true ->
             node_at Sample.ddd_tree q <> Some Dir).
  { intros q Hg Hd. destruct q as [|a q]; [discriminate Hg|].
    assert (He : every_entry
                   (no_dir_found Sample.ddd_tree
                      (Sample.ddd_clone </> "context") ".md") Sample.ddd_tree
                 = true) by (vm_compute; reflexivity).
    apply (every_entry_spec _ _ He) in Hd. cbn [no_dir_found] in Hd.
    rewrite Hg in Hd. discriminate Hd. }
  assert (H5 : forall q c, q `prefix_of` Sample.plugin </> "commands" ->
                 node_at Sample.ddd_tree q <> Some (File c))
    by (apply clear_way_spec; reflexivity).
  assert (H6 : forall item, item ∈ DDD.AGENT_TO_COMMAND ->
                 node_at Sample.ddd_tree
                   (Sample.plugin </> "commands" </> snd item) <> Some Dir).
  { intros item H. apply list_elem_of_In in H.
    repeat (destruct H as [<- | H]; [vm_compute; discriminate|]).
    destruct H. }
  assert (H7 : forall rel source,
             globbed Sample.ddd_tree (Sample.ddd_clone </> "context") ".md"
               (Sample.ddd_clone </> "context" ++ rel) = true ->
             node_at Sample.ddd_tree (Sample.ddd_clone </> "context" ++ rel)
             = Some (File source) ->
             (forall q c,
                q `prefix_of`
                  parent (Sample.plugin </> "skills" </> "ddd-guide"
                          </> "references" ++ rel) ->
                node_at Sample.ddd_tree q <> Some (File c))
             /\ node_at Sample.ddd_tree
                  (Sample.plugin </> "skills" </> "ddd-guide" </> "references"
                   ++ rel) <> Some Dir).
  { intros rel source _ Hs.
    assert (He : every_entry
                   (room_for Sample.ddd_tree (Sample.ddd_clone </> "context")
                      (Sample.plugin </> "skills" </> "ddd-guide"
                       </> "references")) Sample.ddd_tree
                 = true) by (vm_compute; reflexivity).
    apply (every_entry_spec _ _ He) in Hs. cbn [room_for] in Hs.
    rewrite relative_to_app_eq in Hs.
    apply andb_true_iff in Hs as [Hw Hn].
    split; [exact (clear_way_spec _ _ Hw)|].
    intros Hd. rewrite Hd in Hn. discriminate Hn. }
  assert (H8 : forall q c,
             q `prefix_of`
               parent (Sample.plugin </> "skills" </> "ddd-guide"
                       </> "SKILL.md") ->
             node_at Sample.ddd_tree q <> Some (File c))
    by (apply clear_way_spec; reflexivity).
  assert (H9 : node_at Sample.ddd_tree
                 (Sample.plugin </> "skills" </> "ddd-guide" </> "SKILL.md")
               <> Some Dir) by (vm_compute; discriminate).
  destruct (ddd_main_syncs Sample.plugin Sample.ddd_clone Sample.ddd_tree
              sample_apart_ddd H1 H2 H3 H4 H5 H6 H7 H8 H9)
    as (R & _ & C & M & S & _).
  split; [exact sample_apart_ddd|]. split; [exact R|].
  split; [exact (C ("planning-architect.md", "ddd-1-plan.md") Sample.agent_doc
                   ltac:(apply elem_of_cons; now left) eq_refl)|].
  split; [exact (M ["phases"; "plan.md"] Sample.agent_doc eq_refl eq_refl)
         | exact S].
Defined.

(** ** One file, written or not *)

(** Making directories takes no node away. *)
Lemma made_up_to_keeps (p : Path) (t t' : Tree) (q : Path) (n : node) :
  made_up_to p t t' -> node_at t q = Some n -> node_at t' q = Some n.
Proof.
  intros G Hn. destruct (G q) as [-> | (Hq & _)]; [exact Hn | congruence].
Qed.

Lemma read_then_write_all_or_nothing (pre : M string) (would done : string)
    (target : Path) (f : M Path) (t : Tree) :
  f t = (pre ≫= fun content =>
           writer would done false target content;; mret target) t ->
  tree (pre t) = t -> quiet (events (pre t)) ->
  all_or_nothing f t.
Proof.
  intros Hf Et (_ & Qw & _). unfold all_or_nothing. rewrite Hf, bind_at.
  destruct (result (pre t)) as [content|e0] eqn:Rp.
  - rewrite Et, bind_at.
    destruct (writer_apply would done target content t)
      as (t1 & ev1 & G & [Ep Ew] & [(Ro & Nr & Ett & Ev) | (e1 & Ro & Ett & Ev)]
          & _); rewrite Ro; unfold mret, M_ret, ret;
      cbn [prepend result tree events].
    + split; [discriminate|]. intros v [= <-]. exists content.
      rewrite app_nil_r, writes_app, Qw, Ev, writes_app, Ew.
      split; [reflexivity|].
      rewrite Ett, node_at_insert by exact Nr. now rewrite decide_True.
    + split; [|discriminate]. intros e _.
      rewrite writes_app, Qw, Ev, Ew. split; [reflexivity|].
      intros q n Hn. rewrite Ett. now apply (made_up_to_keeps _ _ _ _ _ G).
  - cbn [result tree events]. split; [|discriminate].
    intros e _. rewrite Et. split; [exact Qw | auto].
Qed.

(** X23. Each of the three functions that assemble one file writes that
    file or nothing, from any tree: when an applying run raises, it has
    written no file and every node that was there is still there
    (directories may have been made on the way); when it returns a path, it
    has made one write, the file at that path. *)
Theorem single_file_syncs_write_all_or_nothing (PLUGIN_ROOT source_dir : Path)
    (t : Tree) :
  all_or_nothing (Core.sync_philosophy PLUGIN_ROOT source_dir false) t
  /\ all_or_nothing (Core.sync_module_development PLUGIN_ROOT source_dir false) t
  /\ all_or_nothing (DDD.generate_skill_md PLUGIN_ROOT false) t.
Proof.
  split; [|split].
  - apply (read_then_write_all_or_nothing (gather_philosophy source_dir)
             "  [DRY-RUN] Would update: " "  Updated: "
             (PLUGIN_ROOT </> "skills" </> "amplifier-philosophy" </> "SKILL.md")).
    + apply sync_philosophy_split.
    + now rewrite gather_philosophy_at.
    + rewrite gather_philosophy_at. apply quiet_nil.
  - apply (read_then_write_all_or_nothing (gather_module_development source_dir)
             "  [DRY-RUN] Would update: " "  Updated: "
             (PLUGIN_ROOT </> "skills" </> "module-development" </> "SKILL.md")).
    + apply sync_module_development_split.
    + apply gather_module_development_quiet.
    + apply gather_module_development_quiet.
  - apply (read_then_write_all_or_nothing (mret DDD.SKILL_MD_TEMPLATE)
             "  [DRY-RUN] Would create: " "  Created: "
             (PLUGIN_ROOT </> "skills" </> "ddd-guide" </> "SKILL.md")).
    + now rewrite ret_bind.
    + reflexivity.
    + apply quiet_nil.
Qed.

(** ** A directory where the loops expect a document *)

Section WriteEachDirectory.

Context {X : Type}.
Variable prepare : X -> M prepared.
Variables would done : string.

Hypothesis prepare_readonly : readonly prepare.

(** The loop does not return when the document of one of its items is a
    directory. *)
Lemma write_each_directory (dry_run : bool) (items : list X)
    (acc : list Path) (t : Tree) (x : X) (d : Path) :
  (forall t', node_at t' d = Some Dir ->
     exists e, result (prepare x t') = Raise e) ->
  x ∈ items -> node_at t d = Some Dir ->
  exists e,
    result (write_each prepare would done dry_run items acc t) = Raise e.
Proof.
  intros directory_raises.
  revert acc t. induction items as [|y items IH]; intros acc t Hin Hd.
  - now apply elem_of_nil in Hin.
  - rewrite (write_each_cons _ _ _ prepare_readonly).
    destruct (result (prepare y t)) as [[warning|target content]|e] eqn:Ry;
      [| |now exists e].
    + cbn [prepend result]. apply IH; [|exact Hd].
      apply elem_of_cons in Hin as [->|Hin]; [|exact Hin].
      destruct (directory_raises _ Hd) as (e & Re). congruence.
    + cbv zeta.
      assert (Hin' : x ∈ items).
      { apply elem_of_cons in Hin as [->|Hin]; [|exact Hin].
        destruct (directory_raises _ Hd) as (e & Re). congruence. }
      destruct dry_run.
      * rewrite writer_dry. cbn [result tree events prepend].
        now apply IH.
      * pose proof (writer_keeps_dir would done target content t d) as K.
        destruct (result (writer would done false target content t))
          as [[]|e]; [|now exists e].
        cbn [prepend result]. apply IH; [exact Hin'|]. now apply K.
Qed.

(** What a dry run raises, the part of the body before the Writer has
    raised, for one of the items and from the tree of the start. *)
Lemma write_each_dry_raise (items : list X) (acc : list Path) (t : Tree)
    (e : exn) :
  result (write_each prepare would done true items acc t) = Raise e ->
  exists x, x ∈ items /\ result (prepare x t) = Raise e.
Proof.
  revert acc. induction items as [|y items IH]; intros acc; [discriminate|].
  rewrite (write_each_cons _ _ _ prepare_readonly).
  destruct (result (prepare y t)) as [[warning|target content]|e'] eqn:Ry.
  - cbn [prepend result]. intros H. destruct (IH _ H) as (x & Hx & Rx).
    exists x. split; [now apply elem_of_cons; right | exact Rx].
  - cbv zeta. rewrite writer_dry. cbn [result tree events prepend].
    intros H. destruct (IH _ H) as (x & Hx & Rx).
    exists x. split; [now apply elem_of_cons; right | exact Rx].
  - cbn [result]. intros [= <-]. exists y.
    split; [now apply elem_of_cons; left | exact Ry].
Qed.

End WriteEachDirectory.

Lemma prepare_agent_directory (agents_dir commands_dir : Path)
    (item : string * string) (t : Tree) :
  node_at t (agents_dir </> fst item) = Some Dir ->
  result (prepare_agent agents_dir commands_dir item t)
  = Raise (IsADirectoryError (agents_dir </> fst item)).
Proof. intros N. now rewrite prepare_agent_at, N. Qed.

Lemma prepare_agent_raise (agents_dir commands_dir : Path)
    (item : string * string) (t : Tree) (e : exn) :
  item ∈ DDD.AGENT_TO_COMMAND ->
  result (prepare_agent agents_dir commands_dir item t) = Raise e ->
  e = IsADirectoryError (agents_dir </> fst item)
  /\ node_at t (agents_dir </> fst item) = Some Dir.
Proof.
  intros Hin. rewrite prepare_agent_at. cbn [result].
  destruct (node_at t (agents_dir </> fst item)) as [[source|]|];
    [|now intros [= <-]|discriminate].
  now rewrite ddd_transform_ok, (update_frontmatter_name_table _ _ Hin).
Qed.

Lemma prepare_md_directory (context_dir references_dir q : Path) (t : Tree) :
  is_Some (relative_to q context_dir) ->
  node_at t q = Some Dir ->
  result (prepare_md context_dir references_dir q t)
  = Raise (IsADirectoryError q).
Proof. intros [rel Er] N. now rewrite prepare_md_at, Er, N. Qed.

Lemma prepare_md_raise (context_dir references_dir q : Path) (t : Tree)
    (e : exn) :
  is_Some (relative_to q context_dir) -> is_Some (node_at t q) ->
  result (prepare_md context_dir references_dir q t) = Raise e ->
  e = IsADirectoryError q /\ node_at t q = Some Dir.
Proof.
  intros [rel Er] [n N]. rewrite prepare_md_at, Er, N. cbn [result].
  destruct n as [source|]; [|now intros [= <-]].
  now rewrite ddd_transform_ok.
Qed.

(** X22. The loops of sync_ddd.py do not pass over a directory that stands
    where a document is expected. With the agents directory in place and a
    directory at the path of one agent of the table,
    [convert_agents_to_commands] does not return, in either mode, and its
    dry run raises IsADirectoryError for such a path: the warning is for
    paths that do not exist only. A directory below context/ whose name
    ends in .md is found by the search like a file, and
    [copy_context_to_skills] then does not return either, its dry run
    raising IsADirectoryError for such a directory. *)
Theorem directory_in_place_of_ddd_document (PLUGIN_ROOT source_dir : Path)
    (t : Tree) :
  let agents_dir := source_dir </> "agents" in
  let context_dir := source_dir </> "context" in
  (forall item,
     is_Some (node_at t agents_dir) ->
     item ∈ DDD.AGENT_TO_COMMAND ->
     node_at t (agents_dir </> fst item) = Some Dir ->
     (forall dry_run, exists e,
        result (DDD.convert_agents_to_commands PLUGIN_ROOT source_dir
                  dry_run t) = Raise e)
     /\ exists p,
          result (DDD.convert_agents_to_commands PLUGIN_ROOT source_dir
                    true t) = Raise (IsADirectoryError p)
          /\ p ∈ map (fun item => agents_dir </> fst item)
                 DDD.AGENT_TO_COMMAND
          /\ node_at t p = Some Dir)
  /\ (forall q,
        globbed t context_dir ".md" q = true ->
        node_at t q = Some Dir ->
        (forall dry_run, exists e,
           result (DDD.copy_context_to_skills PLUGIN_ROOT source_dir
                     dry_run t) = Raise e)
        /\ exists p,
             result (DDD.copy_context_to_skills PLUGIN_ROOT source_dir
                       true t) = Raise (IsADirectoryError p)
             /\ globbed t context_dir ".md" p = true
             /\ node_at t p = Some Dir).
Proof.
  cbv zeta. split.
  - intros item [n Na] Hin Nd.
    assert (A : forall dry_run, exists e,
               result (DDD.convert_agents_to_commands PLUGIN_ROOT source_dir
                         dry_run t) = Raise e).
    { intros dry_run. rewrite convert_agents_at, Na.
      apply (write_each_directory _ _ _
               (prepare_agent_readonly source_dir PLUGIN_ROOT)
               dry_run _ _ _ item (source_dir </> "agents" </> fst item));
        [|exact Hin|exact Nd].
      intros t' Nd'. eexists. now apply prepare_agent_directory. }
    split; [exact A|].
    destruct (A true) as (e & Re). revert Re.
    rewrite convert_agents_at, Na. intros Re.
    destruct (write_each_dry_raise _ _ _
                (prepare_agent_readonly source_dir PLUGIN_ROOT) _ _ _ _ Re)
      as (x & Hx & Rx).
    destruct (prepare_agent_raise _ _ _ _ _ Hx Rx) as [-> Nx].
    exists (source_dir </> "agents" </> fst x). split; [exact Re|].
    split; [|exact Nx].
    apply list_elem_of_In, in_map_iff. exists x.
    split; [reflexivity | now apply list_elem_of_In].
  - intros q Hg Nd.
    destruct (globbed_inv _ _ _ _ Hg) as (a & rel & Er & Eq & Hr).
    assert (Nc : node_at t (source_dir </> "context") = Some Dir).
    { cbn [reachable] in Hr.
      destruct (node_at t (source_dir </> "context")) as [[c|]|];
        try discriminate. reflexivity. }
    assert (Hq : q ∈ filter (fun q => globbed t (source_dir </> "context") ".md" q = true)
                   (map fst (map_to_list t))).
    { apply list_elem_of_filter. split; [exact Hg|].
      apply listed_is_there. exists Dir. rewrite <- Nd, Eq.
      now destruct (source_dir </> "context"). }
    assert (A : forall dry_run, exists e,
               result (DDD.copy_context_to_skills PLUGIN_ROOT source_dir
                         dry_run t) = Raise e).
    { intros dry_run. rewrite copy_context_at, Nc.
      apply (write_each_directory _ _ _
               (prepare_md_readonly source_dir PLUGIN_ROOT)
               dry_run _ _ _ q q); [|exact Hq|exact Nd].
      intros t' Nd'. eexists. apply prepare_md_directory; [|exact Nd'].
      now rewrite Er. }
    split; [exact A|].
    destruct (A true) as (e & Re). revert Re.
    rewrite copy_context_at, Nc. intros Re.
    destruct (write_each_dry_raise _ _ _
                (prepare_md_readonly source_dir PLUGIN_ROOT) _ _ _ _ Re)
      as (x & Hx & Rx).
    apply list_elem_of_filter in Hx as [Gx Lx].
    apply listed_is_there in Lx.
    destruct (globbed_inv _ _ _ _ Gx) as (a' & rel' & Er' & Eq' & _).
    assert (Sx : is_Some (node_at t x)).
    { rewrite Eq'. rewrite Eq' in Lx.
      now destruct (source_dir </> "context"). }
    destruct (prepare_md_raise _ _ _ _ _ ltac:(now rewrite Er') Sx Rx)
      as [-> Nx].
    exists x. split; [exact Re|]. split; [exact Gx | exact Nx].
Qed.

Lemma directory_in_place_of_ddd_document_witness :
  (exists e,
     result (DDD.convert_agents_to_commands Sample.plugin Sample.ddd_clone
               false Sample.odd_ddd_tree) = Raise e)
  /\ (exists p,
        result (DDD.convert_agents_to_commands Sample.plugin Sample.ddd_clone
                  true Sample.odd_ddd_tree) = Raise (IsADirectoryError p)
        /\ node_at Sample.odd_ddd_tree p = Some Dir)
  /\ (exists e,
        result (DDD.copy_context_to_skills Sample.plugin Sample.ddd_clone
                  false Sample.odd_ddd_tree) = Raise e)
  /\ (exists p,
        result (DDD.copy_context_to_skills Sample.plugin Sample.ddd_clone
                  true Sample.odd_ddd_tree) = Raise (IsADirectoryError p)
        /\ node_at Sample.odd_ddd_tree p = Some Dir).
Proof.
  destruct (directory_in_place_of_ddd_document Sample.plugin Sample.ddd_clone
              Sample.odd_ddd_tree) as [H1 H2].
  assert (Hin : ("code-planner.md", "ddd-3-code-plan.md") ∈ DDD.AGENT_TO_COMMAND)
    by (apply list_elem_of_In; vm_compute; tauto).
  destruct (H1 _ ltac:(eexists; reflexivity) Hin eq_refl)
    as (A & p & R & _ & N).
  destruct (H2 (Sample.ddd_clone </> "context" </> "archive.md")
              eq_refl eq_refl) as (B & p' & R' & _ & N').
  split; [exact (A false)|]. split; [exists p; split; [exact R | exact N]|].
  split; [exact (B false)|]. exists p'. split; [exact R' | exact N'].
Defined.
